(** * n8n-nodes-opencode-ai: request shaping, response flattening and the
      temporary-session lifecycle of the OpenCode nodes.

    The development embeds the TypeScript handlers of
    [nodes/OpenCode] (actions, option loaders, dispatcher) as Rocq
    functions over an explicit model of the host: JavaScript strings are
    lists of UTF-16 code units, JSON values are an inductive type, and
    the HTTP traffic of a handler is recorded in a trace. *)

From Stdlib Require Import List NArith ZArith String Ascii Bool Lia.
From Stdlib Require Import Numbers.DecimalString.
From Stdlib Require Import Sorting.Permutation.
Import ListNotations.

Set Implicit Arguments.
Set Warnings "-register-all,-abstract-large-number".

(* ================================================================== *)
(** * JavaScript strings *)
(* ================================================================== *)

Module Str.

(** A JavaScript string is a sequence of UTF-16 code units. *)
Definition char16 := N.
Definition jsstring := list char16.

(** String literals of the source are ASCII; [lit] reads one. *)
Definition lit (s : string) : jsstring :=
  List.map N_of_ascii (list_ascii_of_string s).

Fixpoint eqb (a b : jsstring) : bool :=
  match a, b with
  | [], [] => true
  | x :: a', y :: b' => N.eqb x y && eqb a' b'
  | _, _ => false
  end.

(** Truthiness of a string: only the empty string is falsy. *)
Definition truthy (s : jsstring) : bool :=
  match s with [] => false | _ => true end.

(** [a || b] on strings. *)
Definition or_else (a b : jsstring) : jsstring :=
  if truthy a then a else b.

(** [s.startsWith(p)]. *)
Fixpoint startsWith (p s : jsstring) : bool :=
  match p, s with
  | [], _ => true
  | x :: p', y :: s' => N.eqb x y && startsWith p' s'
  | _ :: _, [] => false
  end.

(** [s.includes(sub)]. *)
Fixpoint includes (sub s : jsstring) : bool :=
  startsWith sub s ||
  match s with
  | [] => false
  | _ :: s' => includes sub s'
  end.

(** [s.split(sep)] for a non-empty separator: the scan goes left to
    right, every match closes the current piece and the scan resumes
    after the separator ([skip] counts the separator's code units still
    to be dropped). *)
Fixpoint split_go (sep : jsstring) (skip : nat) (cur s : jsstring)
  : list jsstring :=
  match s with
  | [] => [rev cur]
  | c :: s' =>
      match skip with
      | S k => split_go sep k cur s'
      | O =>
          if startsWith sep s
          then rev cur :: split_go sep (List.length sep - 1) [] s'
          else split_go sep 0 (c :: cur) s'
      end
  end.

(** [s.split(sep)]; the empty separator splits into code units. *)
Definition split (sep s : jsstring) : list jsstring :=
  match sep with
  | [] => List.map (fun c => [c]) s
  | _ => split_go sep 0 [] s
  end.

(** [arr.join(sep)] on an array of strings. *)
Fixpoint join (sep : jsstring) (l : list jsstring) : jsstring :=
  match l with
  | [] => []
  | [s] => s
  | s :: r => s ++ sep ++ join sep r
  end.

(** [s.replace(pat, by)] with a string pattern: the first occurrence
    only. *)
Fixpoint replace (pat by_ s : jsstring) : jsstring :=
  if startsWith pat s then by_ ++ skipn (List.length pat) s
  else match s with
       | [] => []
       | c :: s' => c :: replace pat by_ s'
       end.

(** ECMAScript WhiteSpace and LineTerminator code points, all of them in
    the Basic Multilingual Plane: TAB, LF, VT, FF, CR, SP, NBSP, U+1680,
    U+2000..U+200A, LS, PS, U+202F, U+205F, U+3000, BOM. *)
Definition isWhiteSpace (c : char16) : bool :=
  (((9 <=? c) && (c <=? 13)) || (c =? 32) || (c =? 160) || (c =? 5760)
   || ((8192 <=? c) && (c <=? 8202)) || (c =? 8232) || (c =? 8233)
   || (c =? 8239) || (c =? 8287) || (c =? 12288) || (c =? 65279))%N.

Fixpoint trimStart (s : jsstring) : jsstring :=
  match s with
  | c :: s' => if isWhiteSpace c then trimStart s' else s
  | [] => []
  end.

Definition trimEnd (s : jsstring) : jsstring := rev (trimStart (rev s)).

(** [s.trim()]. *)
Definition trim (s : jsstring) : jsstring := trimEnd (trimStart s).

(** [n.toString()] for an integer a number holds exactly
    ([Number.isSafeInteger]): its plain decimal.  Beyond these the
    runtime prints the nearest double, in exponent form from 1e21; the
    statements that render a number bound it. *)
Definition ofZ (z : Z) : jsstring :=
  lit (NilZero.string_of_int (Z.to_int z)).

End Str.

Import Str.

(** [Number.isSafeInteger(n)]: the integers a number holds exactly,
    all of which [toString()] prints in plain decimal. *)
Definition isSafeInteger (n : Z) : bool :=
  ((- 9007199254740991 <=? n) && (n <=? 9007199254740991))%Z.

(* ================================================================== *)
(** * JSON values *)
(* ================================================================== *)

(** Values held by an [IDataObject]: JSON, plus [undefined] for a key
    whose value is absent.  A number is kept as the decimal it was
    written as, [mantissa * 10 ^ exponent].  An object is the list of
    its keys in insertion order; the order in which JavaScript
    enumerates integer-like keys is not modelled. *)
Inductive json : Type :=
| JUndef
| JNull
| JBool (b : bool)
| JNum (mantissa exponent : Z)
| JStr (s : jsstring)
| JArr (items : list json)
| JObj (fields : list (jsstring * json)).

(** [obj[k] = v]: an existing key keeps its place and takes the new
    value, a new key goes last. *)
Fixpoint obj_set (k : jsstring) (v : json) (o : list (jsstring * json))
  : list (jsstring * json) :=
  match o with
  | [] => [(k, v)]
  | (k', v') :: o' =>
      if Str.eqb k' k then (k', v) :: o' else (k', v') :: obj_set k v o'
  end.

(** An object literal [{k1: v1, ..., kn: vn}], keys possibly computed:
    the properties are defined from left to right. *)
Definition obj_lit (kvs : list (jsstring * json)) : json :=
  JObj (fold_left (fun o kv => obj_set (fst kv) (snd kv) o) kvs []).

Fixpoint assoc (k : jsstring) (o : list (jsstring * json)) : option json :=
  match o with
  | [] => None
  | (k', v) :: o' => if Str.eqb k' k then Some v else assoc k o'
  end.

(** [v.k] on a value that is not null or undefined; [None] is the
    property being absent. *)
Definition prop (k : string) (v : json) : option json :=
  match v with
  | JObj o =>
      match assoc (lit k) o with
      | Some JUndef => None
      | r => r
      end
  | _ => None
  end.

(** A property read through an interface that declares it a string:
    anything else is outside the declared type and read as absent. *)
Definition prop_str (k : string) (v : json) : option jsstring :=
  match prop k v with
  | Some (JStr s) => Some s
  | _ => None
  end.

(** [x || d] for an optional string. *)
Definition str_or (x : option jsstring) (d : jsstring) : jsstring :=
  match x with
  | Some s => Str.or_else s d
  | None => d
  end.

(** An optional string as a value: [undefined] when absent. *)
Definition opt_str (x : option jsstring) : json :=
  match x with
  | Some s => JStr s
  | None => JUndef
  end.

Definition opt_json (x : option json) : json :=
  match x with
  | Some v => v
  | None => JUndef
  end.

(* ================================================================== *)
(** * The model selector [providerID::modelID] *)
(* ================================================================== *)

Module ModelSelector.

Definition sep : jsstring := lit "::".

(** [getModels]: [value: `${provider.id}::${model.id}`]. *)
Definition encode (providerID modelID : jsstring) : jsstring :=
  providerID ++ sep ++ modelID.

(** The payload builders:
    [if (model && model.includes('::')) {
       const [providerID, modelID] = model.split('::');
       payload.model = { providerID, modelID }; }]
    The result is the pair bound by the destructuring, [None] when the
    guard fails. *)
Definition decode (model : jsstring)
  : option (option jsstring * option jsstring) :=
  if Str.truthy model && Str.includes sep model then
    let pieces := Str.split sep model in
    Some (nth_error pieces 0, nth_error pieces 1)
  else None.

(** The [model] field the message, shell and skill payloads carry. *)
Definition payload_model (model : jsstring) : option json :=
  match decode model with
  | Some (p, m) =>
      Some (obj_lit [(lit "providerID", opt_str p); (lit "modelID", opt_str m)])
  | None => None
  end.

End ModelSelector.

(* ================================================================== *)
(** * [JSON.parse] *)
(* ================================================================== *)

(** The runtime's [JSON.parse], as a recursive-descent parser of the
    JSON grammar.  [None] is the [SyntaxError] the runtime throws. *)
Module JSON.

Local Open Scope N_scope.

(** JSON white space: SP, TAB, LF, CR. *)
Definition is_ws (c : char16) : bool :=
  (c =? 32) || (c =? 9) || (c =? 10) || (c =? 13).

Fixpoint skip_ws (s : jsstring) : jsstring :=
  match s with
  | c :: s' => if is_ws c then skip_ws s' else s
  | [] => []
  end.

Definition digit (c : char16) : option Z :=
  if (48 <=? c) && (c <=? 57) then Some (Z.of_N (c - 48)) else None.

Definition hex (c : char16) : option N :=
  if (48 <=? c) && (c <=? 57) then Some (c - 48)
  else if (65 <=? c) && (c <=? 70) then Some (c - 55)
  else if (97 <=? c) && (c <=? 102) then Some (c - 87)
  else None.

Definition hex4 (a b c d : char16) : option char16 :=
  match hex a, hex b, hex c, hex d with
  | Some x, Some y, Some z, Some w => Some (((x * 16 + y) * 16 + z) * 16 + w)
  | _, _, _, _ => None
  end.

(** The single-character escapes: quote, backslash, slash, b, f, n, r,
    t. *)
Definition unescape (e : char16) : option char16 :=
  if e =? 34 then Some 34
  else if e =? 92 then Some 92
  else if e =? 47 then Some 47
  else if e =? 98 then Some 8
  else if e =? 102 then Some 12
  else if e =? 110 then Some 10
  else if e =? 114 then Some 13
  else if e =? 116 then Some 9
  else None.

(** The characters of a string after its opening quote, up to and
    including the closing quote. *)
Fixpoint parse_chars (acc s : jsstring) : option (jsstring * jsstring) :=
  match s with
  | [] => None
  | c :: s' =>
      if c =? 34 then Some (rev acc, s')
      else if c =? 92 then
        match s' with
        | [] => None
        | e :: s'' =>
            if e =? 117 then
              match s'' with
              | h1 :: h2 :: h3 :: h4 :: s3 =>
                  match hex4 h1 h2 h3 h4 with
                  | Some u => parse_chars (u :: acc) s3
                  | None => None
                  end
              | _ => None
              end
            else
              match unescape e with
              | Some u => parse_chars (u :: acc) s''
              | None => None
              end
        end
      else if c <? 32 then None
      else parse_chars (c :: acc) s'
  end.

(** A run of decimal digits: the value accumulated on [acc], how many
    digits were read, and the rest of the input. *)
Fixpoint digits (acc : Z) (n : nat) (s : jsstring) : Z * nat * jsstring :=
  match s with
  | c :: s' =>
      match digit c with
      | Some d => digits (10 * acc + d)%Z (S n) s'
      | None => (acc, n, s)
      end
  | [] => (acc, n, [])
  end.

(** A number: an optional minus sign; the integer part, a single zero
    or digits not starting with zero; an optional fraction, a point and
    at least one digit; an optional exponent, [e] or [E], an optional
    sign and at least one digit. *)
Definition parse_number (s : jsstring) : option (json * jsstring) :=
  let '(neg, s1) :=
    match s with
    | 45 :: r => (true, r)
    | _ => (false, s)
    end in
  let signed (m : Z) : Z := if neg then (- m)%Z else m in
  match s1 with
  | [] => None
  | c :: r =>
      match digit c with
      | None => None
      | Some _ =>
          let '(i, s2) :=
            if c =? 48 then (0%Z, r)
            else let '(v, _, rest) := digits 0 0 s1 in (v, rest) in
          let frac :=
            match s2 with
            | 46 :: r2 =>
                let '(v, n, rest) := digits i 0 r2 in
                match n with
                | O => None
                | _ => Some (v, n, rest)
                end
            | _ => Some (i, O, s2)
            end in
          match frac with
          | None => None
          | Some (m, fn, s3) =>
              match s3 with
              | e :: r3 =>
                  if (e =? 101) || (e =? 69) then
                    let '(eneg, r4) :=
                      match r3 with
                      | 45 :: q => (true, q)
                      | 43 :: q => (false, q)
                      | _ => (false, r3)
                      end in
                    let '(ev, en, s4) := digits 0 0 r4 in
                    match en with
                    | O => None
                    | _ =>
                        Some (JNum (signed m)
                                ((if eneg then - ev else ev) - Z.of_nat fn)%Z,
                              s4)
                    end
                  else Some (JNum (signed m) (- Z.of_nat fn)%Z, s3)
              | [] => Some (JNum (signed m) (- Z.of_nat fn)%Z, [])
              end
          end
      end
  end.

(** Values, array elements and object members.  Every call spends one
    unit of [fuel]; a call is made at most twice per code unit read. *)
Fixpoint parse_value (fuel : nat) (s : jsstring) {struct fuel}
  : option (json * jsstring) :=
  match fuel with
  | O => None
  | S f =>
      match skip_ws s with
      | [] => None
      | c :: s' =>
          if c =? 123 then
            match skip_ws s' with
            | 125 :: r => Some (JObj [], r)
            | _ => parse_members f [] s'
            end
          else if c =? 91 then
            match skip_ws s' with
            | 93 :: r => Some (JArr [], r)
            | _ => parse_elements f [] s'
            end
          else if c =? 34 then
            match parse_chars [] s' with
            | Some (str, r) => Some (JStr str, r)
            | None => None
            end
          else if Str.startsWith (lit "true") (c :: s')
          then Some (JBool true, skipn 4 (c :: s'))
          else if Str.startsWith (lit "false") (c :: s')
          then Some (JBool false, skipn 5 (c :: s'))
          else if Str.startsWith (lit "null") (c :: s')
          then Some (JNull, skipn 4 (c :: s'))
          else parse_number (c :: s')
      end
  end

with parse_elements (fuel : nat) (acc : list json) (s : jsstring)
  {struct fuel} : option (json * jsstring) :=
  match fuel with
  | O => None
  | S f =>
      match parse_value f s with
      | Some (v, r) =>
          match skip_ws r with
          | 44 :: r' => parse_elements f (v :: acc) r'
          | 93 :: r' => Some (JArr (rev (v :: acc)), r')
          | _ => None
          end
      | None => None
      end
  end

with parse_members (fuel : nat) (acc : list (jsstring * json))
  (s : jsstring) {struct fuel} : option (json * jsstring) :=
  match fuel with
  | O => None
  | S f =>
      match skip_ws s with
      | 34 :: s1 =>
          match parse_chars [] s1 with
          | Some (k, s2) =>
              match skip_ws s2 with
              | 58 :: s3 =>
                  match parse_value f s3 with
                  | Some (v, r) =>
                      match skip_ws r with
                      | 44 :: r' => parse_members f (obj_set k v acc) r'
                      | 125 :: r' => Some (JObj (obj_set k v acc), r')
                      | _ => None
                      end
                  | None => None
                  end
              | _ => None
              end
          | None => None
          end
      | _ => None
      end
  end.

(** [JSON.parse(text)]: one value, white space around it, nothing
    else. *)
Definition parse (text : jsstring) : option json :=
  match parse_value (2 * List.length text + 2) text with
  | Some (v, r) =>
      match skip_ws r with
      | [] => Some v
      | _ => None
      end
  | None => None
  end.

End JSON.

(* ================================================================== *)
(** * The host: parameters, credentials, HTTP, console *)
(* ================================================================== *)

(** A thrown value, as far as the code looks at it: its [message]. *)
Record exn : Type := mkExn { exn_message : option jsstring }.

(** [new Error(msg)]. *)
Definition Error (msg : jsstring) : exn := mkExn (Some msg).

Inductive Result (A : Type) : Type :=
| Ok (a : A)
| Throw (e : exn).
Arguments Ok {A} a.
Arguments Throw {A} e.

(** types/index.ts, [IOpenCodeCredentials]. *)
Record IOpenCodeCredentials : Type := mkCredentials {
  baseUrl : jsstring;
  username : jsstring;
  password : jsstring
}.

Inductive Method : Type := GET | POST | DELETE.

(** Which helper of the host sends the request: [helpers.httpRequest]
    (the actions) or the older [helpers.request] (the option
    loaders). *)
Inductive Helper : Type := HttpRequest | LegacyRequest.

(** The request options handed to the host.  [headers], [json: true]
    and the never-set [qs] are constant and left out. *)
Record Request : Type := mkRequest {
  req_helper : Helper;
  req_method : Method;
  req_url : jsstring;
  req_body : option json;
  req_timeout : option Z;
  req_auth : jsstring * jsstring
}.

(** The [options] collection of a node; every entry is optional. *)
Record Options : Type := mkOptions {
  opt_timeout : option Z;
  opt_trimResponse : option bool;
  opt_responseKey : option jsstring;
  opt_agent : option jsstring;
  opt_messageID : option jsstring;
  opt_system : option jsstring;
  opt_noReply : option bool;
  opt_tools : option jsstring
}.

Definition noOptions : Options :=
  mkOptions None None None None None None None None.

(** The parameters of one input item, by name; [None] is a parameter
    the workflow does not carry. *)
Record NodeParameters : Type := mkParameters {
  sessionMode : option jsstring;
  sessionId : option jsstring;
  tempSessionTitle : option jsstring;
  message : option jsstring;
  simpleResponse : option bool;
  model : option jsstring;
  options : option Options;
  command : option jsstring;
  commandArguments : option jsstring;
  shellCommand : option jsstring;
  shellAgent : option jsstring;
  skill : option jsstring;
  skillArguments : option jsstring;
  title : option jsstring;
  limit : option Z;
  targetMessageId : option jsstring;
  resource : option jsstring;
  operation : option jsstring
}.

(** What the code sees of [IExecuteFunctions] / [ILoadOptionsFunctions]:
    the credentials (or the error of asking for them), the parameters
    of every item, the number of input items ([getInputData().length]),
    the continue-on-fail setting, and the remote service, which answers
    a request knowing the requests made before it. *)
Record Host : Type := mkHost {
  hostCredentials : Result IOpenCodeCredentials;
  parameters : nat -> NodeParameters;
  remote : list Request -> Request -> Result json;
  inputItems : nat;
  continueOnFail : bool
}.

(** What a run leaves behind: the requests sent, oldest first, and the
    lines written with [console.error]. *)
Record World : Type := mkWorld {
  trace : list Request;
  console : list (jsstring * exn)
}.

Definition M (A : Type) : Type := World -> Result A * World.

Definition ret {A} (a : A) : M A := fun w => (Ok a, w).

Definition throw {A} (e : exn) : M A := fun w => (Throw e, w).

Definition bind {A B} (m : M A) (k : A -> M B) : M B :=
  fun w =>
    match m w with
    | (Ok a, w') => k a w'
    | (Throw e, w') => (Throw e, w')
    end.

Declare Scope js_scope.
Delimit Scope js_scope with js.
Notation "x <- m ;; k" := (bind m (fun x => k))
  (at level 61, m at next level, right associativity) : js_scope.
Notation "' p <- m ;; k" := (bind m (fun p => k))
  (at level 61, p pattern, m at next level, right associativity) : js_scope.
Notation "m ;;; k" := (bind m (fun _ => k))
  (at level 61, right associativity) : js_scope.
Local Open Scope js_scope.

(** [try { body } catch (error) { handler(error) }]. *)
Definition try_catch {A} (body : M A) (handler : exn -> M A) : M A :=
  fun w =>
    match body w with
    | (Ok a, w') => (Ok a, w')
    | (Throw e, w') => handler e w'
    end.

(** [try { body } finally { fin }]: [fin] runs on both exits; the
    completion of [body] stands unless [fin] itself throws. *)
Definition try_finally {A} (body : M A) (fin : M unit) : M A :=
  fun w =>
    match body w with
    | (r, w1) =>
        match fin w1 with
        | (Ok _, w2) => (r, w2)
        | (Throw e, w2) => (Throw e, w2)
        end
    end.

Definition console_error (line : jsstring) (e : exn) : M unit :=
  fun w => (Ok tt, mkWorld (trace w) (console w ++ [(line, e)])).

(** [x ?? d]. *)
Definition nullish {A} (x : option A) (d : A) : A :=
  match x with
  | Some a => a
  | None => d
  end.

(** A template literal's rendering of a string that may be
    [undefined]. *)
Definition tpl (x : option jsstring) : jsstring :=
  match x with
  | Some s => s
  | None => lit "undefined"
  end.

Module Api.
Section Api.

Variable h : Host.

(** [await this.helpers.httpRequest(options)] and
    [await this.helpers.request(options)]. *)
Definition send_request (r : Request) : M json :=
  fun w =>
    (remote h (trace w) r, mkWorld (trace w ++ [r]) (console w)).

(** [this.getNodeParameter(name, itemIndex, fallback)]. *)
Definition getNodeParameter {A} (x : option A) (fallback : A) : M A :=
  ret (nullish x fallback).

(** [this.getNodeParameter(name, itemIndex)]: the host throws when the
    parameter is missing. *)
Definition getNodeParameter_required {A} (name : string) (x : option A)
  : M A :=
  match x with
  | Some a => ret a
  | None =>
      throw (Error (lit "Could not get parameter " ++ lit name))
  end.

(* ---------------------------------------------------------------- *)
(** ** helpers/api.ts *)

(** [IApiRequestOptions], without the never-used [qs]. *)
Record IApiRequestOptions : Type := mkApi {
  api_method : Method;
  api_endpoint : jsstring;
  api_body : option json;
  api_timeout : option Z
}.

Definition openCodeApiRequest (credentials : IOpenCodeCredentials)
  (o : IApiRequestOptions) : M json :=
  let requestOptions :=
    mkRequest HttpRequest (api_method o)
      (baseUrl credentials ++ api_endpoint o)
      (api_body o)
      (Some (nullish (api_timeout o) 300000%Z))
      (username credentials, password credentials) in
  try_catch (send_request requestOptions)
    (fun error =>
       let errorMessage :=
         str_or (exn_message error) (lit "Unknown error") in
       throw (Error (lit "OpenCode API request failed: " ++ errorMessage))).

Definition getCredentials : M IOpenCodeCredentials :=
  fun w => (hostCredentials h, w).

(** [createSession]: the [id] of the answer, [undefined] when the
    answer has none.  The answer is read as the object the source casts
    it to ([as IDataObject], [response.id as string]); the statements
    about a created session are made for the answers [typed_created]
    delimits. *)
Definition createSession (credentials : IOpenCodeCredentials)
  (title_ : jsstring) : M (option jsstring) :=
  response <- openCodeApiRequest credentials
    (mkApi POST (lit "/session")
       (Some (obj_lit [(lit "title", JStr title_)])) None) ;;
  ret (prop_str "id" response).

Definition deleteSession (credentials : IOpenCodeCredentials)
  (sessionId_ : option jsstring) : M unit :=
  try_catch
    (openCodeApiRequest credentials
       (mkApi DELETE (lit "/session/" ++ tpl sessionId_) None None) ;;;
     ret tt)
    (fun error =>
       console_error
         (lit "Failed to delete session " ++ tpl sessionId_ ++ lit ":")
         error).

End Api.
End Api.

(* ================================================================== *)
(** * Reading a response *)
(* ================================================================== *)

(** Bodies are read through the interfaces of types/index.ts, as the
    casts of the source do ([as unknown as ISendMessageResponse]): a
    field whose value is outside its declared type is read as absent.
    On an answer that conforms to its interface this is what the source
    computes.  On other answers the source may throw a [TypeError] (a
    [null] answer, a [null] element of an array) or carry a value that
    is not a string into a string position; the embedding does not
    follow it there.  The predicates below delimit the conforming
    answers, and the statements about the content of an answer are made
    for these. *)

(** A field declared [k?: string]: absent, or a string. *)
Definition string_or_absent (x : option json) : bool :=
  match x with
  | None => true
  | Some (JStr _) => true
  | Some _ => false
  end.

(** [IMessagePart.state]: [{ output?: string; metadata?: { output?:
    string } }]. *)
Definition typed_state (st : json) : bool :=
  string_or_absent (prop "output" st) &&
  match prop "metadata" st with
  | Some md => string_or_absent (prop "output" md)
  | None => true
  end.

(** [IMessagePart]: an object; [text?: string]; [state] as above. *)
Definition typed_part (p : json) : bool :=
  match p with
  | JObj _ =>
      string_or_absent (prop "text" p) &&
      match prop "state" p with
      | Some st => typed_state st
      | None => true
      end
  | _ => false
  end.

(** The [parts] of [ISendMessageResponse]: the answer is an object
    whose [parts], when there, is an array of parts. *)
Definition typed_parts (response : json) : bool :=
  match response with
  | JObj _ =>
      match prop "parts" response with
      | None => true
      | Some (JArr l) => forallb typed_part l
      | Some _ => false
      end
  | _ => false
  end.

(** [ISendMessageResponse]: the parts, and an [info] whose [sessionID]
    is a string when there. *)
Definition typed_answer (response : json) : bool :=
  typed_parts response &&
  match prop "info" response with
  | Some info => string_or_absent (prop "sessionID" info)
  | None => true
  end.

(** The answer of a create call, read as [response.id as string]
    ([ICreateSessionResponse] in the adapters): an object whose [id] is
    a string when there. *)
Definition typed_created (body : json) : bool :=
  match body with
  | JObj _ => string_or_absent (prop "id" body)
  | _ => false
  end.

(** An element of the agents answer, [{ name: string; mode?: string }]:
    an object; [name] and [mode] are strings when there. *)
Definition typed_agent (a : json) : bool :=
  match a with
  | JObj _ =>
      string_or_absent (prop "name" a) && string_or_absent (prop "mode" a)
  | _ => false
  end.

(** [ISession], as far as the sessions loader reads it: an object;
    [title] and [id] are strings when there. *)
Definition typed_session (s : json) : bool :=
  match s with
  | JObj _ =>
      string_or_absent (prop "title" s) && string_or_absent (prop "id" s)
  | _ => false
  end.

(* ---------------------------------------------------------------- *)
(** ** The readers *)

(** [INodeExecutionData]: the record and the item it is paired to. *)
Record INodeExecutionData : Type := mkItem {
  item_json : json;
  pairedItem : nat
}.

Definition newline : jsstring := [10%N].

(** [response.parts || []]. *)
Definition parts_or_empty (response : json) : list json :=
  match prop "parts" response with
  | Some (JArr l) => l
  | _ => []
  end.

(** [p.type === t]. *)
Definition type_is (t : string) (p : json) : bool :=
  match prop "type" p with
  | Some (JStr s) => Str.eqb s (lit t)
  | _ => false
  end.

(** [(response.parts || [])
       .filter((p) => p.type === 'text')
       .map((p) => p.text || '')
       .join('\n')]. *)
Definition extractText (response : json) : jsstring :=
  Str.join newline
    (List.map (fun p => str_or (prop_str "text" p) [])
       (List.filter (type_is "text") (parts_or_empty response))).

(** [if (trimResponse) { responseText = responseText.trim(); }]. *)
Definition applyTrim (trimResponse : bool) (text : jsstring) : jsstring :=
  if trimResponse then Str.trim text else text.

(** [response.info?.k]. *)
Definition info_field (k : string) (response : json) : option json :=
  match prop "info" response with
  | Some i => prop k i
  | None => None
  end.

(** [response.info?.sessionID || sessionId]. *)
Definition info_sessionID_or (response : json) (sessionId_ : option jsstring)
  : json :=
  match info_field "sessionID" response with
  | Some (JStr (c :: s)) => JStr (c :: s)
  | _ => opt_str sessionId_
  end.

(** [part.state.output || part.state.metadata?.output || ''] for a part
    whose [state] is [st]. *)
Definition state_output (st : json) : jsstring :=
  str_or (prop_str "output" st)
    (str_or (match prop "metadata" st with
             | Some md => prop_str "output" md
             | None => None
             end) []).

(** The loop of [executeShell] over the parts:
    [if (part.type === 'tool' && part.state) {
       const output = ...; if (output) { shellOutput += output; } }]. *)
Definition extractShellOutput (response : json) : jsstring :=
  fold_left
    (fun shellOutput part =>
       if type_is "tool" part then
         match prop "state" part with
         | Some (JObj st) =>
             let output := state_output (JObj st) in
             if Str.truthy output then shellOutput ++ output
             else shellOutput
         | _ => shellOutput
         end
       else shellOutput)
    (parts_or_empty response) [].

(** [if (c) { payload[k] = v; }]. *)
Definition set_when (c : bool) (k : string) (v : json)
  (o : list (jsstring * json)) : list (jsstring * json) :=
  if c then obj_set (lit k) v o else o.

(** [if (model && model.includes('::')) { ... payload.model = {...} }]. *)
Definition set_model (model_ : jsstring) (o : list (jsstring * json))
  : list (jsstring * json) :=
  match ModelSelector.payload_model model_ with
  | Some m => obj_set (lit "model") m o
  | None => o
  end.

(** [if (toolsJson) { try { payload.tools = JSON.parse(toolsJson); }
    catch { } }]. *)
Definition set_tools (toolsJson : jsstring) (o : list (jsstring * json))
  : list (jsstring * json) :=
  if Str.truthy toolsJson then
    match JSON.parse toolsJson with
    | Some v => obj_set (lit "tools") v o
    | None => o
    end
  else o.

(** The metadata every full record starts with. *)
Definition info_entries (response : json) (sessionId_ : option jsstring)
  : list (jsstring * json) :=
  [ (lit "messageId", opt_json (info_field "id" response));
    (lit "sessionId", info_sessionID_or response sessionId_);
    (lit "model", opt_json (info_field "modelID" response));
    (lit "provider", opt_json (info_field "providerID" response));
    (lit "tokens", opt_json (info_field "tokens" response));
    (lit "cost", opt_json (info_field "cost" response)) ].

Definition text_part (text : jsstring) : json :=
  obj_lit [(lit "type", JStr (lit "text")); (lit "text", JStr text)].

(* ================================================================== *)
(** * actions/message *)
(* ================================================================== *)

Module Message.
Import Api.
Section Message.

Variable h : Host.

(** The statements every message-sending action opens with:
    [if (sessionMode === 'temporary') {
       const tempSessionTitle = this.getNodeParameter('tempSessionTitle',
         itemIndex, 'Temporary Chat Session');
       sessionId = await createSession(this, credentials, tempSessionTitle);
       shouldDeleteSession = true;
     } else {
       sessionId = this.getNodeParameter('sessionId', itemIndex);
     }]
    The result is [(sessionId, shouldDeleteSession)]. *)
Definition determineSession (credentials : IOpenCodeCredentials)
  (p : NodeParameters) (sessionMode_ : jsstring)
  : M (option jsstring * bool) :=
  if Str.eqb sessionMode_ (lit "temporary") then
    tempSessionTitle_ <-
      getNodeParameter (tempSessionTitle p) (lit "Temporary Chat Session") ;;
    sessionId_ <- createSession h credentials tempSessionTitle_ ;;
    ret (sessionId_, true)
  else
    sessionId_ <- getNodeParameter_required "sessionId" (sessionId p) ;;
    ret (Some sessionId_, false).

(** [finally { if (shouldDeleteSession) {
       await deleteSession(this, credentials, sessionId); } }]. *)
Definition cleanup (credentials : IOpenCodeCredentials)
  (sessionId_ : option jsstring) (shouldDeleteSession : bool) : M unit :=
  if shouldDeleteSession then deleteSession h credentials sessionId_
  else ret tt.

(* ---------------------------------------------------------------- *)
(** ** send.ts *)

Definition send_payload (message_ model_ agent messageID system : jsstring)
  (noReply : bool) (toolsJson : jsstring) : json :=
  JObj
    (set_tools toolsJson
       (set_when noReply "noReply" (JBool noReply)
          (set_when (Str.truthy system) "system" (JStr system)
             (set_when (Str.truthy messageID) "messageID" (JStr messageID)
                (set_when (Str.truthy agent) "agent" (JStr agent)
                   (set_model model_
                      [(lit "parts", JArr [text_part message_])])))))).

(** What [sendMessage] returns for a response. *)
Definition send_result (itemIndex : nat) (simpleResponse_ trimResponse : bool)
  (responseKey : jsstring) (sessionId_ : option jsstring)
  (shouldDeleteSession : bool) (response : json)
  : list INodeExecutionData :=
  let responseText := applyTrim trimResponse (extractText response) in
  if simpleResponse_ then
    match JSON.parse responseText with
    | Some parsedJson => [mkItem parsedJson itemIndex]
    | None =>
        [mkItem (obj_lit [(responseKey, JStr responseText)]) itemIndex]
    end
  else
    [mkItem
       (obj_lit
          (info_entries response sessionId_ ++
           [ (lit "wasTemporarySession", JBool shouldDeleteSession);
             (responseKey, JStr responseText);
             (lit "parts", opt_json (prop "parts" response)) ]))
       itemIndex].

(** The [try] block of [sendMessage]. *)
Definition sendMessage_try (credentials : IOpenCodeCredentials)
  (itemIndex : nat) (message_ model_ : jsstring) (simpleResponse_ : bool)
  (o : Options) (sessionId_ : option jsstring) (shouldDeleteSession : bool)
  : M (list INodeExecutionData) :=
  let timeout := nullish (opt_timeout o) 300000%Z in
  let trimResponse := nullish (opt_trimResponse o) true in
  let responseKey := str_or (opt_responseKey o) (lit "response") in
  let agent := str_or (opt_agent o) [] in
  let messageID := str_or (opt_messageID o) [] in
  let system := str_or (opt_system o) [] in
  let noReply := nullish (opt_noReply o) false in
  let toolsJson := str_or (opt_tools o) [] in
  let payload :=
    send_payload message_ model_ agent messageID system noReply toolsJson in
  response <- openCodeApiRequest h credentials
    (mkApi POST (lit "/session/" ++ tpl sessionId_ ++ lit "/message")
       (Some payload) (Some timeout)) ;;
  ret (send_result itemIndex simpleResponse_ trimResponse responseKey
         sessionId_ shouldDeleteSession response).

Definition sendMessage (itemIndex : nat) : M (list INodeExecutionData) :=
  credentials <- getCredentials h ;;
  let p := parameters h itemIndex in
  sessionMode_ <- getNodeParameter (sessionMode p) (lit "existing") ;;
  message_ <- getNodeParameter_required "message" (message p) ;;
  simpleResponse_ <- getNodeParameter (simpleResponse p) false ;;
  model_ <- getNodeParameter (model p) [] ;;
  options_ <- getNodeParameter (options p) noOptions ;;
  '(sessionId_, shouldDeleteSession) <-
    determineSession credentials p sessionMode_ ;;
  try_finally
    (sendMessage_try credentials itemIndex message_ model_ simpleResponse_
       options_ sessionId_ shouldDeleteSession)
    (cleanup credentials sessionId_ shouldDeleteSession).

(* ---------------------------------------------------------------- *)
(** ** sendAsync.ts *)

Definition sendMessageAsync_try (credentials : IOpenCodeCredentials)
  (itemIndex : nat) (message_ model_ : jsstring)
  (o : Options) (sessionId_ : option jsstring) (shouldDeleteSession : bool)
  : M (list INodeExecutionData) :=
  let timeout := nullish (opt_timeout o) 300000%Z in
  let agent := str_or (opt_agent o) [] in
  let messageID := str_or (opt_messageID o) [] in
  let system := str_or (opt_system o) [] in
  let noReply := nullish (opt_noReply o) false in
  let toolsJson := str_or (opt_tools o) [] in
  let payload :=
    send_payload message_ model_ agent messageID system noReply toolsJson in
  openCodeApiRequest h credentials
    (mkApi POST (lit "/session/" ++ tpl sessionId_ ++ lit "/prompt_async")
       (Some payload) (Some timeout)) ;;;
  ret [mkItem
         (obj_lit
            [ (lit "success", JBool true);
              (lit "message", JStr (lit "Message sent successfully (async)"));
              (lit "sessionId", opt_str sessionId_);
              (lit "wasTemporarySession", JBool shouldDeleteSession) ])
         itemIndex].

Definition sendMessageAsync (itemIndex : nat) : M (list INodeExecutionData) :=
  credentials <- getCredentials h ;;
  let p := parameters h itemIndex in
  sessionMode_ <- getNodeParameter (sessionMode p) (lit "existing") ;;
  message_ <- getNodeParameter_required "message" (message p) ;;
  model_ <- getNodeParameter (model p) [] ;;
  options_ <- getNodeParameter (options p) noOptions ;;
  '(sessionId_, shouldDeleteSession) <-
    determineSession credentials p sessionMode_ ;;
  try_finally
    (sendMessageAsync_try credentials itemIndex message_ model_
       options_ sessionId_ shouldDeleteSession)
    (cleanup credentials sessionId_ shouldDeleteSession).

(* ---------------------------------------------------------------- *)
(** ** command.ts

    The repository carries two texts of [executeCommand].  They differ
    in the payload only: one parses [commandArguments] as JSON and
    sends the model as an object, the other sends both as strings. *)

Inductive CommandText : Type :=
| ParsedArguments     (* arguments parsed, model an object *)
| StringArguments.    (* arguments and model strings *)

(** [if (commandArguments) {
       try { payload.arguments = JSON.parse(commandArguments); }
       catch { payload.arguments = { input: commandArguments }; }
     } else { payload.arguments = {}; }]. *)
Definition parsed_arguments (commandArguments_ : jsstring) : json :=
  if Str.truthy commandArguments_ then
    match JSON.parse commandArguments_ with
    | Some v => v
    | None => obj_lit [(lit "input", JStr commandArguments_)]
    end
  else JObj [].

Definition command_payload (text : CommandText)
  (command_ commandArguments_ model_ agent messageId : jsstring) : json :=
  match text with
  | ParsedArguments =>
      JObj
        (set_model model_
           (set_when (Str.truthy agent) "agent" (JStr agent)
              (set_when (Str.truthy messageId) "messageID" (JStr messageId)
                 (obj_set (lit "arguments")
                    (parsed_arguments commandArguments_)
                    [(lit "command", JStr command_)]))))
  | StringArguments =>
      JObj
        (set_when (Str.truthy model_ && Str.includes (lit "::") model_)
           "model" (JStr (Str.replace (lit "::") (lit "/") model_))
           (set_when (Str.truthy agent) "agent" (JStr agent)
              (set_when (Str.truthy messageId) "messageID" (JStr messageId)
                 [ (lit "command", JStr command_);
                   (lit "arguments",
                    JStr (Str.or_else commandArguments_ [])) ])))
  end.

Definition executeCommand_try (text : CommandText)
  (credentials : IOpenCodeCredentials) (itemIndex : nat)
  (command_ commandArguments_ model_ : jsstring)
  (o : Options) (sessionId_ : option jsstring) (shouldDeleteSession : bool)
  : M (list INodeExecutionData) :=
  let timeout := nullish (opt_timeout o) 300000%Z in
  let trimResponse := nullish (opt_trimResponse o) true in
  let responseKey := str_or (opt_responseKey o) (lit "response") in
  let agent := str_or (opt_agent o) [] in
  let messageId := str_or (opt_messageID o) [] in
  let payload :=
    command_payload text command_ commandArguments_ model_ agent messageId in
  response <- openCodeApiRequest h credentials
    (mkApi POST (lit "/session/" ++ tpl sessionId_ ++ lit "/command")
       (Some payload) (Some timeout)) ;;
  let responseText := applyTrim trimResponse (extractText response) in
  ret [mkItem
         (obj_lit
            (info_entries response sessionId_ ++
             [ (lit "command", JStr command_);
               (lit "wasTemporarySession", JBool shouldDeleteSession);
               (responseKey, JStr responseText);
               (lit "parts", opt_json (prop "parts" response)) ]))
         itemIndex].

Definition executeCommand (text : CommandText) (itemIndex : nat)
  : M (list INodeExecutionData) :=
  credentials <- getCredentials h ;;
  let p := parameters h itemIndex in
  sessionMode_ <- getNodeParameter (sessionMode p) (lit "existing") ;;
  command_ <- getNodeParameter_required "command" (command p) ;;
  commandArguments_ <- getNodeParameter (commandArguments p) [] ;;
  model_ <- getNodeParameter (model p) [] ;;
  options_ <- getNodeParameter (options p) noOptions ;;
  '(sessionId_, shouldDeleteSession) <-
    determineSession credentials p sessionMode_ ;;
  try_finally
    (executeCommand_try text credentials itemIndex command_
       commandArguments_ model_ options_ sessionId_ shouldDeleteSession)
    (cleanup credentials sessionId_ shouldDeleteSession).

(* ---------------------------------------------------------------- *)
(** ** shell.ts *)

Definition shell_payload (shellCommand_ agent model_ : jsstring) : json :=
  JObj
    (set_model model_
       [(lit "command", JStr shellCommand_); (lit "agent", JStr agent)]).

Definition shell_result (itemIndex : nat) (simpleResponse_ trimResponse : bool)
  (responseKey shellCommand_ agent : jsstring)
  (sessionId_ : option jsstring) (shouldDeleteSession : bool)
  (response : json) : list INodeExecutionData :=
  let shellOutput := applyTrim trimResponse (extractShellOutput response) in
  if simpleResponse_ then
    [mkItem (obj_lit [(responseKey, JStr shellOutput)]) itemIndex]
  else
    [mkItem
       (obj_lit
          (info_entries response sessionId_ ++
           [ (lit "command", JStr shellCommand_);
             (lit "agent", JStr agent);
             (lit "wasTemporarySession", JBool shouldDeleteSession);
             (responseKey, JStr shellOutput);
             (lit "parts", opt_json (prop "parts" response)) ]))
       itemIndex].

Definition executeShell_try (credentials : IOpenCodeCredentials)
  (itemIndex : nat) (shellCommand_ agent model_ : jsstring)
  (simpleResponse_ : bool)
  (o : Options) (sessionId_ : option jsstring) (shouldDeleteSession : bool)
  : M (list INodeExecutionData) :=
  let timeout := nullish (opt_timeout o) 300000%Z in
  let trimResponse := nullish (opt_trimResponse o) true in
  let responseKey := str_or (opt_responseKey o) (lit "response") in
  response <- openCodeApiRequest h credentials
    (mkApi POST (lit "/session/" ++ tpl sessionId_ ++ lit "/shell")
       (Some (shell_payload shellCommand_ agent model_)) (Some timeout)) ;;
  ret (shell_result itemIndex simpleResponse_ trimResponse responseKey
         shellCommand_ agent sessionId_ shouldDeleteSession response).

Definition executeShell (itemIndex : nat) : M (list INodeExecutionData) :=
  credentials <- getCredentials h ;;
  let p := parameters h itemIndex in
  sessionMode_ <- getNodeParameter (sessionMode p) (lit "existing") ;;
  shellCommand_ <- getNodeParameter_required "shellCommand" (shellCommand p) ;;
  agent <- getNodeParameter_required "shellAgent" (shellAgent p) ;;
  model_ <- getNodeParameter (model p) [] ;;
  simpleResponse_ <- getNodeParameter (simpleResponse p) false ;;
  options_ <- getNodeParameter (options p) noOptions ;;
  '(sessionId_, shouldDeleteSession) <-
    determineSession credentials p sessionMode_ ;;
  try_finally
    (executeShell_try credentials itemIndex shellCommand_ agent model_
       simpleResponse_ options_ sessionId_ shouldDeleteSession)
    (cleanup credentials sessionId_ shouldDeleteSession).

(* ---------------------------------------------------------------- *)
(** ** skill.ts *)

(** [skillArguments ? `/${skill} ${skillArguments}` : `/${skill}`]. *)
Definition skillText (skill_ skillArguments_ : jsstring) : jsstring :=
  if Str.truthy skillArguments_
  then lit "/" ++ skill_ ++ lit " " ++ skillArguments_
  else lit "/" ++ skill_.

Definition skill_payload (skill_ skillArguments_ model_ agent messageId
  : jsstring) : json :=
  JObj
    (set_model model_
       (set_when (Str.truthy agent) "agent" (JStr agent)
          (set_when (Str.truthy messageId) "messageID" (JStr messageId)
             [(lit "parts",
               JArr [text_part (skillText skill_ skillArguments_)])]))).

Definition skill_result (itemIndex : nat) (trimResponse : bool)
  (responseKey skill_ skillArguments_ : jsstring)
  (sessionId_ : option jsstring) (shouldDeleteSession : bool)
  (response : json) : list INodeExecutionData :=
  let responseText := applyTrim trimResponse (extractText response) in
  [mkItem
     (obj_lit
        (info_entries response sessionId_ ++
         [ (lit "skill", JStr skill_);
           (lit "skillArguments", JStr skillArguments_);
           (lit "wasTemporarySession", JBool shouldDeleteSession);
           (responseKey, JStr responseText);
           (lit "parts", opt_json (prop "parts" response)) ]))
     itemIndex].

Definition executeSkill_try (credentials : IOpenCodeCredentials)
  (itemIndex : nat) (skill_ skillArguments_ model_ : jsstring)
  (o : Options) (sessionId_ : option jsstring) (shouldDeleteSession : bool)
  : M (list INodeExecutionData) :=
  let timeout := nullish (opt_timeout o) 300000%Z in
  let trimResponse := nullish (opt_trimResponse o) true in
  let responseKey := str_or (opt_responseKey o) (lit "response") in
  let agent := str_or (opt_agent o) [] in
  let messageId := str_or (opt_messageID o) [] in
  response <- openCodeApiRequest h credentials
    (mkApi POST (lit "/session/" ++ tpl sessionId_ ++ lit "/message")
       (Some (skill_payload skill_ skillArguments_ model_ agent messageId))
       (Some timeout)) ;;
  ret (skill_result itemIndex trimResponse responseKey skill_
         skillArguments_ sessionId_ shouldDeleteSession response).

Definition executeSkill (itemIndex : nat) : M (list INodeExecutionData) :=
  credentials <- getCredentials h ;;
  let p := parameters h itemIndex in
  sessionMode_ <- getNodeParameter (sessionMode p) (lit "existing") ;;
  skill_ <- getNodeParameter_required "skill" (skill p) ;;
  skillArguments_ <- getNodeParameter (skillArguments p) [] ;;
  model_ <- getNodeParameter (model p) [] ;;
  options_ <- getNodeParameter (options p) noOptions ;;
  '(sessionId_, shouldDeleteSession) <-
    determineSession credentials p sessionMode_ ;;
  try_finally
    (executeSkill_try credentials itemIndex skill_ skillArguments_ model_
       options_ sessionId_ shouldDeleteSession)
    (cleanup credentials sessionId_ shouldDeleteSession).

(* ---------------------------------------------------------------- *)
(** ** list.ts, getMessage.ts *)

(** [if (limit && limit > 0) { queryParams.limit = limit.toString(); }]
    followed by ['?' + new URLSearchParams(queryParams).toString()] when
    [queryParams] has a key.  The parameter is a whole number; its
    rendering is that of the source for the integers a number holds
    exactly ([isSafeInteger]). *)
Definition queryString (limit_ : Z) : jsstring :=
  if (negb (limit_ =? 0)%Z && (limit_ >? 0)%Z)%bool
  then lit "?" ++ lit "limit=" ++ Str.ofZ limit_
  else [].

(** [Array.isArray(response) ? response : []]
    and what [listMessages] returns for it. *)
Definition list_result (itemIndex : nat) (sessionId_ : jsstring)
  (response : json) : list INodeExecutionData :=
  let messages :=
    match response with
    | JArr l => l
    | _ => []
    end in
  match messages with
  | [] =>
      [mkItem
         (obj_lit
            [ (lit "messages", JArr []);
              (lit "count", JNum 0 0);
              (lit "sessionId", JStr sessionId_) ])
         itemIndex]
  | _ => List.map (fun msg => mkItem msg itemIndex) messages
  end.

Definition listMessages (itemIndex : nat) : M (list INodeExecutionData) :=
  credentials <- getCredentials h ;;
  let p := parameters h itemIndex in
  sessionId_ <- getNodeParameter_required "sessionId" (sessionId p) ;;
  limit_ <- getNodeParameter (limit p) 50%Z ;;
  response <- openCodeApiRequest h credentials
    (mkApi GET
       (lit "/session/" ++ sessionId_ ++ lit "/message" ++ queryString limit_)
       None None) ;;
  ret (list_result itemIndex sessionId_ response).

Definition getMessage (itemIndex : nat) : M (list INodeExecutionData) :=
  credentials <- getCredentials h ;;
  let p := parameters h itemIndex in
  sessionId_ <- getNodeParameter_required "sessionId" (sessionId p) ;;
  messageId <-
    getNodeParameter_required "targetMessageId" (targetMessageId p) ;;
  response <- openCodeApiRequest h credentials
    (mkApi GET
       (lit "/session/" ++ sessionId_ ++ lit "/message/" ++ messageId)
       None None) ;;
  ret [mkItem response itemIndex].

(* ---------------------------------------------------------------- *)
(** ** index.ts *)

Definition executeMessageAction (text : CommandText)
  (operation_ : jsstring) (itemIndex : nat) : M (list INodeExecutionData) :=
  if Str.eqb operation_ (lit "send") then sendMessage itemIndex
  else if Str.eqb operation_ (lit "sendAsync") then sendMessageAsync itemIndex
  else if Str.eqb operation_ (lit "list") then listMessages itemIndex
  else if Str.eqb operation_ (lit "get") then getMessage itemIndex
  else if Str.eqb operation_ (lit "command") then executeCommand text itemIndex
  else if Str.eqb operation_ (lit "shell") then executeShell itemIndex
  else throw (Error (lit "Unknown message operation: " ++ operation_)).

End Message.
End Message.

(* ================================================================== *)
(** * actions/session, actions/config *)
(* ================================================================== *)

(** Truthiness of a value. *)
Definition json_truthy (v : json) : bool :=
  match v with
  | JUndef | JNull | JBool false | JStr [] => false
  | JNum m _ => negb (m =? 0)%Z
  | _ => true
  end.

Module Session.
Import Api.
Section Session.

Variable h : Host.

Definition listSessions (itemIndex : nat) : M (list INodeExecutionData) :=
  credentials <- getCredentials h ;;
  response <- openCodeApiRequest h credentials
    (mkApi GET (lit "/session") None None) ;;
  let sessions :=
    match response with
    | JArr l => l
    | v => [v]
    end in
  ret (List.map (fun session => mkItem session itemIndex) sessions).

Definition getSession (itemIndex : nat) : M (list INodeExecutionData) :=
  credentials <- getCredentials h ;;
  let p := parameters h itemIndex in
  sessionId_ <- getNodeParameter_required "sessionId" (sessionId p) ;;
  response <- openCodeApiRequest h credentials
    (mkApi GET (lit "/session/" ++ sessionId_) None None) ;;
  ret [mkItem response itemIndex].

Definition createSession (itemIndex : nat) : M (list INodeExecutionData) :=
  credentials <- getCredentials h ;;
  let p := parameters h itemIndex in
  title_ <- getNodeParameter (title p) (lit "New Session") ;;
  response <- openCodeApiRequest h credentials
    (mkApi POST (lit "/session")
       (Some (obj_lit [(lit "title", JStr title_)])) None) ;;
  ret [mkItem response itemIndex].

Definition deleteSession (itemIndex : nat) : M (list INodeExecutionData) :=
  credentials <- getCredentials h ;;
  let p := parameters h itemIndex in
  sessionId_ <- getNodeParameter_required "sessionId" (sessionId p) ;;
  openCodeApiRequest h credentials
    (mkApi DELETE (lit "/session/" ++ sessionId_) None None) ;;;
  ret [mkItem
         (obj_lit
            [ (lit "success", JBool true);
              (lit "message",
               JStr (lit "Session " ++ sessionId_ ++
                     lit " deleted successfully"));
              (lit "sessionId", JStr sessionId_) ])
         itemIndex].

Definition abortSession (itemIndex : nat) : M (list INodeExecutionData) :=
  credentials <- getCredentials h ;;
  let p := parameters h itemIndex in
  sessionId_ <- getNodeParameter_required "sessionId" (sessionId p) ;;
  response <- openCodeApiRequest h credentials
    (mkApi POST (lit "/session/" ++ sessionId_ ++ lit "/abort") None None) ;;
  ret [mkItem
         (if json_truthy response then response
          else obj_lit
                 [ (lit "success", JBool true);
                   (lit "message",
                    JStr (lit "Session " ++ sessionId_ ++ lit " aborted"));
                   (lit "sessionId", JStr sessionId_) ])
         itemIndex].

(** [getSessionStatus] lives in session/status.ts; the dispatcher only
    calls it. *)
Variable getSessionStatus : nat -> M (list INodeExecutionData).

Definition executeSessionAction (operation_ : jsstring) (itemIndex : nat)
  : M (list INodeExecutionData) :=
  if Str.eqb operation_ (lit "list") then listSessions itemIndex
  else if Str.eqb operation_ (lit "get") then getSession itemIndex
  else if Str.eqb operation_ (lit "create") then createSession itemIndex
  else if Str.eqb operation_ (lit "delete") then deleteSession itemIndex
  else if Str.eqb operation_ (lit "abort") then abortSession itemIndex
  else if Str.eqb operation_ (lit "status") then getSessionStatus itemIndex
  else throw (Error (lit "Unknown session operation: " ++ operation_)).

End Session.
End Session.

Module Config.
Import Api.
Section Config.

Variable h : Host.

Definition getProviders (itemIndex : nat) : M (list INodeExecutionData) :=
  credentials <- getCredentials h ;;
  response <- openCodeApiRequest h credentials
    (mkApi GET (lit "/config/providers") None None) ;;
  ret [mkItem response itemIndex].

Definition executeConfigAction (operation_ : jsstring) (itemIndex : nat)
  : M (list INodeExecutionData) :=
  if Str.eqb operation_ (lit "getProviders") then getProviders itemIndex
  else throw (Error (lit "Unknown config operation: " ++ operation_)).

End Config.
End Config.

(* ================================================================== *)
(** * actions/index.ts and [OpenCode.execute] *)
(* ================================================================== *)

Module Node.
Import Api.
Section Node.

Variable h : Host.
Variable getSessionStatus : nat -> M (list INodeExecutionData).
Variable text : Message.CommandText.

Definition executeAction (resource_ operation_ : jsstring) (itemIndex : nat)
  : M (list INodeExecutionData) :=
  if Str.eqb resource_ (lit "session")
  then Session.executeSessionAction h getSessionStatus operation_ itemIndex
  else if Str.eqb resource_ (lit "message")
  then Message.executeMessageAction h text operation_ itemIndex
  else if Str.eqb resource_ (lit "config")
  then Config.executeConfigAction h operation_ itemIndex
  else throw (Error (lit "Unknown resource: " ++ resource_)).

(** The record pushed for a failed item:
    [{ json: { error: (error as Error).message },
       pairedItem: { item: i } }]. *)
Definition error_item (error : exn) (i : nat) : INodeExecutionData :=
  mkItem (obj_lit [(lit "error", opt_str (exn_message error))]) i.

(** One turn of the loop of [execute], for item [i] and the records
    gathered so far. *)
Definition execute_item (resource_ operation_ : jsstring) (i : nat)
  (returnData : list INodeExecutionData) : M (list INodeExecutionData) :=
  try_catch
    (results <- executeAction resource_ operation_ i ;;
     ret (returnData ++ results))
    (fun error =>
       if continueOnFail h
       then ret (returnData ++ [error_item error i])
       else throw error).

(** [for (let i = 0; i < items.length; i++) { ... }], from item [i]
    with [n] items still to go. *)
Fixpoint execute_loop (resource_ operation_ : jsstring) (i n : nat)
  (returnData : list INodeExecutionData) : M (list INodeExecutionData) :=
  match n with
  | O => ret returnData
  | S n' =>
      returnData' <- execute_item resource_ operation_ i returnData ;;
      execute_loop resource_ operation_ (S i) n' returnData'
  end.

Definition execute : M (list (list INodeExecutionData)) :=
  resource_ <-
    getNodeParameter_required "resource" (resource (parameters h 0)) ;;
  operation_ <-
    getNodeParameter_required "operation" (operation (parameters h 0)) ;;
  returnData <- execute_loop resource_ operation_ 0 (inputItems h) [] ;;
  ret [returnData].

End Node.
End Node.

(* ================================================================== *)
(** * [methods.loadOptions] *)
(* ================================================================== *)

(** [INodePropertyOptions]. *)
Record INodePropertyOptions : Type := mkOption {
  name : json;
  value : json;
  description : option jsstring
}.

(** [ISkillInfo]. *)
Record ISkillInfo : Type := mkSkill {
  skill_name : jsstring;
  skill_description : jsstring;
  skill_path : jsstring
}.

(** What [getSkills] reads of the machine it runs on: [os.homedir()],
    [process.cwd()], the directory scan [scanSkillDirectory] together
    with the file system it reads (the scan catches its own errors and
    returns the skills it found), and the comparison
    [a.localeCompare(b) <= 0] of the runtime's locale. *)
Record SkillEnvironment : Type := mkSkillEnv {
  homedir : Result jsstring;
  cwd : jsstring;
  scanSkillDirectory : jsstring -> list ISkillInfo;
  localeCompare_le : jsstring -> jsstring -> bool
}.

Module LoadOptions.
Import Api.
Section LoadOptions.

Variable h : Host.

Fixpoint mapM {A B} (f : A -> M B) (l : list A) : M (list B) :=
  match l with
  | [] => ret []
  | a :: l' =>
      b <- f a ;;
      bs <- mapM f l' ;;
      ret (b :: bs)
  end.

(** [await this.helpers.request({ method: 'GET', url: `${baseUrl}${path}`,
      auth: { user, pass }, json: true })]. *)
Definition load (credentials : IOpenCodeCredentials) (path : jsstring)
  : M json :=
  send_request h
    (mkRequest LegacyRequest GET (baseUrl credentials ++ path) None None
       (username credentials, password credentials)).

(** A string that is present and not empty. *)
Definition truthy_str (x : option jsstring) : option jsstring :=
  match x with
  | Some (c :: s) => Some (c :: s)
  | _ => None
  end.

(** [a || b] rendered in a template literal. *)
Definition tpl_or (a b : option jsstring) : jsstring :=
  match truthy_str a with
  | Some s => s
  | None => tpl b
  end.

Definition session_option (session : json) : M INodePropertyOptions :=
  let id := prop_str "id" session in
  name_ <-
    match truthy_str (prop_str "title" session) with
    | Some t => ret (JStr t)
    | None =>
        match id with
        | Some i => ret (JStr (lit "Session " ++ firstn 8 i ++ lit "..."))
        | None =>
            throw (Error (lit "Cannot read properties of undefined"))
        end
    end ;;
  ret (mkOption name_ (opt_str id) (Some (lit "ID: " ++ tpl id))).

Definition getSessions : M (list INodePropertyOptions) :=
  try_catch
    (credentials <- getCredentials h ;;
     response <- load credentials (lit "/session") ;;
     let sessions :=
       match response with
       | JArr l => l
       | v => [v]
       end in
     mapM session_option sessions)
    (fun error =>
       console_error (lit "Error loading sessions:") error ;;;
       ret [mkOption (JStr (lit "Error loading sessions")) (JStr []) None]).

(** [Object.values(provider.models)] when
    [provider.models && typeof provider.models === 'object']. *)
Definition modelList (provider : json) : list json :=
  match prop "models" provider with
  | Some (JObj o) => List.map snd o
  | Some (JArr l) => l
  | _ => []
  end.

Definition model_option (provider model_ : json) : INodePropertyOptions :=
  let pid := prop_str "id" provider in
  let mid := prop_str "id" model_ in
  mkOption
    (JStr (tpl_or (prop_str "name" provider) pid ++ lit ": " ++
           tpl_or (prop_str "name" model_) mid))
    (JStr (ModelSelector.encode (tpl pid) (tpl mid)))
    (Some (lit "Provider: " ++ tpl pid)).

Definition defaultOption : INodePropertyOptions :=
  mkOption (JStr (lit "(Default)")) (JStr []) None.

Definition getModels : M (list INodePropertyOptions) :=
  try_catch
    (credentials <- getCredentials h ;;
     response <- load credentials (lit "/config/providers") ;;
     let providers :=
       match prop "providers" response with
       | Some (JArr l) => l
       | _ => []
       end in
     ret (defaultOption ::
          List.flat_map
            (fun provider =>
               List.map (model_option provider) (modelList provider))
            providers))
    (fun error =>
       console_error (lit "Error loading models:") error ;;;
       ret [defaultOption]).

(** [a.mode === 'primary']. *)
Definition is_primary (a : json) : bool :=
  match prop "mode" a with
  | Some (JStr s) => Str.eqb s (lit "primary")
  | _ => false
  end.

Definition getAgents : M (list INodePropertyOptions) :=
  try_catch
    (credentials <- getCredentials h ;;
     response <- load credentials (lit "/agent") ;;
     let agents :=
       match response with
       | JArr l => l
       | _ => []
       end in
     let primaryAgent := List.find is_primary agents in
     let otherAgents := List.filter (fun a => negb (is_primary a)) agents in
     let options0 :=
       match primaryAgent with
       | Some a =>
           [mkOption
              (JStr (tpl (prop_str "name" a) ++ lit " (Primary)"))
              (opt_str (prop_str "name" a))
              (Some (lit "Primary agent"))]
       | None => []
       end in
     ret (options0 ++
          List.map
            (fun agent =>
               mkOption (opt_str (prop_str "name" agent))
                 (opt_str (prop_str "name" agent))
                 (match truthy_str (prop_str "mode" agent) with
                  | Some m => Some (lit "Mode: " ++ m)
                  | None => None
                  end))
            otherAgents))
    (fun error =>
       console_error (lit "Error loading agents:") error ;;;
       ret [defaultOption]).


(* ---------------------------------------------------------------- *)
(** ** getSkills *)

Variable env : SkillEnvironment.

(** [path.join(a, b, c)] on a POSIX host, for components that need no
    normalising. *)
Definition path_join (l : list jsstring) : jsstring :=
  Str.join (lit "/") l.

Definition skillDirs (homeDir : jsstring) : list jsstring :=
  [ path_join [homeDir; lit ".claude"; lit "skills"];
    path_join [homeDir; lit ".config"; lit "opencode"; lit "skill"];
    path_join [homeDir; lit ".opencode"; lit "skill"];
    path_join [cwd env; lit ".claude"; lit "skills"] ].

(** The two nested loops that collect the skills, skipping a name
    already seen. *)
Definition collect (dirs : list jsstring) : list ISkillInfo :=
  fold_left
    (fun allSkills sk =>
       if List.existsb (fun s => Str.eqb (skill_name s) (skill_name sk))
            allSkills
       then allSkills
       else allSkills ++ [sk])
    (List.flat_map (scanSkillDirectory env) dirs) [].

(** [allSkills.sort((a, b) => a.name.localeCompare(b.name))], a stable
    sort. *)
Fixpoint insert_skill (sk : ISkillInfo) (l : list ISkillInfo)
  : list ISkillInfo :=
  match l with
  | [] => [sk]
  | x :: l' =>
      if localeCompare_le env (skill_name x) (skill_name sk)
      then x :: insert_skill sk l'
      else sk :: l
  end.

Definition sort_skills (l : list ISkillInfo) : list ISkillInfo :=
  fold_left (fun acc sk => insert_skill sk acc) l [].

Definition skill_option (sk : ISkillInfo) : INodePropertyOptions :=
  mkOption (JStr (skill_name sk)) (JStr (skill_name sk))
    (Some
       (if (100 <? List.length (skill_description sk))%nat
        then firstn 100 (skill_description sk) ++ lit "..."
        else skill_description sk)).

Definition getSkills : M (list INodePropertyOptions) :=
  try_catch
    (homeDir <- (fun w => (homedir env, w)) ;;
     let allSkills := sort_skills (collect (skillDirs homeDir)) in
     match allSkills with
     | [] => ret [mkOption (JStr (lit "No skills found")) (JStr []) None]
     | _ => ret (List.map skill_option allSkills)
     end)
    (fun error =>
       console_error (lit "Error loading skills:") error ;;;
       ret [mkOption (JStr (lit "Error loading skills")) (JStr []) None]).

End LoadOptions.
End LoadOptions.

(* ================================================================== *)
(** * The chat-model and tool adapters *)
(* ================================================================== *)

(** [ChatOpenCode._generate] and the tool's [sendMessage] flatten the
    answer as the send action does and always trim it:
    [(data.parts || []).filter(...).map(...).join('\n').trim()]. *)
Definition adapter_responseText (data : json) : jsstring :=
  Str.trim (extractText data).

(* ================================================================== *)
(** * OpenCodeTool: the [sendMessage] of [supplyData] *)
(* ================================================================== *)

Module Tool.
Import Api.
Section Tool.

Variable h : Host.

(** What the closures of [supplyData] capture. *)
Record Captured : Type := mkCaptured {
  credentials : IOpenCodeCredentials;
  useTemporarySession : bool;
  existingSessionId : option jsstring;
  tempTitle : option jsstring;
  selector : jsstring;
  timeout : Z
}.

Variable c : Captured.

Definition auth : jsstring * jsstring :=
  (username (credentials c), password (credentials c)).

(** [createSession] of the tool: [response.id] of an answer read as
    [ICreateSessionResponse]. *)
Definition createSession (title_ : jsstring) : M (option jsstring) :=
  response <- send_request h
    (mkRequest HttpRequest POST (baseUrl (credentials c) ++ lit "/session")
       (Some (obj_lit [(lit "title", JStr title_)])) None auth) ;;
  ret (prop_str "id" response).

Definition deleteSession (sessionId_ : option jsstring) : M unit :=
  try_catch
    (send_request h
       (mkRequest HttpRequest DELETE
          (baseUrl (credentials c) ++ lit "/session/" ++ tpl sessionId_)
          None None auth) ;;;
     ret tt)
    (fun error =>
       console_error
         (lit "Failed to delete session " ++ tpl sessionId_ ++ lit ":")
         error).

(** The [try] block of [sendMessage]. *)
Definition sendMessage_try (message_ : jsstring)
  (sessionId_ : option jsstring) : M jsstring :=
  let payload :=
    JObj (set_model (selector c)
            [(lit "parts", JArr [text_part message_])]) in
  response <- send_request h
    (mkRequest HttpRequest POST
       (baseUrl (credentials c) ++ lit "/session/" ++ tpl sessionId_ ++
        lit "/message")
       (Some payload) (Some (timeout c)) auth) ;;
  ret (Str.trim (extractText response)).

Definition sendMessage (message_ : jsstring) : M jsstring :=
  '(sessionId_, shouldDeleteSession) <-
    (if useTemporarySession c then
       sessionId_ <-
         createSession (str_or (tempTitle c) (lit "Temporary Tool Session")) ;;
       ret (sessionId_, true)
     else ret (existingSessionId c, false)) ;;
  try_finally
    (sendMessage_try message_ sessionId_)
    (if shouldDeleteSession then deleteSession sessionId_ else ret tt).

End Tool.
End Tool.

(* ================================================================== *)
(** * ChatOpenCode *)
(* ================================================================== *)

(** The chat model talks to the service through [fetch], which answers
    with a status where the host helpers throw; its runs are recorded
    in a world of their own. *)
Module Chat.

(** A thrown value: whether it is an [Error], its [name] and its
    [message]. *)
Record Thrown : Type := mkThrown {
  instanceofError : bool;
  thrown_name : jsstring;
  thrown_message : jsstring
}.

(** [new Error(msg)]. *)
Definition Error (msg : jsstring) : Thrown :=
  mkThrown true (lit "Error") msg.

Inductive Outcome (A : Type) : Type :=
| Returned (a : A)
| Raised (e : Thrown).
Arguments Returned {A} a.
Arguments Raised {A} e.

(** A call of [fetch]: method, address, the credentials the
    [Authorization] header encodes, and the value whose JSON text is
    the body. *)
Record FetchRequest : Type := mkFetch {
  fetch_method : Method;
  fetch_url : jsstring;
  fetch_credentials : jsstring * jsstring;
  fetch_body : option json
}.

(** What the code reads of a [Response]: [ok], [status], [statusText]
    and the completion of [response.json()]. *)
Record Response : Type := mkResponse {
  ok : bool;
  status : Z;
  statusText : jsstring;
  json_ : Outcome json
}.

(** [fetch] resolves with a response or rejects; an abort by the
    timer of [_generate] is a rejection named [AbortError]. *)
Inductive Fetched : Type :=
| Responded (r : Response)
| Rejected (e : Thrown).

Record ChatWorld : Type := mkChatWorld {
  fetches : list FetchRequest;
  lines : list jsstring
}.

Definition C (A : Type) : Type := ChatWorld -> Outcome A * ChatWorld.

Definition pure {A} (a : A) : C A := fun w => (Returned a, w).

Definition raise {A} (e : Thrown) : C A := fun w => (Raised e, w).

Definition andThen {A B} (m : C A) (k : A -> C B) : C B :=
  fun w =>
    match m w with
    | (Returned a, w') => k a w'
    | (Raised e, w') => (Raised e, w')
    end.

Definition catching {A} (body : C A) (handler : Thrown -> C A) : C A :=
  fun w =>
    match body w with
    | (Returned a, w') => (Returned a, w')
    | (Raised e, w') => handler e w'
    end.

Definition finally {A} (body : C A) (fin : C unit) : C A :=
  fun w =>
    match body w with
    | (r, w1) =>
        match fin w1 with
        | (Returned _, w2) => (r, w2)
        | (Raised e, w2) => (Raised e, w2)
        end
    end.

Definition log (line : jsstring) : C unit :=
  fun w => (Returned tt, mkChatWorld (fetches w) (lines w ++ [line])).

(** [ToolDefinition]. *)
Record ToolDefinition : Type := mkTool {
  tool_name : jsstring;
  tool_description : jsstring;
  tool_schema : option json
}.

(** [ParsedToolCall]. *)
Record ParsedToolCall : Type := mkCall {
  call_name : jsstring;
  call_args : json;
  call_id : jsstring
}.

(** The fields of a [ChatOpenCode]. *)
Record ChatOpenCode : Type := mkChat {
  chat_baseUrl : jsstring;
  chat_username : jsstring;
  chat_password : jsstring;
  chat_sessionId : option jsstring;
  chat_model : option jsstring;
  chat_timeout : Z;
  chat_useTemporarySession : bool;
  chat_tempSessionTitle : jsstring;
  boundTools : option (list ToolDefinition)
}.

(** [ChatOpenCodeInput]. *)
Record ChatOpenCodeInput : Type := mkInput {
  in_baseUrl : jsstring;
  in_username : jsstring;
  in_password : jsstring;
  in_sessionId : option jsstring;
  in_model : option jsstring;
  in_timeout : option Z;
  in_useTemporarySession : option bool;
  in_tempSessionTitle : option jsstring;
  in_boundTools : option (list ToolDefinition)
}.

(** The constructor. *)
Definition construct (fields : ChatOpenCodeInput) : ChatOpenCode :=
  mkChat (in_baseUrl fields) (in_username fields) (in_password fields)
    (in_sessionId fields) (in_model fields)
    (nullish (in_timeout fields) 300000%Z)
    (nullish (in_useTemporarySession fields) false)
    (nullish (in_tempSessionTitle fields) (lit "Temporary Chat Session"))
    (in_boundTools fields).

(** A tool as [bindTools] receives it: any of the three properties may
    be missing. *)
Record ToolLike : Type := mkToolLike {
  like_name : option jsstring;
  like_description : option jsstring;
  like_schema : option json
}.

Definition bindTools (this : ChatOpenCode) (tools : list ToolLike)
  : ChatOpenCode :=
  let toolDefinitions :=
    List.map
      (fun t =>
         mkTool (str_or (like_name t) (lit "unknown"))
           (str_or (like_description t) []) (like_schema t))
      tools in
  construct
    (mkInput (chat_baseUrl this) (chat_username this) (chat_password this)
       (chat_sessionId this) (chat_model this) (Some (chat_timeout this))
       (Some (chat_useTemporarySession this))
       (Some (chat_tempSessionTitle this)) (Some toolDefinitions)).

(** [msg._getType()], as far as [_generate] tells the types apart. *)
Inductive MessageType : Type := system | human | ai | other.

(** An element of an array content: a text part, or a part of another
    kind. *)
Inductive ContentPart : Type :=
| TextPart (text : jsstring)
| OtherPart.

Inductive Content : Type :=
| StringContent (s : jsstring)
| ArrayContent (parts : list ContentPart).

Record BaseMessage : Type := mkMessage {
  getType : MessageType;
  content : Content
}.

Definition prefix (t : MessageType) : jsstring :=
  match t with
  | system => lit "[System]: "
  | human => lit "[User]: "
  | ai => lit "[Assistant]: "
  | other => []
  end.

(** The loop that fills [messageTexts]. *)
Definition messageTexts (processedMessages : list BaseMessage)
  : list jsstring :=
  List.flat_map
    (fun msg =>
       match content msg with
       | StringContent s => [prefix (getType msg) ++ s]
       | ArrayContent parts =>
           let text :=
             Str.join newline
               (List.flat_map
                  (fun part =>
                     match part with
                     | TextPart t => [t]
                     | OtherPart => []
                     end)
                  parts) in
           if Str.truthy text then [prefix (getType msg) ++ text] else []
       end)
    processedMessages.

(** What comes back from [_generate]: the text, the tool calls of the
    [AIMessage], and the entries of [generationInfo] and [llmOutput].
    The sum [totalTokens] is a floating-point sum and is left out. *)
Record ChatResult : Type := mkChatResult {
  result_text : jsstring;
  result_tool_calls : list ParsedToolCall;
  result_messageId : json;
  result_modelID : json;
  result_providerID : json;
  result_cost : json;
  result_sessionId : jsstring;
  result_wasTemporarySession : bool;
  promptTokens : json;
  completionTokens : json
}.

(** [data.info?.tokens?.k ?? 0]. *)
Definition token_count (k : string) (data : json) : json :=
  match info_field "tokens" data with
  | Some tokens =>
      match prop k tokens with
      | Some JNull | None => JNum 0 0
      | Some v => v
      end
  | None => JNum 0 0
  end.

Section Generate.

(** The service, which answers a call knowing the calls before it. *)
Variable service : list FetchRequest -> FetchRequest -> Fetched.

(** [formatToolsAsPrompt] pretty-prints the schemas with
    [JSON.stringify], and [parseToolCalls] searches the text with a
    regular expression and draws the ids of the calls from the clock
    and the random generator; both are taken as given. *)
Variable formatToolsAsPrompt : list ToolDefinition -> jsstring.
Variable parseToolCalls : jsstring -> list ParsedToolCall.

Variable this : ChatOpenCode.

Definition fetch (r : FetchRequest) : C Response :=
  fun w =>
    (match service (fetches w) r with
     | Responded resp => Returned resp
     | Rejected e => Raised e
     end,
     mkChatWorld (fetches w ++ [r]) (lines w)).

(** [await response.json()]. *)
Definition read_json (r : Response) : C json :=
  fun w => (json_ r, w).

Definition chat_auth : jsstring * jsstring :=
  (chat_username this, chat_password this).

(** [createSession] of the chat model: [data.id] of a body read as
    [ICreateSessionResponse]. *)
Definition createSession (title_ : jsstring) : C (option jsstring) :=
  andThen
    (fetch (mkFetch POST (chat_baseUrl this ++ lit "/session") chat_auth
              (Some (obj_lit [(lit "title", JStr title_)]))))
    (fun response =>
       if negb (ok response) then
         raise (Error (lit "Failed to create session: " ++
                       Str.ofZ (status response) ++ lit " " ++
                       statusText response))
       else
         andThen (read_json response)
           (fun data => pure (prop_str "id" data))).

Definition deleteSession (sessionId_ : jsstring) : C unit :=
  andThen
    (fetch (mkFetch DELETE
              (chat_baseUrl this ++ lit "/session/" ++ sessionId_)
              chat_auth None))
    (fun response =>
       if negb (ok response) then
         log (lit "Failed to delete session " ++ sessionId_ ++ lit ": " ++
              Str.ofZ (status response) ++ lit " " ++ statusText response)
       else pure tt).

(** [this.boundTools || options?.tools || []]: an array, empty or not,
    is truthy. *)
Definition tools_of (options_tools : option (list ToolDefinition))
  : list ToolDefinition :=
  match boundTools this with
  | Some l => l
  | None =>
      match options_tools with
      | Some l => l
      | None => []
      end
  end.

(** The text of the one message [_generate] sends. *)
Definition messageText (tools : list ToolDefinition)
  (messages : list BaseMessage) : jsstring :=
  let processedMessages :=
    match tools with
    | [] => messages
    | _ =>
        mkMessage system (StringContent (formatToolsAsPrompt tools))
        :: messages
    end in
  Str.join (newline ++ newline) (messageTexts processedMessages).

Definition chat_payload (text : jsstring) : json :=
  JObj
    (match chat_model this with
     | Some m => set_model m
     | None => fun o => o
     end [(lit "parts", JArr [text_part text])]).

(** The inner [try] of [_generate], with its [catch]. *)
Definition request_try (tools : list ToolDefinition)
  (messages : list BaseMessage) (sessionId_ : jsstring)
  (shouldDeleteSession : bool) : C ChatResult :=
  catching
    (andThen
       (fetch (mkFetch POST
                 (chat_baseUrl this ++ lit "/session/" ++ sessionId_ ++
                  lit "/message")
                 chat_auth
                 (Some (chat_payload (messageText tools messages)))))
       (fun response =>
          if negb (ok response) then
            raise (Error (lit "OpenCode API error: " ++
                          Str.ofZ (status response) ++ lit " " ++
                          statusText response))
          else
            andThen (read_json response)
              (fun data =>
                 let responseText := Str.trim (extractText data) in
                 let toolCalls :=
                   match tools with
                   | [] => []
                   | _ => parseToolCalls responseText
                   end in
                 pure
                   (mkChatResult responseText toolCalls
                      (opt_json (info_field "id" data))
                      (opt_json (info_field "modelID" data))
                      (opt_json (info_field "providerID" data))
                      (opt_json (info_field "cost" data))
                      sessionId_ shouldDeleteSession
                      (token_count "input" data)
                      (token_count "output" data)))))
    (fun error =>
       if instanceofError error &&
          Str.eqb (thrown_name error) (lit "AbortError")
       then raise (Error (lit "OpenCode API request timeout after " ++
                          Str.ofZ (chat_timeout this) ++ lit "ms"))
       else raise error).

Definition _generate (messages : list BaseMessage)
  (options_tools : option (list ToolDefinition)) : C ChatResult :=
  andThen
    (if chat_useTemporarySession this then
       andThen (createSession (chat_tempSessionTitle this))
         (fun sessionId_ => pure (sessionId_, true))
     else pure (chat_sessionId this, false))
    (fun '(sessionId_, shouldDeleteSession) =>
       match sessionId_ with
       | Some (ch :: rest) =>
           let sid := ch :: rest in
           finally
             (request_try (tools_of options_tools) messages sid
                shouldDeleteSession)
             (if shouldDeleteSession then deleteSession sid else pure tt)
       | _ =>
           raise (Error (lit "No session ID provided and temporary " ++
                         lit "session mode is not enabled"))
       end).

End Generate.

End Chat.

(* ================================================================== *)
(** * Vocabulary of the statements *)
(* ================================================================== *)

Section Vocabulary.

Import Api.

Variable h : Host.

(** The request [openCodeApiRequest] hands to the host. *)
Definition api_request (credentials : IOpenCodeCredentials)
  (o : IApiRequestOptions) : Request :=
  mkRequest HttpRequest (api_method o)
    (baseUrl credentials ++ api_endpoint o) (api_body o)
    (Some (nullish (api_timeout o) 300000%Z))
    (username credentials, password credentials).

(** The error [openCodeApiRequest] throws for a failure of the host. *)
Definition request_failed (e : exn) : exn :=
  Error (lit "OpenCode API request failed: " ++
         str_or (exn_message e) (lit "Unknown error")).

Definition api_outcome (r : Result json) : Result json :=
  match r with
  | Ok b => Ok b
  | Throw e => Throw (request_failed e)
  end.

Definition sent (w : World) (r : Request) : World :=
  mkWorld (trace w ++ [r]) (console w).

Definition create_request (credentials : IOpenCodeCredentials)
  (title_ : jsstring) : Request :=
  api_request credentials
    (mkApi POST (lit "/session")
       (Some (obj_lit [(lit "title", JStr title_)])) None).

Definition delete_request (credentials : IOpenCodeCredentials)
  (sessionId_ : option jsstring) : Request :=
  api_request credentials
    (mkApi DELETE (lit "/session/" ++ tpl sessionId_) None None).

(** What [deleteSession] writes to the console: nothing when the
    request succeeds, one line when it fails. *)
Definition delete_log (credentials : IOpenCodeCredentials)
  (sessionId_ : option jsstring) (w : World) : list (jsstring * exn) :=
  match remote h (trace w) (delete_request credentials sessionId_) with
  | Ok _ => []
  | Throw e =>
      [(lit "Failed to delete session " ++ tpl sessionId_ ++ lit ":",
        request_failed e)]
  end.

(** The message-sending actions. *)
Inductive Action : Type :=
| Send
| SendAsync
| Command (text : Message.CommandText)
| Shell
| Skill.

Definition run (a : Action) (itemIndex : nat) : M (list INodeExecutionData) :=
  match a with
  | Send => Message.sendMessage h itemIndex
  | SendAsync => Message.sendMessageAsync h itemIndex
  | Command text => Message.executeCommand h text itemIndex
  | Shell => Message.executeShell h itemIndex
  | Skill => Message.executeSkill h itemIndex
  end.

Definition is_some {A} (x : option A) : bool :=
  match x with
  | Some _ => true
  | None => false
  end.

(** The parameters an action reads without a fallback are there. *)
Definition ready (a : Action) (p : NodeParameters) : bool :=
  match a with
  | Send | SendAsync => is_some (message p)
  | Command _ => is_some (command p)
  | Shell => is_some (shellCommand p) && is_some (shellAgent p)
  | Skill => is_some (skill p)
  end.

(** The [try] block of an action, for the parameters [p] of its item
    and the session it runs against. *)
Definition inner (a : Action) (credentials : IOpenCodeCredentials)
  (itemIndex : nat) (p : NodeParameters) (sessionId_ : option jsstring)
  (shouldDeleteSession : bool) : M (list INodeExecutionData) :=
  let o := nullish (options p) noOptions in
  let model_ := nullish (model p) [] in
  match a with
  | Send =>
      Message.sendMessage_try h credentials itemIndex
        (nullish (message p) []) model_ (nullish (simpleResponse p) false)
        o sessionId_ shouldDeleteSession
  | SendAsync =>
      Message.sendMessageAsync_try h credentials itemIndex
        (nullish (message p) []) model_ o sessionId_ shouldDeleteSession
  | Command text =>
      Message.executeCommand_try h text credentials itemIndex
        (nullish (command p) []) (nullish (commandArguments p) []) model_
        o sessionId_ shouldDeleteSession
  | Shell =>
      Message.executeShell_try h credentials itemIndex
        (nullish (shellCommand p) []) (nullish (shellAgent p) []) model_
        (nullish (simpleResponse p) false) o sessionId_ shouldDeleteSession
  | Skill =>
      Message.executeSkill_try h credentials itemIndex
        (nullish (skill p) []) (nullish (skillArguments p) []) model_
        o sessionId_ shouldDeleteSession
  end.

(** The path an action posts to, after [/session/:id]. *)
Definition endpoint (a : Action) : jsstring :=
  match a with
  | Send | Skill => lit "/message"
  | SendAsync => lit "/prompt_async"
  | Command _ => lit "/command"
  | Shell => lit "/shell"
  end.

(** A request an action may post for the session [sessionId_]: the
    method and the address are fixed, the body and the timeout are
    the action's. *)
Definition message_request (a : Action) (credentials : IOpenCodeCredentials)
  (sessionId_ : option jsstring) (payload : json) (timeout : Z) : Request :=
  api_request credentials
    (mkApi POST (lit "/session/" ++ tpl sessionId_ ++ endpoint a)
       (Some payload) (Some timeout)).

(** The request of the list-messages action. *)
Definition list_request (credentials : IOpenCodeCredentials)
  (sessionId_ : jsstring) (limit_ : Z) : Request :=
  api_request credentials
    (mkApi GET
       (lit "/session/" ++ sessionId_ ++ lit "/message" ++
        Message.queryString limit_)
       None None).

(** The record list-messages emits for a session without messages:
    [{ messages: [], count: 0, sessionId }]. *)
Definition summary_record (sessionId_ : jsstring) : json :=
  JObj [ (lit "messages", JArr []);
         (lit "count", JNum 0 0);
         (lit "sessionId", JStr sessionId_) ].

(** The title of the temporary session of an item. *)
Definition temp_title (p : NodeParameters) : jsstring :=
  nullish (tempSessionTitle p) (lit "Temporary Chat Session").

Definition is_delete (r : Request) : bool :=
  match req_method r with
  | DELETE => true
  | _ => false
  end.

End Vocabulary.

(* ---------------------------------------------------------------- *)
(** ** The flattening of a response, in the words of the
       specification *)

(** The [text] fields of exactly the parts with type [text], in their
    order; an absent field counts as the empty string. *)
Fixpoint spec_text_fields (parts : list json) : list jsstring :=
  match parts with
  | [] => []
  | p :: rest =>
      match prop "type" p with
      | Some (JStr t) =>
          if Str.eqb t (lit "text")
          then match prop_str "text" p with
               | Some s => s :: spec_text_fields rest
               | None => [] :: spec_text_fields rest
               end
          else spec_text_fields rest
      | _ => spec_text_fields rest
      end
  end.

(** Joined with a single newline: the first string, then every other
    one after a newline. *)
Definition spec_join_lines (l : list jsstring) : jsstring :=
  match l with
  | [] => []
  | s :: rest => s ++ List.concat (List.map (fun t => newline ++ t) rest)
  end.



(* ---------------------------------------------------------------- *)
(** ** The output of a tool run, in the words of the specification *)

(** For a part: [state.output], falling back to [state.metadata.output]
    when [state.output] is absent or empty. *)
Definition spec_tool_output (part : json) : jsstring :=
  match prop "state" part with
  | Some (JObj st) =>
      match prop_str "output" (JObj st) with
      | Some (c :: s) => c :: s
      | _ =>
          match prop "metadata" (JObj st) with
          | Some md =>
              match prop_str "output" md with
              | Some s => s
              | None => []
              end
          | None => []
          end
      end
  | _ => []
  end.

(** The outputs of the parts with type [tool], one after the other. *)
Definition spec_shell_output (parts : list json) : jsstring :=
  List.concat (List.map spec_tool_output (List.filter (type_is "tool") parts)).

(* ---------------------------------------------------------------- *)
(** ** Resources and operations (types/index.ts) *)

Definition resources : list jsstring :=
  [lit "session"; lit "message"; lit "config"].

Definition session_operations : list jsstring :=
  [lit "list"; lit "get"; lit "create"; lit "delete"; lit "abort";
   lit "status"].

Definition message_operations : list jsstring :=
  [lit "send"; lit "sendAsync"; lit "list"; lit "get"; lit "command";
   lit "shell"].

Definition config_operations : list jsstring := [lit "getProviders"].

(* ---------------------------------------------------------------- *)
(** ** The option providers *)

Inductive Provider : Type :=
| Sessions
| Models
| Agents
| Commands
| Skills.


(** The entry a provider answers a failure with. *)
Definition sentinel (p : Provider) : INodePropertyOptions :=
  match p with
  | Sessions => mkOption (JStr (lit "Error loading sessions")) (JStr []) None
  | Models | Agents => mkOption (JStr (lit "(Default)")) (JStr []) None
  | Commands => mkOption (JStr (lit "Error loading commands")) (JStr []) None
  | Skills => mkOption (JStr (lit "Error loading skills")) (JStr []) None
  end.

(** The address a provider queries; the skills provider queries
    none. *)
Definition provider_path (p : Provider) : jsstring :=
  match p with
  | Sessions => lit "/session"
  | Models => lit "/config/providers"
  | Agents => lit "/agent"
  | Commands => lit "/command"
  | Skills => []
  end.

Definition load_request (credentials : IOpenCodeCredentials)
  (p : Provider) : Request :=
  mkRequest LegacyRequest GET (baseUrl credentials ++ provider_path p)
    None None (username credentials, password credentials).

(* ---------------------------------------------------------------- *)
(** ** Item pairing *)

(** Every record a computation returns is paired to the item [i]. *)
Definition paired_to (i : nat) (m : M (list INodeExecutionData)) : Prop :=
  forall w records,
    fst (m w) = Ok records ->
    Forall (fun r => pairedItem r = i) records.

(** The record the delete action emits. *)
Definition deleted_record (sessionId_ : jsstring) : json :=
  JObj [ (lit "success", JBool true);
         (lit "message",
          JStr (lit "Session " ++ sessionId_ ++ lit " deleted successfully"));
         (lit "sessionId", JStr sessionId_) ].


(** The record the asynchronous send emits. *)
Definition async_record (sessionId_ : option jsstring) (temporary : bool)
  : json :=
  JObj [ (lit "success", JBool true);
         (lit "message", JStr (lit "Message sent successfully (async)"));
         (lit "sessionId", opt_str sessionId_);
         (lit "wasTemporarySession", JBool temporary) ].

(* ---------------------------------------------------------------- *)
(** ** The option loaders *)

(** A session the sessions loader can label: it has a title that is
    not empty, or an id. *)
Definition listable (session : json) : bool :=
  match LoadOptions.truthy_str (prop_str "title" session),
        prop_str "id" session with
  | None, None => false
  | _, _ => true
  end.

(** The entry of the agents loader for the primary agent. *)
Definition primary_option (a : json) : INodePropertyOptions :=
  mkOption (JStr (tpl (prop_str "name" a) ++ lit " (Primary)"))
    (opt_str (prop_str "name" a)) (Some (lit "Primary agent")).

(** The skills found in the four directories, in the order of the
    scan. *)
Definition scanned (env : SkillEnvironment) (homeDir : jsstring)
  : list ISkillInfo :=
  List.flat_map (scanSkillDirectory env) (LoadOptions.skillDirs env homeDir).

(** The names of a list of skills. *)
Definition names_of (l : list ISkillInfo) : list jsstring :=
  List.map skill_name l.

(* ---------------------------------------------------------------- *)
(** ** The requests of the adapters *)

Definition tool_create_request (c : Tool.Captured) : Request :=
  mkRequest HttpRequest POST
    (baseUrl (Tool.credentials c) ++ lit "/session")
    (Some (obj_lit [(lit "title",
                     JStr (str_or (Tool.tempTitle c)
                             (lit "Temporary Tool Session")))]))
    None (Tool.auth c).

Definition tool_delete_request (c : Tool.Captured)
  (sessionId_ : option jsstring) : Request :=
  mkRequest HttpRequest DELETE
    (baseUrl (Tool.credentials c) ++ lit "/session/" ++ tpl sessionId_)
    None None (Tool.auth c).

Definition tool_message_request (c : Tool.Captured) (message_ : jsstring)
  (sessionId_ : option jsstring) : Request :=
  mkRequest HttpRequest POST
    (baseUrl (Tool.credentials c) ++ lit "/session/" ++ tpl sessionId_ ++
     lit "/message")
    (Some (JObj (set_model (Tool.selector c)
                   [(lit "parts", JArr [text_part message_])])))
    (Some (Tool.timeout c)) (Tool.auth c).

Definition chat_create_request (this : Chat.ChatOpenCode)
  : Chat.FetchRequest :=
  Chat.mkFetch POST (Chat.chat_baseUrl this ++ lit "/session")
    (Chat.chat_auth this)
    (Some (obj_lit [(lit "title", JStr (Chat.chat_tempSessionTitle this))])).

Definition chat_delete_request (this : Chat.ChatOpenCode)
  (sessionId_ : jsstring) : Chat.FetchRequest :=
  Chat.mkFetch DELETE
    (Chat.chat_baseUrl this ++ lit "/session/" ++ sessionId_)
    (Chat.chat_auth this) None.

Definition chat_message_request (this : Chat.ChatOpenCode)
  (text sessionId_ : jsstring) : Chat.FetchRequest :=
  Chat.mkFetch POST
    (Chat.chat_baseUrl this ++ lit "/session/" ++ sessionId_ ++
     lit "/message")
    (Chat.chat_auth this) (Some (Chat.chat_payload this text)).

(** The error [_generate] throws for a missing session. *)
Definition no_session_error : Chat.Thrown :=
  Chat.Error (lit "No session ID provided and temporary " ++
              lit "session mode is not enabled").

(* ================================================================== *)
(** * Example hosts *)
(* ================================================================== *)

Module Examples.

Definition credentials : IOpenCodeCredentials :=
  mkCredentials (lit "http://127.0.0.1:4096") (lit "opencode") (lit "secret").

(** The parameters of a message item; everything else is left to its
    fallback. *)
Definition message_parameters (mode : string) (session : option jsstring)
  (text : string) (simple : bool) : NodeParameters :=
  {| sessionMode := Some (lit mode);
     sessionId := session;
     tempSessionTitle := None;
     message := Some (lit text);
     simpleResponse := Some simple;
     model := None;
     options := None;
     command := Some (lit "review");
     commandArguments := Some (lit "not json");
     shellCommand := Some (lit "ls");
     shellAgent := Some (lit "build");
     skill := Some (lit "summarize");
     skillArguments := None;
     title := None;
     limit := None;
     targetMessageId := None;
     resource := Some (lit "message");
     operation := Some (lit "send") |}.

(** A service that creates the session [tmp1] and then fails every
    other request, the delete request included. *)
Definition failing_after_create (_ : list Request) (r : Request)
  : Result json :=
  if Str.eqb (req_url r) (baseUrl credentials ++ lit "/session")
  then Ok (obj_lit [(lit "id", JStr (lit "tmp1"))])
  else Throw (Error (lit "socket hang up")).

Definition temporary_host : Host :=
  {| hostCredentials := Ok credentials;
     parameters := fun _ => message_parameters "temporary" None "2+2?" false;
     remote := failing_after_create;
     inputItems := 1;
     continueOnFail := false |}.

(** A service that fails every request. *)
Definition unreachable_host (continue : bool) : Host :=
  {| hostCredentials := Ok credentials;
     parameters := fun _ => message_parameters "temporary" None "2+2?" false;
     remote := fun _ _ => Throw (Error (lit "connect ECONNREFUSED"));
     inputItems := 2;
     continueOnFail := continue |}.

(** A service that answers every request with [body]. *)
Definition answering_host (p : NodeParameters) (body : json) : Host :=
  {| hostCredentials := Ok credentials;
     parameters := fun _ => p;
     remote := fun _ _ => Ok body;
     inputItems := 1;
     continueOnFail := false |}.

Definition start : World := mkWorld [] [].

(** The answer [{ parts: [{ type: 'text', text: '4' }] }]. *)
Definition answer_4 : json :=
  obj_lit [(lit "parts", JArr [text_part (lit "4")])].

(** The scenario of the specification: the message [2+2?] to the
    session [s1], simple response, and the answer [4]. *)
Definition scenario_host : Host :=
  answering_host (message_parameters "existing" (Some (lit "s1")) "2+2?" true)
    answer_4.

(** The same with the answer [four], which is not JSON. *)
Definition scenario_host_four : Host :=
  answering_host (message_parameters "existing" (Some (lit "s1")) "2+2?" true)
    (obj_lit [(lit "parts", JArr [text_part (lit "four")])]).



(** An answer of the shell kind: a tool part with its output, then a
    text part. *)
Definition tool_answer : json :=
  obj_lit
    [(lit "parts",
      JArr [ obj_lit [ (lit "type", JStr (lit "tool"));
                       (lit "state",
                        obj_lit [(lit "output", JStr (lit "ok"))]) ];
             text_part (lit "done") ])].

(** A machine without skills whose locale orders strings by length. *)
Definition no_skills : SkillEnvironment :=
  {| homedir := Ok (lit "/home/node");
     cwd := lit "/srv";
     scanSkillDirectory := fun _ => [];
     localeCompare_le := fun a b => (List.length a <=? List.length b)%nat |}.

End Examples.

(* ================================================================== *)
(** * More example hosts *)
(* ================================================================== *)

Module Examples2.

Definition session_parameters : NodeParameters :=
  Examples.message_parameters "existing" (Some (lit "s1")) "hi" false.

(** A host whose credentials cannot be read. *)
Definition locked_host : Host :=
  {| hostCredentials := Throw (Error (lit "Credentials not found"));
     parameters := fun _ => session_parameters;
     remote := fun _ _ => Ok JNull;
     inputItems := 1;
     continueOnFail := false |}.

(** A service that fails every request, for an item with a session. *)
Definition failing_host (continue : bool) : Host :=
  {| hostCredentials := Ok Examples.credentials;
     parameters := fun _ => session_parameters;
     remote := fun _ _ => Throw (Error (lit "connect ECONNREFUSED"));
     inputItems := 2;
     continueOnFail := continue |}.

(** A host without resource and operation. *)
Definition unconfigured_host : Host :=
  {| hostCredentials := Ok Examples.credentials;
     parameters := fun _ =>
       {| sessionMode := None; sessionId := None; tempSessionTitle := None;
          message := None; simpleResponse := None; model := None;
          options := None; command := None; commandArguments := None;
          shellCommand := None; shellAgent := None; skill := None;
          skillArguments := None; title := None; limit := None;
          targetMessageId := None; resource := None; operation := None |};
     remote := fun _ _ => Ok JNull;
     inputItems := 3;
     continueOnFail := true |}.

Definition answering (body : json) : Host :=
  Examples.answering_host session_parameters body.

(** No status handler: it returns no record. *)
Definition no_status (_ : nat) : M (list INodeExecutionData) := ret [].

Definition named (n : string) (mode : string) : json :=
  obj_lit [(lit "name", JStr (lit n)); (lit "mode", JStr (lit mode))].

(** Two primary agents and a subagent. *)
Definition three_agents : list json :=
  [named "build" "primary"; named "plan" "primary"; named "explore" "subagent"].

(** A session with a title and an id, and one with neither. *)
Definition good_session : json :=
  obj_lit [(lit "id", JStr (lit "ses_1")); (lit "title", JStr (lit "First"))].

Definition bare_session : json := JObj [].

Definition anthropic : json := obj_lit [(lit "id", JStr (lit "anthropic"))].
Definition sonnet : json := obj_lit [(lit "id", JStr (lit "claude-sonnet"))].

(** A machine where two directories hold a skill of the same name. *)
Definition two_skill_dirs : SkillEnvironment :=
  {| homedir := Ok (lit "/home/node");
     cwd := lit "/srv";
     scanSkillDirectory := fun dir =>
       if Str.eqb dir (lit "/home/node/.claude/skills")
       then [mkSkill (lit "review") (lit "Reviews code") dir;
             mkSkill (lit "deploy") (lit "Deploys") dir]
       else if Str.eqb dir (lit "/srv/.claude/skills")
       then [mkSkill (lit "review") (lit "Project review") dir]
       else [];
     localeCompare_le := fun a b => (List.length a <=? List.length b)%nat |}.

(** An answer that serves as the answer of a create call and of a
    message call: [{ id: 'tmp1', parts: [{ type: 'text', text: ' 4 ' }] }]. *)
Definition session_and_answer : json :=
  obj_lit [ (lit "id", JStr (lit "tmp1"));
            (lit "parts", JArr [text_part (lit " 4 ")]) ].

(** The tool in temporary mode. *)
Definition temporary_tool : Tool.Captured :=
  Tool.mkCaptured Examples.credentials true None None [] 300000%Z.

(** A chat model in temporary mode, and one without any session. *)
Definition temporary_chat : Chat.ChatOpenCode :=
  Chat.construct
    (Chat.mkInput (lit "http://127.0.0.1:4096") (lit "opencode")
       (lit "secret") None None (Some 5000%Z) (Some true) None None).

Definition sessionless_chat : Chat.ChatOpenCode :=
  Chat.construct
    (Chat.mkInput (lit "http://127.0.0.1:4096") (lit "opencode")
       (lit "secret") None None None None None None).

Definition created : Chat.Response :=
  Chat.mkResponse true 200 (lit "OK")
    (Chat.Returned (obj_lit [(lit "id", JStr (lit "tmp1"))])).

Definition answered : Chat.Response :=
  Chat.mkResponse true 200 (lit "OK") (Chat.Returned Examples.answer_4).

Definition unavailable : Chat.Response :=
  Chat.mkResponse false 503 (lit "Service Unavailable")
    (Chat.Returned JNull).

Definition network_down : Chat.Thrown :=
  Chat.mkThrown true (lit "TypeError") (lit "fetch failed").

(** A service that creates [tmp1], answers the message and then drops
    the connection on the delete call. *)
Definition drops_on_delete (_ : list Chat.FetchRequest)
  (r : Chat.FetchRequest) : Chat.Fetched :=
  match Chat.fetch_method r with
  | DELETE => Chat.Rejected network_down
  | _ =>
      if Str.eqb (Chat.fetch_url r) (lit "http://127.0.0.1:4096/session")
      then Chat.Responded created
      else Chat.Responded answered
  end.

(** A service that is unavailable. *)
Definition refuses (_ : list Chat.FetchRequest) (_ : Chat.FetchRequest)
  : Chat.Fetched := Chat.Responded unavailable.

(** A service whose calls are aborted by the timer. *)
Definition times_out (_ : list Chat.FetchRequest) (_ : Chat.FetchRequest)
  : Chat.Fetched :=
  Chat.Rejected (Chat.mkThrown true (lit "AbortError")
                   (lit "This operation was aborted")).

Definition no_prompt (_ : list Chat.ToolDefinition) : jsstring := [].
Definition no_calls (_ : jsstring) : list Chat.ParsedToolCall := [].

Definition question : list Chat.BaseMessage :=
  [Chat.mkMessage Chat.human (Chat.StringContent (lit "2+2?"))].

Definition chat_start : Chat.ChatWorld := Chat.mkChatWorld [] [].

End Examples2.

(* ================================================================== *)
(** * Facts about strings *)
(* ================================================================== *)

Section StringFacts.

Lemma str_eqb_eq (a b : jsstring) : Str.eqb a b = true <-> a = b.
Proof.
  revert b; induction a as [|x a IH]; intros [|y b]; simpl;
    try (split; [discriminate | discriminate]); try tauto.
  rewrite andb_true_iff, N.eqb_eq, IH.
  split; [intros [-> ->]; reflexivity | intros [= -> ->]; auto].
Qed.

Lemma str_eqb_refl (a : jsstring) : Str.eqb a a = true.
Proof. apply str_eqb_eq; reflexivity. Qed.

Lemma str_eqb_neq (a b : jsstring) : Str.eqb a b = false <-> a <> b.
Proof.
  rewrite <- str_eqb_eq. destruct (Str.eqb a b); split; congruence.
Qed.


Lemma includes_eq (sub s : jsstring) :
  Str.includes sub s =
  Str.startsWith sub s
  || match s with [] => false | _ :: s' => Str.includes sub s' end.
Proof. destruct s; reflexivity. Qed.

Lemma split_go_cons (sep cur s : jsstring) (c : char16) :
  Str.split_go sep 0 cur (c :: s) =
  if Str.startsWith sep (c :: s)
  then rev cur :: Str.split_go sep (List.length sep - 1) [] s
  else Str.split_go sep 0 (c :: cur) s.
Proof. reflexivity. Qed.

Lemma startsWith_app (p s : jsstring) : Str.startsWith p (p ++ s) = true.
Proof.
  induction p as [|x p IH]; simpl; [reflexivity|].
  now rewrite N.eqb_refl, IH.
Qed.

Lemma includes_app_sep (sub a b : jsstring) :
  Str.includes sub (a ++ sub ++ b) = true.
Proof.
  induction a as [|x a IH].
  - rewrite includes_eq. cbn [app]. now rewrite startsWith_app.
  - rewrite includes_eq. cbn [app]. rewrite IH. apply orb_true_r.
Qed.

(** Without an occurrence of the separator, [split] returns the string
    as its only piece. *)
Lemma split_go_no_sep (sep cur s : jsstring) :
  Str.includes sep s = false ->
  Str.split_go sep 0 cur s = [rev cur ++ s].
Proof.
  revert cur; induction s as [|c s IH]; intros cur H.
  - simpl. now rewrite app_nil_r.
  - rewrite includes_eq in H. apply orb_false_iff in H as [H1 H2].
    rewrite split_go_cons, H1, IH by assumption.
    simpl. now rewrite <- app_assoc.
Qed.

End StringFacts.

Section SelectorRoundTrip.

Import ModelSelector.

Let colon : char16 := 58%N.

Lemma startsWith_sep (s : jsstring) :
  Str.startsWith sep s =
  match s with
  | c :: d :: _ => (58 =? c)%N && (58 =? d)%N
  | _ => false
  end.
Proof.
  destruct s as [|c [|d s]]; cbn; try reflexivity.
  - now rewrite andb_false_r.
  - now rewrite andb_true_r.
Qed.

(** The scan for [::] in [p ++ "::" ++ m] first matches right after [p]
    when [p] holds no [::] and does not end in a colon. *)
Lemma split_go_encode (p m cur : jsstring) :
  Str.includes sep p = false ->
  Str.includes sep m = false ->
  last p 0%N <> colon ->
  Str.split_go sep 0 cur (encode p m) = [rev cur ++ p; m].
Proof.
  unfold encode. revert cur.
  induction p as [|c p IH]; intros cur Hp Hm Hl.
  - change ([] ++ sep ++ m) with (58%N :: 58%N :: m).
    rewrite split_go_cons, startsWith_sep. cbn [N.eqb Pos.eqb andb].
    change (List.length sep - 1) with 1.
    cbn [Str.split_go]. rewrite split_go_no_sep by assumption.
    now rewrite app_nil_r.
  - rewrite includes_eq in Hp. apply orb_false_iff in Hp as [Hp1 Hp2].
    rewrite startsWith_sep in Hp1.
    change ((c :: p) ++ sep ++ m) with (c :: (p ++ sep ++ m)).
    rewrite split_go_cons, startsWith_sep.
    assert (Hs : match c :: p ++ sep ++ m with
                 | c0 :: d :: _ => (58 =? c0)%N && (58 =? d)%N
                 | _ => false
                 end = false).
    { destruct p as [|d p'].
      - change (c :: [] ++ sep ++ m) with (c :: 58%N :: 58%N :: m).
        cbv beta iota. cbn in Hl.
        destruct (N.eqb_spec 58 c) as [e|n]; [|reflexivity].
        subst c. now elim Hl.
      - exact Hp1. }
    rewrite Hs, IH; trivial.
    + simpl. now rewrite <- app_assoc.
    + destruct p; [discriminate|exact Hl].
Qed.

End SelectorRoundTrip.

(* ================================================================== *)
(** * Facts about the transport client and the session helpers *)
(* ================================================================== *)

Section ApiFacts.

Import Api.
Local Open Scope js_scope.

Variable h : Host.

(** One call of the transport client is one request, whatever the
    answer. *)
Lemma openCodeApiRequest_run credentials o w :
  openCodeApiRequest h credentials o w =
  (api_outcome (remote h (trace w) (api_request credentials o)),
   sent w (api_request credentials o)).
Proof.
  unfold openCodeApiRequest, try_catch, send_request, api_request, sent.
  destruct (remote h (trace w) _); reflexivity.
Qed.

Lemma createSession_run credentials title_ w :
  createSession h credentials title_ w =
  (match remote h (trace w) (create_request credentials title_) with
   | Ok body => Ok (prop_str "id" body)
   | Throw e => Throw (request_failed e)
   end,
   sent w (create_request credentials title_)).
Proof.
  unfold createSession, bind. rewrite openCodeApiRequest_run.
  fold (create_request credentials title_).
  destruct (remote h (trace w) _); reflexivity.
Qed.

(** [deleteSession] never throws and sends exactly one request. *)
Lemma deleteSession_run credentials sessionId_ w :
  deleteSession h credentials sessionId_ w =
  (Ok tt,
   mkWorld (trace w ++ [delete_request credentials sessionId_])
           (console w ++ delete_log h credentials sessionId_ w)).
Proof.
  unfold deleteSession, try_catch, bind, delete_log.
  rewrite openCodeApiRequest_run. fold (delete_request credentials sessionId_).
  destruct (remote h (trace w) _); cbn.
  - now rewrite app_nil_r.
  - reflexivity.
Qed.

(** A [try] block under the cleanup of a temporary session: the
    completion of the block stands, and the delete request follows
    it. *)
Lemma try_finally_cleanup {A} (body : M A) credentials sessionId_ w :
  try_finally body (Message.cleanup h credentials sessionId_ true) w =
  (fst (body w),
   mkWorld
     (trace (snd (body w)) ++ [delete_request credentials sessionId_])
     (console (snd (body w)) ++
      delete_log h credentials sessionId_ (snd (body w)))).
Proof.
  unfold try_finally, Message.cleanup.
  destruct (body w) as [r w1]. rewrite deleteSession_run. reflexivity.
Qed.

Lemma try_finally_no_cleanup {A} (body : M A) credentials sessionId_ w :
  try_finally body (Message.cleanup h credentials sessionId_ false) w =
  body w.
Proof.
  unfold try_finally, Message.cleanup, ret.
  destruct (body w) as [r w1]. reflexivity.
Qed.

(** In temporary mode the session is the one the create call
    returns. *)
Lemma determineSession_temporary credentials p w :
  Message.determineSession h credentials p (lit "temporary") w =
  (match remote h (trace w)
           (create_request credentials
              (nullish (tempSessionTitle p) (lit "Temporary Chat Session")))
   with
   | Ok body => Ok (prop_str "id" body, true)
   | Throw e => Throw (request_failed e)
   end,
   sent w (create_request credentials
             (nullish (tempSessionTitle p) (lit "Temporary Chat Session")))).
Proof.
  unfold Message.determineSession.
  change (Str.eqb (lit "temporary") (lit "temporary")) with true.
  cbv iota. unfold bind at 1. unfold getNodeParameter at 1. unfold ret at 1.
  unfold bind. rewrite createSession_run.
  destruct (remote h (trace w) _); reflexivity.
Qed.

End ApiFacts.

(* ================================================================== *)
(** * The temporary-session lifecycle *)
(* ================================================================== *)

Section Lifecycle.

Import Api.
Local Open Scope js_scope.

Variable h : Host.

Ltac open_handler :=
  unfold run, Message.sendMessage, Message.sendMessageAsync,
    Message.executeCommand, Message.executeShell, Message.executeSkill;
  unfold bind, getCredentials, getNodeParameter, getNodeParameter_required,
    ret.

(** An action in temporary mode is its create call and then, when that
    call returned, its [try] block under the cleanup. *)
Lemma run_temporary (a : Action) (i : nat) (w : World) credentials :
  hostCredentials h = Ok credentials ->
  ready a (parameters h i) = true ->
  sessionMode (parameters h i) = Some (lit "temporary") ->
  run h a i w =
  let p := parameters h i in
  let w1 := sent w (create_request credentials (temp_title p)) in
  match remote h (trace w) (create_request credentials (temp_title p)) with
  | Ok body =>
      try_finally
        (inner h a credentials i p (prop_str "id" body) true)
        (Message.cleanup h credentials (prop_str "id" body) true) w1
  | Throw e => (Throw (request_failed e), w1)
  end.
Proof.
  intros Hc Hr Hm. cbv zeta.
  destruct a; open_handler; rewrite Hc, Hm; cbn [ready] in Hr;
    unfold inner, temp_title.
  - destruct (message (parameters h i)); [|discriminate]. cbn [nullish].
    rewrite determineSession_temporary.
    destruct (remote h (trace w) _); reflexivity.
  - destruct (message (parameters h i)); [|discriminate]. cbn [nullish].
    rewrite determineSession_temporary.
    destruct (remote h (trace w) _); reflexivity.
  - destruct (command (parameters h i)); [|discriminate]. cbn [nullish].
    rewrite determineSession_temporary.
    destruct (remote h (trace w) _); reflexivity.
  - destruct (shellCommand (parameters h i)); [|discriminate].
    destruct (shellAgent (parameters h i)); [|discriminate]. cbn [nullish].
    rewrite determineSession_temporary.
    destruct (remote h (trace w) _); reflexivity.
  - destruct (skill (parameters h i)); [|discriminate]. cbn [nullish].
    rewrite determineSession_temporary.
    destruct (remote h (trace w) _); reflexivity.
Qed.

(** The [try] block of an action sends one request, the action's
    message, and a failure of that request is what the block throws. *)
Lemma inner_run (a : Action) credentials i p sessionId_ del :
  exists payload timeout,
  forall w,
    let r := message_request a credentials sessionId_ payload timeout in
    snd (inner h a credentials i p sessionId_ del w) = sent w r /\
    forall e, remote h (trace w) r = Throw e ->
              fst (inner h a credentials i p sessionId_ del w) =
              Throw (request_failed e).
Proof.
  destruct a; unfold inner, message_request, endpoint;
    unfold Message.sendMessage_try, Message.sendMessageAsync_try,
      Message.executeCommand_try, Message.executeShell_try,
      Message.executeSkill_try;
    do 2 eexists; intros w; cbv zeta; unfold bind;
    rewrite openCodeApiRequest_run;
    (split; [|intros e He; rewrite He]);
    try destruct (remote h (trace w) _); reflexivity.
Qed.

(** C1. An action in temporary mode whose create call returned a
    session (an answer that conforms to [ICreateSessionResponse]): the
    completion of its [try] block, value or error, is the completion of
    the action; the requests it adds to the trace are the create call,
    the message and one delete call for the session the create call
    returned, in this order; the answer to the delete call changes
    nothing but the console. *)
Theorem C1_temporary_session_cleanup
  (a : Action) (i : nat) (w : World) credentials body :
  hostCredentials h = Ok credentials ->
  ready a (parameters h i) = true ->
  sessionMode (parameters h i) = Some (lit "temporary") ->
  remote h (trace w)
    (create_request credentials (temp_title (parameters h i))) = Ok body ->
  typed_created body = true ->
  let p := parameters h i in
  let created := prop_str "id" body in
  let create := create_request credentials (temp_title p) in
  let block := inner h a credentials i p created true (sent w create) in
  exists payload timeout,
    let msg := message_request a credentials created payload timeout in
    fst (run h a i w) = fst block /\
    trace (snd block) = trace w ++ [create; msg] /\
    trace (snd (run h a i w)) =
      trace w ++ [create; msg; delete_request credentials created] /\
    List.filter is_delete
      (skipn (List.length (trace w)) (trace (snd (run h a i w)))) =
      [delete_request credentials created] /\
    console (snd (run h a i w)) =
      console (snd block) ++ delete_log h credentials created (snd block) /\
    (forall e, remote h (trace w ++ [create]) msg = Throw e ->
               fst (run h a i w) = Throw (request_failed e)).
Proof.
  intros Hc Hr Hm Hb _. cbv zeta.
  rewrite (run_temporary a i w Hc Hr Hm). cbv zeta. rewrite Hb.
  rewrite try_finally_cleanup.
  destruct (inner_run a credentials i (parameters h i)
              (prop_str "id" body) true) as (payload & timeout & Hrun).
  exists payload, timeout.
  destruct (Hrun (sent w (create_request credentials
                            (temp_title (parameters h i))))) as [Hs He].
  cbv zeta in Hs, He. cbn [fst snd trace console]. rewrite Hs.
  unfold sent. cbn [trace console].
  repeat split.
  - now rewrite <- app_assoc.
  - now rewrite <- !app_assoc.
  - rewrite <- !app_assoc. rewrite skipn_app, skipn_all, Nat.sub_diag.
    reflexivity.
  - exact He.
Qed.

(** C9. An action in temporary mode whose create call fails: the
    failure is what the action throws, and the create call is the only
    request it made. *)
Theorem C9_create_failure_stops_the_action
  (a : Action) (i : nat) (w : World) credentials e :
  hostCredentials h = Ok credentials ->
  ready a (parameters h i) = true ->
  sessionMode (parameters h i) = Some (lit "temporary") ->
  remote h (trace w)
    (create_request credentials (temp_title (parameters h i))) = Throw e ->
  let create := create_request credentials (temp_title (parameters h i)) in
  fst (run h a i w) = Throw (request_failed e) /\
  trace (snd (run h a i w)) = trace w ++ [create] /\
  console (snd (run h a i w)) = console w /\
  req_method create = POST /\
  req_url create = baseUrl credentials ++ lit "/session".
Proof.
  intros Hc Hr Hm Hb. cbv zeta.
  rewrite (run_temporary a i w Hc Hr Hm). cbv zeta. rewrite Hb.
  repeat split.
Qed.

End Lifecycle.


(** The scenario of the specification: the create call returns [tmp1],
    the message fails, and so does the delete call. *)
Lemma C1_witness :
  let h := Examples.temporary_host in
  let w := Examples.start in
  hostCredentials h = Ok Examples.credentials /\
  ready Send (parameters h 0) = true /\
  sessionMode (parameters h 0) = Some (lit "temporary") /\
  typed_created (obj_lit [(lit "id", JStr (lit "tmp1"))]) = true /\
  fst (run h Send 0 w) =
    Throw (request_failed (Error (lit "socket hang up"))) /\
  List.filter is_delete (trace (snd (run h Send 0 w))) =
    [delete_request Examples.credentials (Some (lit "tmp1"))] /\
  List.length (trace (snd (run h Send 0 w))) = 3 /\
  List.length (console (snd (run h Send 0 w))) = 1.
Proof.
  cbv zeta.
  destruct (@C1_temporary_session_cleanup Examples.temporary_host Send 0
              Examples.start Examples.credentials
              (obj_lit [(lit "id", JStr (lit "tmp1"))])
              eq_refl eq_refl eq_refl eq_refl eq_refl)
    as (payload & timeout & H1 & H2 & H3 & H4 & H5 & H6).
  do 4 (split; [reflexivity|]).
  split; [apply H6; reflexivity|].
  split; [exact H4|].
  split; [rewrite H3; reflexivity|].
  rewrite H5. reflexivity.
Defined.

Lemma C9_witness :
  let h := Examples.unreachable_host false in
  let w := Examples.start in
  hostCredentials h = Ok Examples.credentials /\
  ready Shell (parameters h 0) = true /\
  sessionMode (parameters h 0) = Some (lit "temporary") /\
  fst (run h Shell 0 w) =
    Throw (request_failed (Error (lit "connect ECONNREFUSED"))) /\
  trace (snd (run h Shell 0 w)) =
    [create_request Examples.credentials (lit "Temporary Chat Session")].
Proof.
  cbv zeta.
  destruct (@C9_create_failure_stops_the_action (Examples.unreachable_host false)
              Shell 0 Examples.start Examples.credentials
              (Error (lit "connect ECONNREFUSED"))
              eq_refl eq_refl eq_refl eq_refl)
    as (H1 & H2 & _).
  do 3 (split; [reflexivity|]).
  split; [exact H1 | exact H2].
Defined.

(* ================================================================== *)
(** * The model selector *)
(* ================================================================== *)

Section Selector.

Import ModelSelector.

Lemma truthy_encode (p m : jsstring) : Str.truthy (encode p m) = true.
Proof. unfold encode. destruct p; reflexivity. Qed.

(** C3, as the code has it.  The pair comes back when, besides holding
    no [::], the provider id does not end in a colon: the split takes
    the leftmost [::] of the flat string. *)
Theorem C3_selector_round_trip (p m : jsstring) :
  Str.includes sep p = false ->
  Str.includes sep m = false ->
  last p 0%N <> 58%N ->
  decode (encode p m) = Some (Some p, Some m) /\
  payload_model (encode p m) =
    Some (JObj [(lit "providerID", JStr p); (lit "modelID", JStr m)]).
Proof.
  intros Hp Hm Hl.
  assert (Hd : decode (encode p m) = Some (Some p, Some m)).
  { unfold decode. rewrite truthy_encode.
    unfold encode at 1. rewrite includes_app_sep. cbn [andb].
    unfold Str.split. change sep with [58%N; 58%N] at 1.
    rewrite (split_go_encode p m [] Hp Hm Hl). reflexivity. }
  split; [exact Hd|].
  unfold payload_model. rewrite Hd. reflexivity.
Qed.

Lemma C3_witness :
  Str.includes sep (lit "anthropic") = false /\
  Str.includes sep (lit "claude-sonnet") = false /\
  last (lit "anthropic") 0%N <> 58%N /\
  decode (encode (lit "anthropic") (lit "claude-sonnet")) =
    Some (Some (lit "anthropic"), Some (lit "claude-sonnet")).
Proof.
  assert (Hl : last (lit "anthropic") 0%N <> 58%N)
    by (vm_compute; discriminate).
  do 2 (split; [reflexivity|]). split; [exact Hl|].
  exact (proj1 (@C3_selector_round_trip (lit "anthropic")
                  (lit "claude-sonnet") eq_refl eq_refl Hl)).
Defined.

(** The claim as stated fails: neither [a:] nor [b] holds [::], and
    [a:::b] decodes to the pair of [a] and [:b]. *)
Lemma C3_counterexample :
  ~ (forall p m : jsstring,
       Str.includes sep p = false ->
       Str.includes sep m = false ->
       decode (encode p m) = Some (Some p, Some m)).
Proof.
  intros H.
  specialize (H (lit "a:") (lit "b") eq_refl eq_refl).
  vm_compute in H. discriminate H.
Qed.

Example leftmost_split_of_three_colons :
  decode (encode (lit "a:") (lit "b")) = Some (Some (lit "a"), Some (lit ":b")).
Proof. reflexivity. Qed.

End Selector.


(* ================================================================== *)
(** * Flattening a response *)
(* ================================================================== *)

Section Flatten.





Lemma join_spec (l : list jsstring) :
  Str.join newline l = spec_join_lines l.
Proof.
  induction l as [|s l IH]; [reflexivity|].
  destruct l as [|s' l'].
  - cbn. now rewrite app_nil_r.
  - change (Str.join newline (s :: s' :: l'))
      with (s ++ newline ++ Str.join newline (s' :: l')).
    rewrite IH. cbn [spec_join_lines List.map List.concat].
    now rewrite <- app_assoc.
Qed.

Lemma text_fields_spec (parts : list json) :
  List.map (fun p => str_or (prop_str "text" p) [])
    (List.filter (type_is "text") parts) = spec_text_fields parts.
Proof.
  induction parts as [|p parts IH]; [reflexivity|].
  cbn [List.filter spec_text_fields]. unfold type_is at 1.
  destruct (prop "type" p) as [[| | | |t| |]|]; try exact IH.
  destruct (Str.eqb t (lit "text")); [|exact IH].
  cbn [List.map]. rewrite IH.
  destruct (prop_str "text" p) as [[|c s]|]; reflexivity.
Qed.

Lemma extractText_spec (response : json) (parts : list json) :
  prop "parts" response = Some (JArr parts) ->
  extractText response = spec_join_lines (spec_text_fields parts).
Proof.
  intros H. unfold extractText, parts_or_empty. rewrite H.
  now rewrite text_fields_spec, join_spec.
Qed.

End Flatten.

(** The chat-model and tool adapters have no trim option: they always
    trim. *)
Lemma adapter_responseText_spec (data : json) (parts : list json) :
  prop "parts" data = Some (JArr parts) ->
  adapter_responseText data =
  Str.trim (spec_join_lines (spec_text_fields parts)).
Proof.
  intros H. unfold adapter_responseText. now rewrite (extractText_spec data H).
Qed.


(* ================================================================== *)
(** * Payloads and emitted records *)
(* ================================================================== *)

Section Objects.

Lemma assoc_obj_set_eq k v o : assoc k (obj_set k v o) = Some v.
Proof.
  induction o as [|[k' v'] o IH]; cbn [obj_set assoc].
  - now rewrite str_eqb_refl.
  - destruct (Str.eqb k' k) eqn:E; cbn [assoc]; rewrite E; [reflexivity|exact IH].
Qed.

Lemma assoc_obj_set_neq k k' v o :
  k' <> k -> assoc k (obj_set k' v o) = assoc k o.
Proof.
  intros Hn. induction o as [|[k0 v0] o IH]; cbn [obj_set assoc].
  - apply str_eqb_neq in Hn. now rewrite Hn.
  - destruct (Str.eqb k0 k') eqn:E; cbn [assoc].
    + apply str_eqb_eq in E. subst k0.
      apply str_eqb_neq in Hn. now rewrite Hn.
    + now rewrite IH.
Qed.

Lemma assoc_set_when_neq k c k' v o :
  lit k' <> k -> assoc k (set_when c k' v o) = assoc k o.
Proof.
  intros Hn. unfold set_when. destruct c; [|reflexivity].
  now apply assoc_obj_set_neq.
Qed.

Lemma assoc_set_model_neq k m o :
  lit "model" <> k -> assoc k (set_model m o) = assoc k o.
Proof.
  intros Hn. unfold set_model.
  destruct (ModelSelector.payload_model m); [|reflexivity].
  now apply assoc_obj_set_neq.
Qed.

End Objects.

Ltac keys_differ := apply str_eqb_neq; reflexivity.

Section Records.

Import Api.
Local Open Scope js_scope.

Variable h : Host.


(** C6, the code at the scenario.  The text [4] parses as JSON, so the
    send action emits the number 4 as the record, not the text under
    the response key. *)
Theorem C6_scenario_emits_the_number :
  fst (Message.sendMessage Examples.scenario_host 0 Examples.start) =
    Ok [mkItem (JNum 4 0) 0] /\
  fst (Message.sendMessage Examples.scenario_host 0 Examples.start) <>
    Ok [mkItem (obj_lit [(lit "response", JStr (lit "4"))]) 0] /\
  fst (Message.sendMessage Examples.scenario_host_four 0 Examples.start) =
    Ok [mkItem (obj_lit [(lit "response", JStr (lit "four"))]) 0].
Proof.
  split; [reflexivity|]. split; [|reflexivity].
  intros H. vm_compute in H. discriminate H.
Qed.

(** C7, as the code has it.  For arguments that are not empty and not
    JSON, the text of [executeCommand] that parses them sends
    [{ input: arguments }], the other text sends the string itself;
    under both the request goes out with that payload. *)
Theorem C7_command_arguments_fallback
  (commandArguments_ command_ model_ agent messageId : jsstring) :
  commandArguments_ <> [] ->
  JSON.parse commandArguments_ = None ->
  prop "arguments"
    (Message.command_payload Message.ParsedArguments command_
       commandArguments_ model_ agent messageId) =
    Some (JObj [(lit "input", JStr commandArguments_)]) /\
  prop "arguments"
    (Message.command_payload Message.StringArguments command_
       commandArguments_ model_ agent messageId) =
    Some (JStr commandArguments_) /\
  forall text credentials i o sid del w,
    trace (snd (Message.executeCommand_try h text credentials i command_
                  commandArguments_ model_ o sid del w)) =
    trace w ++
    [message_request (Command text) credentials sid
       (Message.command_payload text command_ commandArguments_ model_
          (str_or (opt_agent o) []) (str_or (opt_messageID o) []))
       (nullish (opt_timeout o) 300000%Z)].
Proof.
  intros Hne Hparse. split; [|split].
  - unfold Message.command_payload, prop.
    rewrite assoc_set_model_neq by keys_differ.
    rewrite !assoc_set_when_neq by keys_differ.
    rewrite assoc_obj_set_eq.
    unfold Message.parsed_arguments. rewrite Hparse.
    destruct commandArguments_; [congruence|reflexivity].
  - unfold Message.command_payload, prop.
    rewrite !assoc_set_when_neq by keys_differ.
    destruct commandArguments_; [congruence|reflexivity].
  - intros. unfold Message.executeCommand_try. cbv zeta. unfold bind.
    rewrite openCodeApiRequest_run.
    destruct (remote h (trace w) _); reflexivity.
Qed.

(** The claim as stated fails on the text that sends the arguments as a
    string: [not json] goes out as it is, not wrapped. *)
Lemma C7_counterexample :
  ~ (forall (text : Message.CommandText) (commandArguments_ : jsstring),
       commandArguments_ <> [] ->
       JSON.parse commandArguments_ = None ->
       prop "arguments"
         (Message.command_payload text (lit "review") commandArguments_
            [] [] []) =
       Some (JObj [(lit "input", JStr commandArguments_)])).
Proof.
  intros H.
  assert (Hne : lit "not json" <> []) by (vm_compute; discriminate).
  specialize (H Message.StringArguments (lit "not json") Hne eq_refl).
  vm_compute in H. discriminate H.
Qed.

(** C10. The list-messages action emits the summary record, alone, when
    the answer is an empty array or no array, one record per message in
    the array's order otherwise, and never no record. *)
Theorem C10_list_messages_records
  (i : nat) (w : World) credentials (sid : jsstring) (response : json) :
  hostCredentials h = Ok credentials ->
  sessionId (parameters h i) = Some sid ->
  remote h (trace w)
    (list_request credentials sid (nullish (limit (parameters h i)) 50%Z)) =
    Ok response ->
  exists records,
    fst (Message.listMessages h i w) = Ok records /\
    records <> [] /\
    (forall messages,
       response = JArr messages -> messages <> [] ->
       records = List.map (fun msg => mkItem msg i) messages) /\
    (response = JArr [] \/ (forall messages, response <> JArr messages) ->
     records = [mkItem (summary_record sid) i]).
Proof.
  intros Hc Hs Hr.
  exists (Message.list_result i sid response). split; [|split; [|split]].
  - unfold Message.listMessages, bind, getCredentials, getNodeParameter,
      getNodeParameter_required, ret.
    rewrite Hc, Hs. rewrite openCodeApiRequest_run.
    unfold list_request in Hr. rewrite Hr. reflexivity.
  - unfold Message.list_result.
    destruct response as [| | | | |[|m l]|]; discriminate.
  - intros messages -> Hne. unfold Message.list_result.
    destruct messages; [congruence|reflexivity].
  - intros [->|Hn]; [reflexivity|].
    unfold Message.list_result.
    destruct response as [| | | | |l|]; try reflexivity.
    now elim (Hn l).
Qed.

End Records.

Lemma C7_witness :
  lit "not json" <> [] /\
  JSON.parse (lit "not json") = None /\
  prop "arguments"
    (Message.command_payload Message.ParsedArguments (lit "review")
       (lit "not json") [] [] []) =
    Some (JObj [(lit "input", JStr (lit "not json"))]).
Proof.
  assert (Hne : lit "not json" <> []) by (vm_compute; discriminate).
  split; [exact Hne|]. split; [reflexivity|].
  exact (proj1 (@C7_command_arguments_fallback Examples.scenario_host
                  (lit "not json") (lit "review") [] [] [] Hne eq_refl)).
Defined.

Lemma C10_witness :
  let h := Examples.answering_host
             (Examples.message_parameters "existing" (Some (lit "s1")) "hi" false)
             (JObj []) in
  hostCredentials h = Ok Examples.credentials /\
  sessionId (parameters h 0) = Some (lit "s1") /\
  fst (Message.listMessages h 0 Examples.start) =
    Ok [mkItem (summary_record (lit "s1")) 0].
Proof.
  cbv zeta.
  destruct (@C10_list_messages_records
              (Examples.answering_host
                 (Examples.message_parameters "existing" (Some (lit "s1")) "hi"
                    false) (JObj []))
              0 Examples.start Examples.credentials (lit "s1") (JObj [])
              eq_refl eq_refl eq_refl)
    as (records & H1 & _ & _ & H4).
  do 2 (split; [reflexivity|]).
  rewrite H1. f_equal. apply H4. right. intros messages. discriminate.
Defined.

(* ================================================================== *)
(** * The text of the send action *)
(* ================================================================== *)

Section SendText.

Import Api.
Local Open Scope js_scope.

Variable h : Host.


End SendText.



(* ================================================================== *)
(** * Shell and skill output *)
(* ================================================================== *)

Section ShellOutput.

Lemma state_output_spec (part : json) st :
  prop "state" part = Some (JObj st) ->
  state_output (JObj st) = spec_tool_output part.
Proof.
  intros H. unfold spec_tool_output, state_output. rewrite H.
  destruct (prop_str "output" (JObj st)) as [[|c s]|]; cbn [str_or Str.or_else Str.truthy];
    destruct (prop "metadata" (JObj st)) as [md|]; try reflexivity;
    destruct (prop_str "output" md) as [[|d t]|]; reflexivity.
Qed.

(** The loop of [executeShell], from any output gathered so far. *)
Lemma shell_loop_spec (parts : list json) (acc : jsstring) :
  fold_left
    (fun shellOutput part =>
       if type_is "tool" part then
         match prop "state" part with
         | Some (JObj st) =>
             let output := state_output (JObj st) in
             if Str.truthy output then shellOutput ++ output
             else shellOutput
         | _ => shellOutput
         end
       else shellOutput)
    parts acc = acc ++ spec_shell_output parts.
Proof.
  unfold spec_shell_output.
  revert acc; induction parts as [|p parts IH]; intros acc;
    cbn [fold_left List.filter].
  - cbn. now rewrite app_nil_r.
  - rewrite IH. destruct (type_is "tool" p); [|reflexivity].
    cbn [List.map List.concat]. rewrite app_assoc. f_equal.
    destruct (prop "state" p) as [[| | | | | |st]|] eqn:E;
      try (unfold spec_tool_output; rewrite E; now rewrite app_nil_r).
    cbv zeta. rewrite (state_output_spec p E).
    destruct (spec_tool_output p); cbn [Str.truthy];
      [now rewrite app_nil_r | reflexivity].
Qed.

Lemma extractShellOutput_spec (response : json) (parts : list json) :
  prop "parts" response = Some (JArr parts) ->
  extractShellOutput response = spec_shell_output parts.
Proof.
  intros H. unfold extractShellOutput, parts_or_empty. rewrite H.
  apply shell_loop_spec.
Qed.

(** A part has one type: a text part is no tool part. *)
Lemma tool_is_not_text (p : json) :
  type_is "tool" p = true -> type_is "text" p = false.
Proof.
  unfold type_is. destruct (prop "type" p) as [[| | | |t| |]|]; try discriminate.
  intros H. apply str_eqb_eq in H. subst t. reflexivity.
Qed.

Lemma shell_output_ignores_text (parts : list json) :
  spec_shell_output
    (List.filter (fun p => negb (type_is "text" p)) parts) =
  spec_shell_output parts.
Proof.
  unfold spec_shell_output. f_equal. f_equal.
  induction parts as [|p parts IH]; [reflexivity|].
  cbn [List.filter].
  destruct (type_is "text" p) eqn:Et; cbn [negb List.filter].
  - destruct (type_is "tool" p) eqn:Eo; [|exact IH].
    apply tool_is_not_text in Eo. congruence.
  - now rewrite IH.
Qed.

(** In the full record of the shell action the output sits under the
    response key, unless that key is [parts]. *)
Lemma shell_result_carries_output i trimResponse key cmd agent sid del
  response :
  key <> lit "parts" ->
  exists record,
    Message.shell_result i false trimResponse key cmd agent sid del response =
      [mkItem (JObj record) i] /\
    assoc key record =
      Some (JStr (applyTrim trimResponse (extractShellOutput response))).
Proof.
  intros Hk. unfold Message.shell_result. cbv zeta. unfold obj_lit.
  eexists. split; [reflexivity|].
  rewrite fold_left_app. cbn [fold_left fst snd].
  rewrite assoc_obj_set_neq by congruence.
  apply assoc_obj_set_eq.
Qed.

Lemma skill_result_carries_text i trimResponse key skill_ args sid del
  response :
  key <> lit "parts" ->
  exists record,
    Message.skill_result i trimResponse key skill_ args sid del response =
      [mkItem (JObj record) i] /\
    assoc key record =
      Some (JStr (applyTrim trimResponse (extractText response))).
Proof.
  intros Hk. unfold Message.skill_result. cbv zeta. unfold obj_lit.
  eexists. split; [reflexivity|].
  rewrite fold_left_app. cbn [fold_left fst snd].
  rewrite assoc_obj_set_neq by congruence.
  apply assoc_obj_set_eq.
Qed.

Import Api.
Local Open Scope js_scope.

Variable h : Host.

(** C5, as the code has it, on an answer that conforms to
    [ISendMessageResponse] and gives its parts.  The shell action posts
    to the shell endpoint and computes its output from the parts with
    type [tool] that carry a state, [state.output] or else
    [state.metadata.output], one output after the other; text parts add
    nothing to it; the output, trimmed when the trim option is in
    force, is the simple record and sits under the response key of the
    full record.  The skill action posts to the message endpoint and
    its record carries the text fields of the text parts, flattened as
    the send action flattens them. *)
Theorem C5_shell_and_skill_output
  (i : nat) (w : World) credentials (o : Options) (model_ : jsstring)
  (sid : option jsstring) (del : bool) (response : json)
  (parts : list json) :
  prop "parts" response = Some (JArr parts) ->
  typed_answer response = true ->
  let trimResponse := nullish (opt_trimResponse o) true in
  let key := str_or (opt_responseKey o) (lit "response") in
  let timeout := nullish (opt_timeout o) 300000%Z in
  (forall cmd agent simple,
     let request :=
       message_request Shell credentials sid
         (Message.shell_payload cmd agent model_) timeout in
     remote h (trace w) request = Ok response ->
     let ran :=
       Message.executeShell_try h credentials i cmd agent model_ simple o
         sid del w in
     let output := applyTrim trimResponse (spec_shell_output parts) in
     req_url request =
       baseUrl credentials ++ lit "/session/" ++ tpl sid ++ lit "/shell" /\
     trace (snd ran) = trace w ++ [request] /\
     (simple = true -> fst ran = Ok [mkItem (JObj [(key, JStr output)]) i]) /\
     (simple = false -> key <> lit "parts" ->
      exists record,
        fst ran = Ok [mkItem (JObj record) i] /\
        assoc key record = Some (JStr output))) /\
  spec_shell_output (List.filter (fun p => negb (type_is "text" p)) parts) =
    spec_shell_output parts /\
  (forall skill_ args,
     let request :=
       message_request Skill credentials sid
         (Message.skill_payload skill_ args model_
            (str_or (opt_agent o) []) (str_or (opt_messageID o) []))
         timeout in
     remote h (trace w) request = Ok response ->
     let ran :=
       Message.executeSkill_try h credentials i skill_ args model_ o sid
         del w in
     req_method request = POST /\
     req_url request =
       baseUrl credentials ++ lit "/session/" ++ tpl sid ++ lit "/message" /\
     trace (snd ran) = trace w ++ [request] /\
     (key <> lit "parts" ->
      exists record,
        fst ran = Ok [mkItem (JObj record) i] /\
        assoc key record =
          Some (JStr (applyTrim trimResponse
                        (spec_join_lines (spec_text_fields parts)))))).
Proof.
  intros H _. cbv zeta. split; [|split].
  - intros cmd agent simple Hr.
    unfold Message.executeShell_try. cbv zeta. unfold bind.
    rewrite openCodeApiRequest_run.
    unfold message_request, endpoint in Hr. rewrite Hr.
    unfold message_request, endpoint, ret.
    cbn [api_outcome fst snd sent trace].
    split; [reflexivity|]. split; [reflexivity|]. split.
    + intros ->. unfold Message.shell_result. cbv zeta.
      now rewrite (extractShellOutput_spec response H).
    + intros -> Hk.
      destruct (shell_result_carries_output i
                  (nullish (opt_trimResponse o) true) cmd agent sid del
                  response Hk) as (record & Hrec & Hassoc).
      exists record. rewrite Hrec. split; [reflexivity|].
      now rewrite Hassoc, (extractShellOutput_spec response H).
  - apply shell_output_ignores_text.
  - intros skill_ args Hr.
    unfold Message.executeSkill_try. cbv zeta. unfold bind.
    rewrite openCodeApiRequest_run.
    unfold message_request, endpoint in Hr. rewrite Hr.
    unfold message_request, endpoint, ret.
    cbn [api_outcome fst snd sent trace].
    do 3 (split; [reflexivity|]).
    intros Hk.
    destruct (skill_result_carries_text i
                (nullish (opt_trimResponse o) true) skill_ args sid del
                response Hk) as (record & Hrec & Hassoc).
    exists record. rewrite Hrec. split; [reflexivity|].
    now rewrite Hassoc, (extractText_spec response H).
Qed.

End ShellOutput.

(** A shell answer and a skill answer: a tool part that says [ok] and a
    text part that says [done]. *)
Lemma C5_witness :
  let h :=
    Examples.answering_host
      (Examples.message_parameters "existing" (Some (lit "s1")) "hi" true)
      Examples.tool_answer in
  prop "parts" Examples.tool_answer <> None /\
  typed_answer Examples.tool_answer = true /\
  fst (Message.executeShell_try h Examples.credentials 0 (lit "ls")
         (lit "build") [] true noOptions (Some (lit "s1")) false
         Examples.start) =
    Ok [mkItem (JObj [(lit "response", JStr (lit "ok"))]) 0] /\
  List.map req_url
    (trace (snd (Message.executeSkill_try h Examples.credentials 0
                   (lit "summarize") [] [] noOptions (Some (lit "s1")) false
                   Examples.start))) =
    [lit "http://127.0.0.1:4096/session/s1/message"].
Proof.
  cbv zeta.
  destruct (@C5_shell_and_skill_output
              (Examples.answering_host
                 (Examples.message_parameters "existing" (Some (lit "s1"))
                    "hi" true)
                 Examples.tool_answer)
              0 Examples.start Examples.credentials noOptions []
              (Some (lit "s1")) false Examples.tool_answer _
              eq_refl eq_refl) as (Hshell & _ & Hskill).
  split; [discriminate|]. split; [reflexivity|]. split.
  - destruct (Hshell (lit "ls") (lit "build") true eq_refl)
      as (_ & _ & Hsimple & _).
    exact (Hsimple eq_refl).
  - destruct (Hskill (lit "summarize") [] eq_refl) as (_ & Hurl & Htrace & _).
    rewrite Htrace. cbn [Examples.start trace app List.map].
    rewrite Hurl. reflexivity.
Defined.

(** The claim as stated fails for the skill action: on an answer whose
    tool part says [ok] and whose text part says [done], the record of
    the skill action carries [done]. *)
Lemma C5_counterexample :
  ~ (forall (response : json) (parts : list json),
       prop "parts" response = Some (JArr parts) ->
       exists record,
         Message.skill_result 0 true (lit "response") (lit "summarize") []
           (Some (lit "s1")) false response = [mkItem (JObj record) 0] /\
         assoc (lit "response") record =
           Some (JStr (applyTrim true (spec_shell_output parts)))).
Proof.
  intros H.
  destruct (H Examples.tool_answer _ eq_refl) as (record & H1 & H2).
  vm_compute in H1. injection H1 as <-.
  vm_compute in H2. discriminate H2.
Qed.


(* ================================================================== *)
(** * Dispatch and the failure policy of [execute] *)
(* ================================================================== *)

Section Dispatch.

Import Api.
Local Open Scope js_scope.

Variable h : Host.
Variable getSessionStatus : nat -> M (list INodeExecutionData).
Variable text : Message.CommandText.

Lemma not_in_cons (x y : jsstring) (l : list jsstring) :
  ~ In x (y :: l) -> Str.eqb x y = false /\ ~ In x l.
Proof.
  intros H. split.
  - apply str_eqb_neq. intros ->. apply H. now left.
  - intros Hi. apply H. now right.
Qed.

Ltac unknown H :=
  repeat (let E := fresh "E" in
          apply not_in_cons in H as [E H]; rewrite E);
  reflexivity.

Lemma unknown_resource resource_ operation_ i w :
  ~ In resource_ resources ->
  Node.executeAction h getSessionStatus text resource_ operation_ i w =
  (Throw (Error (lit "Unknown resource: " ++ resource_)), w).
Proof.
  intros H. unfold Node.executeAction, resources in *. unknown H.
Qed.

Lemma unknown_session_operation operation_ i w :
  ~ In operation_ session_operations ->
  Node.executeAction h getSessionStatus text (lit "session") operation_ i w =
  (Throw (Error (lit "Unknown session operation: " ++ operation_)), w).
Proof.
  intros H. unfold Node.executeAction.
  change (Str.eqb (lit "session") (lit "session")) with true. cbv iota.
  unfold Session.executeSessionAction, session_operations in *. unknown H.
Qed.

Lemma unknown_message_operation operation_ i w :
  ~ In operation_ message_operations ->
  Node.executeAction h getSessionStatus text (lit "message") operation_ i w =
  (Throw (Error (lit "Unknown message operation: " ++ operation_)), w).
Proof.
  intros H. unfold Node.executeAction.
  change (Str.eqb (lit "message") (lit "session")) with false.
  change (Str.eqb (lit "message") (lit "message")) with true. cbv iota.
  unfold Message.executeMessageAction, message_operations in *. unknown H.
Qed.

Lemma unknown_config_operation operation_ i w :
  ~ In operation_ config_operations ->
  Node.executeAction h getSessionStatus text (lit "config") operation_ i w =
  (Throw (Error (lit "Unknown config operation: " ++ operation_)), w).
Proof.
  intros H. unfold Node.executeAction.
  change (Str.eqb (lit "config") (lit "session")) with false.
  change (Str.eqb (lit "config") (lit "message")) with false.
  change (Str.eqb (lit "config") (lit "config")) with true. cbv iota.
  unfold Config.executeConfigAction, config_operations in *. unknown H.
Qed.

(** C8. An unknown resource, and an unknown operation of a known
    resource, throw the error that names them.  When the handler of an
    item throws, the loop of [execute] either appends the record
    [{ error: message }], paired to that item, and goes on with the
    next item (continue-on-fail set) or throws the same error (not
    set); when the handler returns, its records are appended. *)
Theorem C8_dispatch_and_failure_policy
  (resource_ operation_ : jsstring) (i : nat) (w : World) :
  let dispatch := Node.executeAction h getSessionStatus text in
  let loop := Node.execute_loop h getSessionStatus text resource_ operation_ in
  (~ In resource_ resources ->
   dispatch resource_ operation_ i w =
   (Throw (Error (lit "Unknown resource: " ++ resource_)), w)) /\
  (~ In operation_ session_operations ->
   dispatch (lit "session") operation_ i w =
   (Throw (Error (lit "Unknown session operation: " ++ operation_)), w)) /\
  (~ In operation_ message_operations ->
   dispatch (lit "message") operation_ i w =
   (Throw (Error (lit "Unknown message operation: " ++ operation_)), w)) /\
  (~ In operation_ config_operations ->
   dispatch (lit "config") operation_ i w =
   (Throw (Error (lit "Unknown config operation: " ++ operation_)), w)) /\
  (forall e w' returnData n,
     dispatch resource_ operation_ i w = (Throw e, w') ->
     loop i (S n) returnData w =
     if continueOnFail h
     then loop (S i) n
            (returnData ++
             [mkItem (JObj [(lit "error", opt_str (exn_message e))]) i]) w'
     else (Throw e, w')) /\
  (forall results w' returnData n,
     dispatch resource_ operation_ i w = (Ok results, w') ->
     loop i (S n) returnData w = loop (S i) n (returnData ++ results) w').
Proof.
  cbv zeta. repeat split.
  - apply unknown_resource.
  - apply unknown_session_operation.
  - apply unknown_message_operation.
  - apply unknown_config_operation.
  - intros e w' returnData n H. cbn [Node.execute_loop].
    unfold bind at 1. unfold Node.execute_item, try_catch.
    unfold bind at 1. rewrite H.
    destruct (continueOnFail h); reflexivity.
  - intros results w' returnData n H. cbn [Node.execute_loop].
    unfold bind at 1. unfold Node.execute_item, try_catch.
    unfold bind at 1. rewrite H. reflexivity.
Qed.

End Dispatch.

(** Two items against a service that cannot be reached: with
    continue-on-fail, two error records; without, the error of the
    first item. *)
Lemma C8_witness :
  let status := fun _ : nat => ret (A := list INodeExecutionData) [] in
  let failure :=
    request_failed (Error (lit "connect ECONNREFUSED")) in
  ~ In (lit "billing") resources /\
  Node.executeAction (Examples.unreachable_host true) status
    Message.ParsedArguments (lit "billing") (lit "send") 0 Examples.start =
    (Throw (Error (lit "Unknown resource: " ++ lit "billing")),
     Examples.start) /\
  fst (Node.execute (Examples.unreachable_host true) status
         Message.ParsedArguments Examples.start) =
    Ok [[mkItem
           (JObj [(lit "error",
                   JStr (lit "OpenCode API request failed: " ++
                         lit "connect ECONNREFUSED"))]) 0;
         mkItem
           (JObj [(lit "error",
                   JStr (lit "OpenCode API request failed: " ++
                         lit "connect ECONNREFUSED"))]) 1]] /\
  fst (Node.execute (Examples.unreachable_host false) status
         Message.ParsedArguments Examples.start) =
    Throw failure.
Proof.
  cbv zeta.
  assert (Hn : ~ In (lit "billing") resources).
  { intros H. vm_compute in H. intuition discriminate. }
  split; [exact Hn|]. split; [|split; reflexivity].
  exact (proj1 (@C8_dispatch_and_failure_policy (Examples.unreachable_host true)
                  (fun _ => ret []) Message.ParsedArguments
                  (lit "billing") (lit "send") 0 Examples.start) Hn).
Defined.


(* ================================================================== *)
(** * The option providers *)
(* ================================================================== *)

Section Providers.

Import Api.
Local Open Scope js_scope.

Variable h : Host.
Variable env : SkillEnvironment.

(** A loader's [catch] turns every error into its one entry. *)
Lemma caught {A} (body : M A) (line : jsstring) (x : A) (w : World) :
  fst (try_catch body (fun error => console_error line error ;;; ret x) w) =
  match fst (body w) with
  | Ok a => Ok a
  | Throw _ => Ok x
  end.
Proof.
  unfold try_catch. destruct (body w) as [[a|e] w']; reflexivity.
Qed.







End Providers.




(* ================================================================== *)
(** * More on the transport client and the actions *)
(* ================================================================== *)

Section Transport.

Import Api.
Local Open Scope js_scope.

Variable h : Host.

(** X1.  One call of [openCodeApiRequest] is one request to
    [baseUrl ++ endpoint], with the given timeout or five minutes; the
    answer comes back as it is, and a failure comes back as one error
    whose message is the prefixed message of the failure, or [Unknown
    error] when the failure has no message or an empty one.  Nothing is
    written to the console and nothing is retried. *)
Theorem transport_one_attempt credentials (o : IApiRequestOptions) (w : World) :
  let r := api_request credentials o in
  let out := openCodeApiRequest h credentials o w in
  trace (snd out) = trace w ++ [r] /\
  console (snd out) = console w /\
  req_url r = baseUrl credentials ++ api_endpoint o /\
  req_timeout r = Some (match api_timeout o with
                        | Some t => t
                        | None => 300000%Z
                        end) /\
  (forall body, remote h (trace w) r = Ok body -> fst out = Ok body) /\
  (forall m, remote h (trace w) r = Throw (mkExn (Some m)) -> m <> [] ->
     fst out = Throw (Error (lit "OpenCode API request failed: " ++ m))) /\
  (forall e, remote h (trace w) r = Throw e ->
     exn_message e = None \/ exn_message e = Some [] ->
     fst out =
     Throw (Error (lit "OpenCode API request failed: Unknown error"))).
Proof.
  cbv zeta. rewrite openCodeApiRequest_run. cbn [fst snd sent trace console].
  do 3 (split; [reflexivity|]).
  split; [destruct o as [m e b [t|]]; reflexivity|].
  split; [|split].
  - intros body ->. reflexivity.
  - intros m -> Hm. destruct m; [congruence|reflexivity].
  - intros [e] -> [He|He]; cbn in He; subst; reflexivity.
Qed.

End Transport.

Section ExistingSession.

Import Api.
Local Open Scope js_scope.

Variable h : Host.

(** Any mode other than [temporary] reads the session from the
    parameters. *)
Lemma determineSession_existing credentials p mode w :
  mode <> lit "temporary" ->
  Message.determineSession h credentials p mode w =
  match sessionId p with
  | Some s => (Ok (Some s, false), w)
  | None => (Throw (Error (lit "Could not get parameter sessionId")), w)
  end.
Proof.
  intros Hm. unfold Message.determineSession.
  apply str_eqb_neq in Hm. rewrite Hm.
  unfold bind, getNodeParameter_required, ret, throw.
  destruct (sessionId p); reflexivity.
Qed.

Ltac open_action :=
  unfold run, Message.sendMessage, Message.sendMessageAsync,
    Message.executeCommand, Message.executeShell, Message.executeSkill;
  unfold bind, getCredentials, getNodeParameter, getNodeParameter_required,
    ret, throw.

Lemma run_existing (a : Action) (i : nat) (w : World) credentials :
  hostCredentials h = Ok credentials ->
  ready a (parameters h i) = true ->
  sessionMode (parameters h i) <> Some (lit "temporary") ->
  run h a i w =
  let p := parameters h i in
  match sessionId p with
  | Some s => inner h a credentials i p (Some s) false w
  | None => (Throw (Error (lit "Could not get parameter sessionId")), w)
  end.
Proof.
  intros Hc Hr Hm. cbv zeta.
  assert (Hmode : nullish (sessionMode (parameters h i)) (lit "existing")
                  <> lit "temporary").
  { destruct (sessionMode (parameters h i)); cbn [nullish].
    - congruence.
    - apply str_eqb_neq. reflexivity. }
  destruct a; open_action; rewrite Hc; cbn [ready] in Hr; unfold inner.
  - destruct (message (parameters h i)); [|discriminate]. cbn [nullish].
    rewrite (determineSession_existing _ _ _ Hmode).
    destruct (sessionId (parameters h i)); [|reflexivity].
    now rewrite try_finally_no_cleanup.
  - destruct (message (parameters h i)); [|discriminate]. cbn [nullish].
    rewrite (determineSession_existing _ _ _ Hmode).
    destruct (sessionId (parameters h i)); [|reflexivity].
    now rewrite try_finally_no_cleanup.
  - destruct (command (parameters h i)); [|discriminate]. cbn [nullish].
    rewrite (determineSession_existing _ _ _ Hmode).
    destruct (sessionId (parameters h i)); [|reflexivity].
    now rewrite try_finally_no_cleanup.
  - destruct (shellCommand (parameters h i)); [|discriminate].
    destruct (shellAgent (parameters h i)); [|discriminate]. cbn [nullish].
    rewrite (determineSession_existing _ _ _ Hmode).
    destruct (sessionId (parameters h i)); [|reflexivity].
    now rewrite try_finally_no_cleanup.
  - destruct (skill (parameters h i)); [|discriminate]. cbn [nullish].
    rewrite (determineSession_existing _ _ _ Hmode).
    destruct (sessionId (parameters h i)); [|reflexivity].
    now rewrite try_finally_no_cleanup.
Qed.

(** X2.  An action whose mode is not [temporary] (no mode at all, [existing]
    or any other string) runs against the session of its parameters:
    it sends its message and nothing else, neither a create nor a
    delete call, and writes nothing to the console. *)
Theorem existing_session_sends_only_the_message
  (a : Action) (i : nat) (w : World) credentials (sid : jsstring) :
  hostCredentials h = Ok credentials ->
  ready a (parameters h i) = true ->
  sessionMode (parameters h i) <> Some (lit "temporary") ->
  sessionId (parameters h i) = Some sid ->
  exists payload timeout,
    let msg := message_request a credentials (Some sid) payload timeout in
    trace (snd (run h a i w)) = trace w ++ [msg] /\
    console (snd (run h a i w)) = console w /\
    (forall e, remote h (trace w) msg = Throw e ->
               fst (run h a i w) = Throw (request_failed e)).
Proof.
  intros Hc Hr Hm Hs.
  rewrite (run_existing a i w Hc Hr Hm). cbv zeta. rewrite Hs.
  destruct (inner_run h a credentials i (parameters h i) (Some sid) false)
    as (payload & timeout & Hrun).
  exists payload, timeout. cbv zeta.
  destruct (Hrun w) as [Hw He]. cbv zeta in Hw, He. rewrite Hw.
  repeat split. exact He.
Qed.

(** X3.  An action that cannot start makes no request: when the credentials
    cannot be read, when a parameter without fallback is missing, or
    when the mode is not [temporary] and no session is given, it throws
    and leaves the trace and the console as they were. *)
Theorem action_fails_before_any_request (a : Action) (i : nat) (w : World) :
  (exists e, hostCredentials h = Throw e) \/
  ready a (parameters h i) = false \/
  (sessionMode (parameters h i) <> Some (lit "temporary") /\
   sessionId (parameters h i) = None) ->
  snd (run h a i w) = w /\ exists e, fst (run h a i w) = Throw e.
Proof.
  intros [[e He]|H].
  - destruct a; open_action; rewrite He; (split; [reflexivity | eexists; reflexivity]).
  - destruct (hostCredentials h) as [credentials|e] eqn:Hc.
    2:{ destruct a; open_action; rewrite Hc; (split; [reflexivity | eexists; reflexivity]). }
    destruct (ready a (parameters h i)) eqn:Hr.
    + destruct H as [H|[Hm Hs]]; [discriminate|].
      rewrite (run_existing a i w Hc Hr Hm). cbv zeta. rewrite Hs.
      (split; [reflexivity | eexists; reflexivity]).
    + clear H. destruct a; open_action; rewrite Hc; cbn [ready] in Hr.
      * destruct (message (parameters h i)); [discriminate|(split; [reflexivity | eexists; reflexivity])].
      * destruct (message (parameters h i)); [discriminate|(split; [reflexivity | eexists; reflexivity])].
      * destruct (command (parameters h i)); [discriminate|(split; [reflexivity | eexists; reflexivity])].
      * destruct (shellCommand (parameters h i)); [|(split; [reflexivity | eexists; reflexivity])].
        destruct (shellAgent (parameters h i)); [discriminate|(split; [reflexivity | eexists; reflexivity])].
      * destruct (skill (parameters h i)); [discriminate|(split; [reflexivity | eexists; reflexivity])].
Qed.

End ExistingSession.

Lemma existing_session_witness :
  let h := Examples.scenario_host in
  hostCredentials h = Ok Examples.credentials /\
  ready Send (parameters h 0) = true /\
  sessionMode (parameters h 0) <> Some (lit "temporary") /\
  sessionId (parameters h 0) = Some (lit "s1") /\
  List.length (trace (snd (run h Send 0 Examples.start))) = 1.
Proof.
  cbv zeta.
  assert (Hm : sessionMode (parameters Examples.scenario_host 0)
               <> Some (lit "temporary")) by (vm_compute; discriminate).
  destruct (@existing_session_sends_only_the_message Examples.scenario_host
              Send 0 Examples.start Examples.credentials (lit "s1")
              eq_refl eq_refl Hm eq_refl)
    as (payload & timeout & H1 & _).
  do 2 (split; [reflexivity|]). split; [exact Hm|]. split; [reflexivity|].
  rewrite H1. reflexivity.
Defined.


(* ================================================================== *)
(** * More on the model selector and the payloads *)
(* ================================================================== *)

Section SelectorEdges.

Import ModelSelector.

(** No [::] starts inside a string that holds none and does not end in
    a colon, whatever follows the string. *)
Lemma no_early_sep (c : char16) (p rest : jsstring) :
  Str.includes sep (c :: p) = false ->
  last (c :: p) 0%N <> 58%N ->
  Str.startsWith sep (c :: p ++ sep ++ rest) = false.
Proof.
  intros Hp Hl. rewrite includes_eq in Hp.
  apply orb_false_iff in Hp as [Hp _]. rewrite startsWith_sep in Hp.
  rewrite startsWith_sep. destruct p as [|d p'].
  - change ([] ++ sep ++ rest) with (58%N :: 58%N :: rest). cbv beta iota.
    cbn in Hl. destruct (N.eqb_spec 58 c) as [e|n]; [|reflexivity].
    subst c. now elim Hl.
  - exact Hp.
Qed.

Lemma includes_tail (c : char16) (p : jsstring) :
  Str.includes sep (c :: p) = false -> Str.includes sep p = false.
Proof.
  intros H. rewrite includes_eq in H. now apply orb_false_iff in H as [_ H].
Qed.

(** The scan closes its first piece at the first [::] and starts
    afresh behind it. *)
Lemma split_go_first_piece (p rest cur : jsstring) :
  Str.includes sep p = false ->
  last p 0%N <> 58%N ->
  Str.split_go sep 0 cur (p ++ sep ++ rest) =
  (rev cur ++ p) :: Str.split_go sep 0 [] rest.
Proof.
  revert cur. induction p as [|c p IH]; intros cur Hp Hl.
  - change ([] ++ sep ++ rest) with (58%N :: 58%N :: rest).
    rewrite split_go_cons, startsWith_sep. cbn [N.eqb Pos.eqb andb].
    change (List.length sep - 1) with 1. rewrite app_nil_r.
    destruct rest; reflexivity.
  - change ((c :: p) ++ sep ++ rest) with (c :: p ++ sep ++ rest).
    rewrite split_go_cons, (@no_early_sep c p rest Hp Hl).
    rewrite IH.
    + cbn [rev]. now rewrite <- app_assoc.
    + exact (@includes_tail c p Hp).
    + destruct p; [discriminate|exact Hl].
Qed.

Lemma replace_first_sep (by_ p rest : jsstring) :
  Str.includes sep p = false ->
  last p 0%N <> 58%N ->
  Str.replace sep by_ (p ++ sep ++ rest) = p ++ by_ ++ rest.
Proof.
  induction p as [|c p IH]; intros Hp Hl.
  - change ([] ++ sep ++ rest) with (58%N :: 58%N :: rest). reflexivity.
  - change ((c :: p) ++ sep ++ rest) with (c :: p ++ sep ++ rest).
    cbn [Str.replace].
    change (Str.startsWith sep (c :: p ++ sep ++ rest))
      with (Str.startsWith sep (c :: p ++ sep ++ rest)).
    rewrite (@no_early_sep c p rest Hp Hl). cbn [app]. f_equal.
    apply IH; [exact (@includes_tail c p Hp)|].
    destruct p; [discriminate|exact Hl].
Qed.

Lemma payload_model_none (model_ : jsstring) :
  Str.includes sep model_ = false -> payload_model model_ = None.
Proof.
  intros H. unfold payload_model, decode. rewrite H.
  now rewrite andb_false_r.
Qed.

Lemma payload_model_encode (p m : jsstring) :
  Str.includes sep p = false ->
  Str.includes sep m = false ->
  last p 0%N <> 58%N ->
  payload_model (encode p m) =
    Some (JObj [(lit "providerID", JStr p); (lit "modelID", JStr m)]).
Proof.
  intros Hp Hm Hl. unfold payload_model, decode. rewrite truthy_encode.
  unfold encode at 1. rewrite includes_app_sep. cbn [andb].
  unfold Str.split. change sep with [58%N; 58%N] at 1.
  unfold encode. rewrite (@split_go_first_piece p m [] Hp Hl).
  rewrite (@split_go_no_sep sep [] m Hm). reflexivity.
Qed.

(** X6.  A model id that itself holds [::] is cut at its first [::]: the
    destructuring binds the first two pieces of the split and drops
    the rest without a word. *)
Theorem selector_cuts_model_at_second_separator (p m1 m2 : jsstring) :
  Str.includes sep p = false -> last p 0%N <> 58%N ->
  Str.includes sep m1 = false -> last m1 0%N <> 58%N ->
  decode (encode p (encode m1 m2)) = Some (Some p, Some m1) /\
  payload_model (encode p (encode m1 m2)) =
    Some (JObj [(lit "providerID", JStr p); (lit "modelID", JStr m1)]).
Proof.
  intros Hp Hlp Hm Hlm.
  assert (Hd : decode (encode p (encode m1 m2)) = Some (Some p, Some m1)).
  { unfold decode. rewrite truthy_encode.
    unfold encode at 1. rewrite includes_app_sep. cbn [andb].
    unfold Str.split. change sep with [58%N; 58%N] at 1.
    unfold encode. rewrite (@split_go_first_piece p _ [] Hp Hlp).
    rewrite (@split_go_first_piece m1 m2 [] Hm Hlm). reflexivity. }
  split; [exact Hd|]. unfold payload_model. rewrite Hd. reflexivity.
Qed.

End SelectorEdges.

Lemma selector_cut_witness :
  ModelSelector.decode (lit "openrouter::meta::llama") =
    Some (Some (lit "openrouter"), Some (lit "meta")).
Proof.
  assert (H1 : last (lit "openrouter") 0%N <> 58%N)
    by (vm_compute; discriminate).
  assert (H2 : last (lit "meta") 0%N <> 58%N) by (vm_compute; discriminate).
  exact (proj1 (@selector_cuts_model_at_second_separator (lit "openrouter")
                  (lit "meta") (lit "llama") eq_refl H1 eq_refl H2)).
Defined.

Section Payloads.

Lemma assoc_set_tools_neq k toolsJson o :
  lit "tools" <> k -> assoc k (set_tools toolsJson o) = assoc k o.
Proof.
  intros Hn. unfold set_tools. destruct (Str.truthy toolsJson); [|reflexivity].
  destruct (JSON.parse toolsJson); [|reflexivity].
  now apply assoc_obj_set_neq.
Qed.

Ltac peel :=
  rewrite ?assoc_set_tools_neq by keys_differ;
  rewrite ?assoc_set_when_neq by keys_differ;
  rewrite ?assoc_set_model_neq by keys_differ.

Ltac field b :=
  unfold Message.send_payload, prop; peel;
  unfold set_when at 1; destruct b; cbn [Str.truthy];
  [ peel; reflexivity | now rewrite assoc_obj_set_eq ].

(** X4.  What the payload of the send action carries: always the message as
    its one text part; [agent], [messageID] and [system] only when they
    are not empty; [noReply] only when it is true; no [tools] when the
    tools text is empty or is not JSON; no [model] when the selector
    holds no [::]. *)
Theorem send_payload_fields
  (message_ model_ agent messageID system : jsstring) (noReply : bool)
  (toolsJson : jsstring) :
  let payload :=
    Message.send_payload message_ model_ agent messageID system noReply
      toolsJson in
  prop "parts" payload = Some (JArr [text_part message_]) /\
  prop "agent" payload =
    (match agent with [] => None | _ => Some (JStr agent) end) /\
  prop "messageID" payload =
    (match messageID with [] => None | _ => Some (JStr messageID) end) /\
  prop "system" payload =
    (match system with [] => None | _ => Some (JStr system) end) /\
  prop "noReply" payload = (if noReply then Some (JBool true) else None) /\
  (toolsJson = [] \/ JSON.parse toolsJson = None ->
   prop "tools" payload = None) /\
  (Str.includes ModelSelector.sep model_ = false ->
   prop "model" payload = None).
Proof.
  cbv zeta. split; [|split; [|split; [|split; [|split; [|split]]]]].
  - unfold Message.send_payload, prop. peel. reflexivity.
  - field agent.
  - field messageID.
  - field system.
  - unfold Message.send_payload, prop; peel.
    unfold set_when at 1. destruct noReply;
      [now rewrite assoc_obj_set_eq | peel; reflexivity].
  - intros H. unfold Message.send_payload, prop.
    assert (Ht : forall o, set_tools toolsJson o = o).
    { intros o. unfold set_tools. destruct H as [->|H]; [reflexivity|].
      rewrite H. now destruct (Str.truthy toolsJson). }
    rewrite Ht. peel. reflexivity.
  - intros H. unfold Message.send_payload, prop. peel.
    unfold set_model. rewrite (@payload_model_none _ H). reflexivity.
Qed.

(** X5.  The text of [executeCommand] that sends strings turns the selector
    [p::m] into [p/m]: only the first [::] is replaced, so a model id
    that holds [::] itself is sent whole. *)
Theorem command_model_as_path
  (p m command_ commandArguments_ agent messageId : jsstring) :
  Str.includes ModelSelector.sep p = false ->
  last p 0%N <> 58%N ->
  prop "model"
    (Message.command_payload Message.StringArguments command_
       commandArguments_ (ModelSelector.encode p m) agent messageId) =
  Some (JStr (p ++ lit "/" ++ m)).
Proof.
  intros Hp Hl. unfold Message.command_payload, prop.
  rewrite truthy_encode. unfold ModelSelector.encode at 1.
  change (lit "::") with ModelSelector.sep.
  rewrite includes_app_sep. cbn [andb]. unfold set_when at 1.
  rewrite assoc_obj_set_eq. unfold ModelSelector.encode.
  now rewrite (@replace_first_sep (lit "/") p m Hp Hl).
Qed.

End Payloads.

Lemma command_model_witness :
  prop "model"
    (Message.command_payload Message.StringArguments (lit "review") []
       (lit "openrouter::meta::llama") [] []) =
  Some (JStr (lit "openrouter/meta::llama")).
Proof.
  assert (H1 : last (lit "openrouter") 0%N <> 58%N)
    by (vm_compute; discriminate).
  exact (@command_model_as_path (lit "openrouter") (lit "meta::llama")
           (lit "review") [] [] [] eq_refl H1).
Defined.

Lemma send_payload_witness :
  prop "tools"
    (Message.send_payload (lit "hi") [] [] [] [] false (lit "not json")) = None.
Proof.
  exact (proj1 (proj2 (proj2 (proj2 (proj2 (proj2
           (@send_payload_fields (lit "hi") [] [] [] [] false
              (lit "not json")))))))
           (or_intror eq_refl)).
Defined.


(* ================================================================== *)
(** * More on the session actions, the listing and [execute] *)
(* ================================================================== *)

Section SessionActions.

Import Api.
Local Open Scope js_scope.

Variable h : Host.

Ltac open_session_action :=
  unfold Session.listSessions, Session.getSession, Session.createSession,
    Session.deleteSession, Session.abortSession, Config.getProviders,
    Message.getMessage, Message.listMessages, bind, getCredentials,
    getNodeParameter, getNodeParameter_required, ret.

(** X7.  The asynchronous send does not look at the answer: whatever the
    service answers, its record is the same acknowledgement. *)
Theorem async_send_ignores_the_answer
  credentials (i : nat) (message_ model_ : jsstring) (o : Options)
  (sid : option jsstring) (del : bool) (w : World) (body : json) :
  remote h (trace w)
    (message_request SendAsync credentials sid
       (Message.send_payload message_ model_ (str_or (opt_agent o) [])
          (str_or (opt_messageID o) []) (str_or (opt_system o) [])
          (nullish (opt_noReply o) false) (str_or (opt_tools o) []))
       (nullish (opt_timeout o) 300000%Z)) = Ok body ->
  fst (Message.sendMessageAsync_try h credentials i message_ model_ o sid
         del w) = Ok [mkItem (async_record sid del) i].
Proof.
  intros H. unfold Message.sendMessageAsync_try. cbv zeta. unfold bind.
  rewrite openCodeApiRequest_run.
  unfold message_request, endpoint in H. rewrite H. reflexivity.
Qed.

(** X8.  The list-sessions action emits one record per element of an array
    answer, none for the empty array, and the answer itself as its one
    record when it is no array. *)
Theorem list_sessions_records (i : nat) (w : World) credentials (response : json) :
  hostCredentials h = Ok credentials ->
  remote h (trace w)
    (api_request credentials (mkApi GET (lit "/session") None None)) =
    Ok response ->
  (forall sessions, response = JArr sessions ->
     fst (Session.listSessions h i w) =
     Ok (List.map (fun s => mkItem s i) sessions)) /\
  (response = JArr [] -> fst (Session.listSessions h i w) = Ok []) /\
  ((forall sessions, response <> JArr sessions) ->
   fst (Session.listSessions h i w) = Ok [mkItem response i]).
Proof.
  intros Hc Hr.
  assert (H : fst (Session.listSessions h i w) =
              Ok (List.map (fun s => mkItem s i)
                    match response with JArr l => l | v => [v] end)).
  { open_session_action. rewrite Hc, openCodeApiRequest_run, Hr. reflexivity. }
  rewrite H. split; [|split].
  - intros sessions ->. reflexivity.
  - intros ->. reflexivity.
  - intros Hn. destruct response; try reflexivity. now elim (Hn items).
Qed.

(** X9.  The delete action, unlike the cleanup of a temporary session, does
    not swallow a failure: the error of the request is the error of the
    action, and nothing is written to the console.  When the request
    succeeds the record names the session, whatever the answer was. *)
Theorem delete_action_reports_failure
  (i : nat) (w : World) credentials (sid : jsstring) :
  hostCredentials h = Ok credentials ->
  sessionId (parameters h i) = Some sid ->
  let r := delete_request credentials (Some sid) in
  trace (snd (Session.deleteSession h i w)) = trace w ++ [r] /\
  console (snd (Session.deleteSession h i w)) = console w /\
  (forall e, remote h (trace w) r = Throw e ->
     fst (Session.deleteSession h i w) = Throw (request_failed e)) /\
  (forall body, remote h (trace w) r = Ok body ->
     fst (Session.deleteSession h i w) = Ok [mkItem (deleted_record sid) i]).
Proof.
  intros Hc Hs. cbv zeta. open_session_action.
  rewrite Hc, Hs, openCodeApiRequest_run.
  change (api_request credentials
            (mkApi DELETE (lit "/session/" ++ sid) None None))
    with (delete_request credentials (Some sid)).
  destruct (remote h (trace w) _) eqn:E; cbn [api_outcome fst snd];
    repeat split; intros; congruence.
Qed.


(** X11.  The list-messages action asks for at most [limit] messages, fifty
    when no limit is given, and puts no limit in the address when the
    limit is zero or negative.  The address of a positive limit is
    stated for the limits a number holds exactly, which [toString()]
    prints in plain decimal. *)
Theorem list_messages_address
  (i : nat) (w : World) credentials (sid : jsstring) :
  hostCredentials h = Ok credentials ->
  sessionId (parameters h i) = Some sid ->
  let n := match limit (parameters h i) with Some n => n | None => 50%Z end in
  exists r,
    trace (snd (Message.listMessages h i w)) = trace w ++ [r] /\
    req_method r = GET /\
    ((n <= 0)%Z ->
     req_url r =
     baseUrl credentials ++ lit "/session/" ++ sid ++ lit "/message") /\
    ((0 < n)%Z -> isSafeInteger n = true ->
     req_url r =
     baseUrl credentials ++ lit "/session/" ++ sid ++ lit "/message" ++
     lit "?limit=" ++ Str.ofZ n).
Proof.
  intros Hc Hs. cbv zeta.
  exists (list_request credentials sid
            (nullish (limit (parameters h i)) 50%Z)).
  split; [|split; [reflexivity|]].
  - open_session_action. rewrite Hc, Hs, openCodeApiRequest_run.
    destruct (remote h (trace w) _); reflexivity.
  - fold (nullish (limit (parameters h i)) 50%Z).
    set (n := nullish (limit (parameters h i)) 50%Z).
    unfold list_request, api_request, Message.queryString.
    cbn [req_url api_endpoint].
    split; intros Hn.
    + replace (negb (n =? 0)%Z && (n >? 0)%Z) with false.
      * now rewrite !app_nil_r.
      * symmetry. apply andb_false_iff. right.
        rewrite Z.gtb_ltb. apply Z.ltb_ge. exact Hn.
    + intros _. replace (negb (n =? 0)%Z && (n >? 0)%Z) with true.
      * reflexivity.
      * symmetry. apply andb_true_iff. split.
        -- apply negb_true_iff, Z.eqb_neq. lia.
        -- rewrite Z.gtb_ltb. apply Z.ltb_lt. exact Hn.
Qed.

End SessionActions.


(* ================================================================== *)
(** * Item pairing and the loop of [execute] *)
(* ================================================================== *)

Section Pairing.

Import Api.
Local Open Scope js_scope.

Variable h : Host.
Variable getSessionStatus : nat -> M (list INodeExecutionData).
Variable text : Message.CommandText.

Lemma paired_bind {A} (m : M A) (k : A -> M (list INodeExecutionData)) i :
  (forall a, paired_to i (k a)) -> paired_to i (bind m k).
Proof.
  intros H w records. unfold bind.
  destruct (m w) as [[a|e] w']; [apply H | discriminate].
Qed.

Lemma paired_try_finally (body : M (list INodeExecutionData)) fin i :
  paired_to i body -> paired_to i (try_finally body fin).
Proof.
  intros H w records. unfold try_finally.
  specialize (H w records). destruct (body w) as [r w1].
  destruct (fin w1) as [[u|e] w2]; cbn [fst] in *; [exact H | discriminate].
Qed.

Lemma paired_ret (l : list INodeExecutionData) i :
  Forall (fun r => pairedItem r = i) l -> paired_to i (ret l).
Proof. intros H w records [= <-]. exact H. Qed.

Lemma paired_throw e i : paired_to i (throw e).
Proof. intros w records. discriminate. Qed.

Lemma paired_map (l : list json) i :
  Forall (fun r => pairedItem r = i) (List.map (fun v => mkItem v i) l).
Proof. induction l; constructor; [reflexivity | assumption]. Qed.

Ltac one_record := repeat constructor.

Ltac paired_step :=
  first
    [ apply paired_throw
    | apply paired_try_finally
    | apply paired_ret
    | apply paired_bind;
      let x := fresh "x" in
      intros x; try (destruct x as [? ?]; [idtac]) ].

Lemma send_result_paired i simple trimResponse key sid del response :
  Forall (fun r => pairedItem r = i)
    (Message.send_result i simple trimResponse key sid del response).
Proof.
  unfold Message.send_result. cbv zeta.
  destruct simple; [destruct (JSON.parse _)|]; one_record.
Qed.

Lemma shell_result_paired i simple trimResponse key cmd agent sid del response :
  Forall (fun r => pairedItem r = i)
    (Message.shell_result i simple trimResponse key cmd agent sid del
       response).
Proof.
  unfold Message.shell_result. cbv zeta. destruct simple; one_record.
Qed.

Lemma list_result_paired i sid response :
  Forall (fun r => pairedItem r = i) (Message.list_result i sid response).
Proof.
  unfold Message.list_result.
  destruct response as [| | | | |[|m l]|]; try one_record.
  apply paired_map.
Qed.

Lemma sendMessage_paired i : paired_to i (Message.sendMessage h i).
Proof.
  unfold Message.sendMessage, Message.sendMessage_try. cbv zeta.
  repeat paired_step. apply send_result_paired.
Qed.

Lemma sendMessageAsync_paired i : paired_to i (Message.sendMessageAsync h i).
Proof.
  unfold Message.sendMessageAsync, Message.sendMessageAsync_try. cbv zeta.
  repeat paired_step. one_record.
Qed.

Lemma executeCommand_paired i : paired_to i (Message.executeCommand h text i).
Proof.
  unfold Message.executeCommand, Message.executeCommand_try. cbv zeta.
  repeat paired_step. one_record.
Qed.

Lemma executeShell_paired i : paired_to i (Message.executeShell h i).
Proof.
  unfold Message.executeShell, Message.executeShell_try. cbv zeta.
  repeat paired_step. apply shell_result_paired.
Qed.

Lemma listMessages_paired i : paired_to i (Message.listMessages h i).
Proof.
  unfold Message.listMessages. repeat paired_step. apply list_result_paired.
Qed.

Lemma getMessage_paired i : paired_to i (Message.getMessage h i).
Proof. unfold Message.getMessage. repeat paired_step. one_record. Qed.

Lemma session_paired operation_ i :
  paired_to i (getSessionStatus i) ->
  paired_to i (Session.executeSessionAction h getSessionStatus operation_ i).
Proof.
  intros Hs. unfold Session.executeSessionAction.
  repeat (match goal with
          | |- paired_to _ (if ?c then _ else _) => destruct c
          end);
    try exact Hs; try apply paired_throw;
    unfold Session.listSessions, Session.getSession, Session.createSession,
      Session.deleteSession, Session.abortSession;
    repeat paired_step; try one_record.
  apply paired_map.
Qed.

(** X12.  Every record a handler returns is paired to the item it was called
    for, whatever the resource and the operation. *)
Theorem dispatched_records_are_paired (resource_ operation_ : jsstring) i :
  paired_to i (getSessionStatus i) ->
  paired_to i
    (Node.executeAction h getSessionStatus text resource_ operation_ i).
Proof.
  intros Hs. unfold Node.executeAction.
  destruct (Str.eqb resource_ (lit "session")); [now apply session_paired|].
  destruct (Str.eqb resource_ (lit "message")).
  - unfold Message.executeMessageAction.
    repeat (match goal with
            | |- paired_to _ (if ?c then _ else _) => destruct c
            end).
    + apply sendMessage_paired.
    + apply sendMessageAsync_paired.
    + apply listMessages_paired.
    + apply getMessage_paired.
    + apply executeCommand_paired.
    + apply executeShell_paired.
    + apply paired_throw.
  - destruct (Str.eqb resource_ (lit "config")); [|apply paired_throw].
    unfold Config.executeConfigAction.
    destruct (Str.eqb operation_ (lit "getProviders")); [|apply paired_throw].
    unfold Config.getProviders. repeat paired_step. one_record.
Qed.

Lemma loop_pairs resource_ operation_ (n : nat) :
  (forall i, paired_to i (getSessionStatus i)) ->
  forall i returnData w records,
    Forall (fun r => pairedItem r < i) returnData ->
    fst (Node.execute_loop h getSessionStatus text resource_ operation_
           i n returnData w) = Ok records ->
    Forall (fun r => pairedItem r < i + n) records.
Proof.
  intros Hs. induction n as [|n IH]; intros i returnData w records Hrd.
  - cbn. intros [= <-]. rewrite Nat.add_0_r. exact Hrd.
  - cbn [Node.execute_loop]. unfold bind at 1.
    unfold Node.execute_item, try_catch. unfold bind at 1.
    pose proof (@dispatched_records_are_paired resource_ operation_ i (Hs i) w)
      as Hp.
    destruct (Node.executeAction h getSessionStatus text resource_
                operation_ i w) as [[results|e] w'].
    + cbn [ret]. intros H. replace (i + S n) with (S i + n) by lia.
      apply (IH (S i) _ _ _) in H; [exact H|].
      apply Forall_app. split.
      * eapply Forall_impl; [|exact Hrd]. cbn. intros; lia.
      * eapply Forall_impl; [|exact (Hp results eq_refl)].
        cbn. intros a ->. lia.
    + destruct (continueOnFail h); [|discriminate].
      cbn [ret]. intros H. replace (i + S n) with (S i + n) by lia.
      apply (IH (S i) _ _ _) in H; [exact H|].
      apply Forall_app. split.
      * eapply Forall_impl; [|exact Hrd]. cbn. intros; lia.
      * repeat constructor.
Qed.

(** X13.  What [execute] returns is one output, and every record in it is
    paired to one of the input items. *)
Theorem execute_pairs_records_to_input_items (w : World) outputs :
  (forall i, paired_to i (getSessionStatus i)) ->
  fst (Node.execute h getSessionStatus text w) = Ok outputs ->
  exists records,
    outputs = [records] /\
    Forall (fun r => pairedItem r < inputItems h) records.
Proof.
  intros Hs. unfold Node.execute, bind, getNodeParameter_required, ret, throw.
  destruct (resource (parameters h 0)); [|discriminate].
  destruct (operation (parameters h 0)); [|discriminate].
  destruct (Node.execute_loop h getSessionStatus text j j0 0 (inputItems h)
              [] w) as [[records|e] w'] eqn:E; [|discriminate].
  intros [= <-]. exists records. split; [reflexivity|].
  apply (@loop_pairs j j0 (inputItems h) Hs 0 [] w records (Forall_nil _)).
  now rewrite E.
Qed.

(** X14.  With continue-on-fail set, [execute] does not throw once it has
    read the resource and the operation: every failing item becomes a
    record. *)
Theorem execute_continues_on_fail (w : World) (resource_ operation_ : jsstring) :
  continueOnFail h = true ->
  resource (parameters h 0) = Some resource_ ->
  operation (parameters h 0) = Some operation_ ->
  exists records, fst (Node.execute h getSessionStatus text w) = Ok [records].
Proof.
  intros Hc Hr Ho.
  assert (L : forall n i returnData w0,
            exists records,
              fst (Node.execute_loop h getSessionStatus text resource_
                     operation_ i n returnData w0) = Ok records).
  { induction n as [|n IH]; intros i returnData w0.
    - exists returnData. reflexivity.
    - cbn [Node.execute_loop]. unfold bind at 1.
      unfold Node.execute_item, try_catch. unfold bind at 1. rewrite Hc.
      destruct (Node.executeAction h getSessionStatus text resource_
                  operation_ i w0) as [[results|e] w']; cbn [ret]; apply IH. }
  unfold Node.execute, bind, getNodeParameter_required, ret.
  rewrite Hr, Ho.
  destruct (L (inputItems h) 0 [] w) as [records H].
  exists records.
  destruct (Node.execute_loop h getSessionStatus text resource_ operation_ 0
              (inputItems h) [] w) as [[r|e] w'];
    cbn [fst] in H; [now injection H as -> | discriminate].
Qed.

(** X15.  The resource and the operation are read once, from the first item,
    outside the loop: when one of them is missing [execute] throws
    whatever continue-on-fail says, and no request is made. *)
Theorem execute_needs_resource_and_operation (w : World) :
  resource (parameters h 0) = None \/ operation (parameters h 0) = None ->
  snd (Node.execute h getSessionStatus text w) = w /\
  exists e, fst (Node.execute h getSessionStatus text w) = Throw e.
Proof.
  intros H. unfold Node.execute, bind, getNodeParameter_required, ret, throw.
  destruct (resource (parameters h 0)).
  - destruct H as [H|H]; [discriminate|]. rewrite H.
    split; [reflexivity | eexists; reflexivity].
  - split; [reflexivity | eexists; reflexivity].
Qed.

End Pairing.


(* ================================================================== *)
(** * More on the option loaders *)
(* ================================================================== *)

Section LoaderFacts.

Import Api.
Local Open Scope js_scope.

Variable h : Host.

Ltac open_loader :=
  rewrite caught;
  unfold bind, getCredentials, LoadOptions.load, send_request, ret.

(** X16.  A model listed by the models loader reaches the payload as the pair
    it was listed from, provided the two ids hold no [::] and the
    provider id does not end in a colon. *)
Theorem listed_model_reaches_the_payload
  (provider model_ : json) (pid mid : jsstring) :
  prop_str "id" provider = Some pid ->
  prop_str "id" model_ = Some mid ->
  Str.includes ModelSelector.sep pid = false ->
  Str.includes ModelSelector.sep mid = false ->
  last pid 0%N <> 58%N ->
  exists selector,
    value (LoadOptions.model_option provider model_) = JStr selector /\
    ModelSelector.payload_model selector =
      Some (JObj [(lit "providerID", JStr pid); (lit "modelID", JStr mid)]).
Proof.
  intros Hp Hm Hip Him Hl.
  exists (ModelSelector.encode pid mid). split.
  - unfold LoadOptions.model_option. cbn [value]. now rewrite Hp, Hm.
  - exact (@payload_model_encode pid mid Hip Him Hl).
Qed.

(** X17.  The models loader always puts the default entry, with the empty
    value, first: when the query fails, when the answer has no
    providers, and before the models otherwise. *)
Theorem models_start_with_the_default (w : World) :
  exists rest,
    fst (LoadOptions.getModels h w) = Ok (LoadOptions.defaultOption :: rest) /\
    value LoadOptions.defaultOption = JStr [].
Proof.
  unfold LoadOptions.getModels. open_loader.
  destruct (hostCredentials h); [|eexists; split; reflexivity].
  destruct (remote h _ _); eexists; split; reflexivity.
Qed.

Lemma find_none_filter (agents : list json) :
  List.find LoadOptions.is_primary agents = None ->
  List.filter (fun a => negb (LoadOptions.is_primary a)) agents = agents.
Proof.
  induction agents as [|a l IH]; [reflexivity|].
  cbn [List.find List.filter].
  destruct (LoadOptions.is_primary a); [discriminate|].
  intros H. cbn [negb]. now rewrite IH.
Qed.

(** X18.  On an answer whose elements are agents (objects whose name and
    mode are strings when there) the agents loader lists the
    first primary agent first, marked [(Primary)], then the agents that
    are not primary.  Without a primary agent every agent is listed; a
    second primary agent is listed nowhere. *)
Theorem agents_list_one_primary (w : World) credentials (agents : list json) :
  hostCredentials h = Ok credentials ->
  remote h (trace w) (load_request credentials Agents) = Ok (JArr agents) ->
  forallb typed_agent agents = true ->
  let others :=
    List.filter (fun a => negb (LoadOptions.is_primary a)) agents in
  exists entries,
    fst (LoadOptions.getAgents h w) = Ok entries /\
    (forall a, List.find LoadOptions.is_primary agents = Some a ->
       exists rest,
         entries = primary_option a :: rest /\
         List.length rest = List.length others) /\
    (List.find LoadOptions.is_primary agents = None ->
     List.length entries = List.length agents) /\
    List.length entries <= List.length agents.
Proof.
  intros Hc Hr _. cbv zeta. unfold LoadOptions.getAgents. open_loader.
  rewrite Hc. unfold load_request in Hr. cbn [provider_path] in Hr.
  cbn [trace]. rewrite Hr. eexists. split; [reflexivity|].
  destruct (List.find LoadOptions.is_primary agents) as [a|] eqn:E.
  - split; [|split; [discriminate|]].
    + intros a' [= <-]. eexists. split; [reflexivity|].
      now rewrite length_map.
    + cbn [app List.length]. rewrite length_map.
      assert (Hlt : List.length
                (List.filter (fun a => negb (LoadOptions.is_primary a)) agents)
              < List.length agents).
      { clear Hr. induction agents as [|b l IH]; [discriminate|].
        cbn [List.find] in E. cbn [List.filter].
        destruct (LoadOptions.is_primary b); cbn [negb List.length].
        - pose proof (filter_length_le
                        (fun a => negb (LoadOptions.is_primary a)) l). lia.
        - specialize (IH E). lia. }
      lia.
  - split; [discriminate|]. cbn [app]. rewrite length_map.
    rewrite (find_none_filter agents E). split; [reflexivity|lia].
Qed.

(** Labelling the sessions touches neither the trace nor the console,
    and fails on the first session without title and id. *)
Lemma label_sessions (sessions : list json) (w : World) :
  (forallb listable sessions = true ->
   exists entries,
     LoadOptions.mapM LoadOptions.session_option sessions w =
       (Ok entries, w) /\
     List.map value entries =
       List.map (fun s => opt_str (prop_str "id" s)) sessions) /\
  (forallb listable sessions = false ->
   exists e,
     LoadOptions.mapM LoadOptions.session_option sessions w = (Throw e, w)).
Proof.
  induction sessions as [|s l [IHok IHko]]; cbn [forallb LoadOptions.mapM].
  - split; [|discriminate]. intros _. exists []. split; reflexivity.
  - assert (Hs : listable s = true ->
                 exists o, LoadOptions.session_option s w = (Ok o, w) /\
                           value o = opt_str (prop_str "id" s)).
    { unfold listable, LoadOptions.session_option, bind, ret, throw.
      destruct (LoadOptions.truthy_str (prop_str "title" s)).
      - intros _. eexists. split; reflexivity.
      - destruct (prop_str "id" s); [|discriminate].
        intros _. eexists. split; reflexivity. }
    assert (Hf : listable s = false ->
                 exists e, LoadOptions.session_option s w = (Throw e, w)).
    { unfold listable, LoadOptions.session_option, bind, ret, throw.
      destruct (LoadOptions.truthy_str (prop_str "title" s)); [discriminate|].
      destruct (prop_str "id" s); [discriminate|].
      intros _. eexists. reflexivity. }
    destruct (listable s); cbn [andb].
    + destruct (Hs eq_refl) as (o & Ho & Hv). split.
      * intros Hl. destruct (IHok Hl) as (entries & He & Hm).
        exists (o :: entries). unfold bind. rewrite Ho, He.
        split; [reflexivity|]. cbn [List.map]. now rewrite Hv, Hm.
      * intros Hl. destruct (IHko Hl) as (e & He).
        exists e. unfold bind. now rewrite Ho, He.
    + split; [discriminate|]. intros _.
      destruct (Hf eq_refl) as (e & He). exists e. unfold bind. now rewrite He.
Qed.

(** X19.  On an answer whose elements are sessions (objects whose title
    and id are strings when there) the sessions loader lists one entry
    per session, valued with the session's id, as long as every session
    has a title that is not empty or an id.  One session with neither
    makes it answer with the error entry alone: the other sessions are
    not listed. *)
Theorem sessions_listed_or_none (w : World) credentials (sessions : list json) :
  hostCredentials h = Ok credentials ->
  remote h (trace w) (load_request credentials Sessions) =
    Ok (JArr sessions) ->
  forallb typed_session sessions = true ->
  (forallb listable sessions = true ->
   exists entries,
     fst (LoadOptions.getSessions h w) = Ok entries /\
     List.map value entries =
       List.map (fun s => opt_str (prop_str "id" s)) sessions) /\
  (forallb listable sessions = false ->
   fst (LoadOptions.getSessions h w) = Ok [sentinel Sessions]).
Proof.
  intros Hc Hr _. unfold LoadOptions.getSessions. open_loader.
  rewrite Hc. unfold load_request in Hr. cbn [provider_path] in Hr.
  cbn [trace]. rewrite Hr.
  set (w1 := mkWorld _ _).
  destruct (label_sessions sessions w1) as [Hok Hko]. split.
  - intros Hl. destruct (Hok Hl) as (entries & He & Hm).
    exists entries. now rewrite He.
  - intros Hl. destruct (Hko Hl) as (e & He). now rewrite He.
Qed.

End LoaderFacts.

Section SkillFacts.

Import Api.
Local Open Scope js_scope.

Variable env : SkillEnvironment.

Lemma seen_spec (sk : ISkillInfo) (l : list ISkillInfo) :
  List.existsb (fun s => Str.eqb (skill_name s) (skill_name sk)) l = true <->
  In (skill_name sk) (names_of l).
Proof.
  unfold names_of. rewrite existsb_exists, in_map_iff. split.
  - intros (s & Hi & He). apply str_eqb_eq in He. eauto.
  - intros (s & He & Hi). exists s. split; [exact Hi|].
    apply str_eqb_eq. exact He.
Qed.

(** The collecting loop keeps the names distinct and loses no name. *)
Lemma collect_loop (l acc : list ISkillInfo) :
  NoDup (names_of acc) ->
  let out :=
    fold_left
      (fun allSkills sk =>
         if List.existsb (fun s => Str.eqb (skill_name s) (skill_name sk))
              allSkills
         then allSkills
         else allSkills ++ [sk])
      l acc in
  NoDup (names_of out) /\
  (forall n, In n (names_of acc) \/ In n (names_of l) -> In n (names_of out)) /\
  (forall sk, In sk out -> In sk acc \/ In sk l).
Proof.
  revert acc. induction l as [|sk l IH]; intros acc Hnd; cbv zeta;
    cbn [fold_left].
  - split; [exact Hnd|]. split; [|auto].
    intros n [H|[]]. exact H.
  - destruct (List.existsb _ acc) eqn:E.
    + destruct (IH acc Hnd) as (H1 & H2 & H3). cbv zeta in H1, H2, H3.
      split; [exact H1|]. split.
      * intros n [H|[<-|H]]; apply H2; auto.
        left. now apply seen_spec.
      * intros s Hs. destruct (H3 s Hs); [auto | right; now right].
    + assert (Hnd' : NoDup (names_of (acc ++ [sk]))).
      { unfold names_of. rewrite map_app. cbn [List.map].
        apply Permutation_NoDup with (l := skill_name sk :: List.map skill_name acc).
        - apply Permutation_cons_append.
        - constructor; [|exact Hnd].
          intros Hi. apply seen_spec in Hi. congruence. }
      destruct (IH (acc ++ [sk]) Hnd') as (H1 & H2 & H3).
      cbv zeta in H1, H2, H3. split; [exact H1|]. split.
      * intros n Hn. apply H2. unfold names_of in *. rewrite map_app, in_app_iff.
        cbn [List.map In] in *. tauto.
      * intros s Hs. destruct (H3 s Hs) as [H|H]; [|right; now right].
        apply in_app_iff in H as [H|[<-|[]]]; [auto | right; now left].
Qed.

Lemma insert_skill_perm (sk : ISkillInfo) (l : list ISkillInfo) :
  Permutation (LoadOptions.insert_skill env sk l) (sk :: l).
Proof.
  induction l as [|x l IH]; cbn [LoadOptions.insert_skill]; [reflexivity|].
  destruct (localeCompare_le env _ _); [|reflexivity].
  rewrite IH. apply perm_swap.
Qed.

(** Sorting loses and invents no skill, whatever the comparison of the
    locale is. *)
Lemma sort_skills_perm (l : list ISkillInfo) :
  Permutation (LoadOptions.sort_skills env l) l.
Proof.
  unfold LoadOptions.sort_skills.
  assert (G : forall acc,
            Permutation
              (fold_left (fun a sk => LoadOptions.insert_skill env sk a) l acc)
              (acc ++ l)).
  { induction l as [|sk l IH]; intros acc; cbn [fold_left].
    - now rewrite app_nil_r.
    - rewrite IH, insert_skill_perm.
      change (sk :: acc) with ([sk] ++ acc).
      rewrite <- app_assoc. cbn [app].
      apply Permutation_middle. }
  exact (G []).
Qed.

Lemma skill_description_bound (sk : ISkillInfo) :
  exists d, description (LoadOptions.skill_option sk) = Some d /\
            List.length d <= 103.
Proof.
  unfold LoadOptions.skill_option. cbn [description]. eexists.
  split; [reflexivity|].
  destruct (Nat.ltb_spec 100 (List.length (skill_description sk))) as [H|H].
  - rewrite length_app, length_firstn.
    change (List.length (lit "...")) with 3.
    pose proof (Nat.le_min_l 100 (List.length (skill_description sk))).
    lia.
  - lia.
Qed.

(** X20.  The skills loader, on a machine where the scan finds a skill: no
    two entries share a name, every name the scan found is listed,
    every entry comes from the scan, and no description is longer than
    103 code units (100 and the three dots). *)
Theorem skills_listed_once
  (w : World) (home : jsstring) :
  homedir env = Ok home ->
  scanned env home <> [] ->
  exists entries,
    fst (LoadOptions.getSkills env w) = Ok entries /\
    NoDup (List.map name entries) /\
    (forall sk, In sk (scanned env home) ->
                In (JStr (skill_name sk)) (List.map name entries)) /\
    (forall o, In o entries ->
       exists sk, In sk (scanned env home) /\
                  o = LoadOptions.skill_option sk) /\
    (forall o, In o entries ->
       exists d, description o = Some d /\ List.length d <= 103).
Proof.
  intros Hh Hne.
  set (found := LoadOptions.collect env (LoadOptions.skillDirs env home)).
  assert (Hc : NoDup (names_of found) /\
               (forall n, In n (names_of []) \/
                          In n (names_of (scanned env home)) ->
                          In n (names_of found)) /\
               (forall sk, In sk found ->
                           In sk [] \/ In sk (scanned env home)))
    by exact (collect_loop (scanned env home) [] (NoDup_nil _)).
  destruct Hc as (Hnd & Hall & Hfrom).
  pose proof (sort_skills_perm found) as Hp.
  set (sorted := LoadOptions.sort_skills env found) in *.
  assert (Hsorted : sorted <> []).
  { intros E. rewrite E in Hp. apply Permutation_nil in Hp.
    destruct (scanned env home) as [|sk l] eqn:Es; [now elim Hne|].
    assert (Hi : In (skill_name sk) (names_of found))
      by (apply Hall; right; now left).
    rewrite Hp in Hi. exact Hi. }
  exists (List.map LoadOptions.skill_option sorted).
  split; [|split; [|split; [|split]]].
  - unfold LoadOptions.getSkills. rewrite caught. unfold bind. rewrite Hh.
    fold found. fold sorted. destruct sorted; [now elim Hsorted|reflexivity].
  - rewrite map_map. cbn [LoadOptions.skill_option name].
    rewrite <- (map_map skill_name JStr).
    apply Finite.Injective_map_NoDup; [intros a b [= ->]; reflexivity|].
    apply Permutation_NoDup with (l := names_of found); [|exact Hnd].
    unfold names_of. apply Permutation_map. symmetry. exact Hp.
  - intros sk Hi. rewrite map_map. cbn [LoadOptions.skill_option name].
    rewrite <- (map_map skill_name JStr). apply in_map.
    apply Permutation_in with (l := names_of found).
    + unfold names_of. apply Permutation_map. symmetry. exact Hp.
    + apply Hall. right. unfold names_of. now apply in_map.
  - intros o Ho. apply in_map_iff in Ho as (sk & <- & Hi).
    exists sk. split; [|reflexivity].
    apply (Permutation_in _ Hp) in Hi.
    destruct (Hfrom sk Hi) as [[]|H]. exact H.
  - intros o Ho. apply in_map_iff in Ho as (sk & <- & _).
    apply skill_description_bound.
Qed.

(** X21.  A machine without skills gets the one entry [No skills found],
    which is not the error entry. *)
Theorem no_skills_found (w : World) (home : jsstring) :
  homedir env = Ok home ->
  scanned env home = [] ->
  fst (LoadOptions.getSkills env w) =
    Ok [mkOption (JStr (lit "No skills found")) (JStr []) None] /\
  mkOption (JStr (lit "No skills found")) (JStr []) None <> sentinel Skills.
Proof.
  intros Hh Hs. split; [|discriminate].
  unfold LoadOptions.getSkills. rewrite caught. unfold bind. rewrite Hh.
  unfold LoadOptions.collect. fold (scanned env home). rewrite Hs.
  reflexivity.
Qed.

End SkillFacts.


(* ================================================================== *)
(** * The adapters *)
(* ================================================================== *)

Section ToolFacts.

Import Api.
Local Open Scope js_scope.

Variable h : Host.
Variable c : Tool.Captured.

Lemma tool_try_run message_ sid w :
  Tool.sendMessage_try h c message_ sid w =
  (match remote h (trace w) (tool_message_request c message_ sid) with
   | Ok response => Ok (Str.trim (extractText response))
   | Throw e => Throw e
   end,
   sent w (tool_message_request c message_ sid)).
Proof.
  unfold Tool.sendMessage_try, bind, send_request, ret. cbv zeta.
  fold (tool_message_request c message_ sid).
  destruct (remote h (trace w) _); reflexivity.
Qed.

Lemma tool_delete_run sid w :
  exists logged,
    Tool.deleteSession h c sid w =
    (Ok tt, mkWorld (trace w ++ [tool_delete_request c sid])
                    (console w ++ logged)) /\
    (forall body, remote h (trace w) (tool_delete_request c sid) = Ok body ->
                  logged = []) /\
    (forall e, remote h (trace w) (tool_delete_request c sid) = Throw e ->
       logged =
       [(lit "Failed to delete session " ++ tpl sid ++ lit ":", e)]).
Proof.
  unfold Tool.deleteSession, try_catch, bind, send_request, ret, console_error.
  fold (tool_delete_request c sid).
  destruct (remote h (trace w) _) as [b|e]; cbn [trace console].
  - exists []. rewrite app_nil_r.
    split; [reflexivity|]. split; [reflexivity | discriminate].
  - eexists. split; [reflexivity|]. split; [discriminate|].
    now intros e' [= <-].
Qed.

Lemma tool_temporary_run (message_ : jsstring) (w : World) (body : json) :
  Tool.useTemporarySession c = true ->
  remote h (trace w) (tool_create_request c) = Ok body ->
  exists logged,
    Tool.sendMessage h c message_ w =
    (match remote h (trace w ++ [tool_create_request c])
             (tool_message_request c message_ (prop_str "id" body)) with
     | Ok response => Ok (Str.trim (extractText response))
     | Throw e => Throw e
     end,
     mkWorld
       (trace w ++ [tool_create_request c;
                    tool_message_request c message_ (prop_str "id" body);
                    tool_delete_request c (prop_str "id" body)])
       (console w ++ logged)).
Proof.
  intros Ht Hb. unfold Tool.sendMessage. rewrite Ht.
  unfold bind, Tool.createSession, bind, send_request, ret.
  fold (tool_create_request c). rewrite Hb.
  unfold try_finally. rewrite tool_try_run.
  destruct (tool_delete_run (prop_str "id" body)
              (sent (mkWorld (trace w ++ [tool_create_request c]) (console w))
                 (tool_message_request c message_ (prop_str "id" body))))
    as (logged & Hd & _).
  rewrite Hd. exists logged. unfold sent. cbn [trace console].
  now rewrite <- !app_assoc.
Qed.

(** X22.  The tool in temporary mode, when the create call returned a
    session (an answer that conforms to [ICreateSessionResponse]):
    create, message, one delete for the created session.  The tool
    returns the trimmed text of an answer that conforms to
    [ISendMessageResponse], or throws the error of the host as it is
    (the tool does not wrap it); a failing delete is a line on the
    console and nothing more. *)
Theorem tool_temporary_session (message_ : jsstring) (w : World) (body : json) :
  Tool.useTemporarySession c = true ->
  remote h (trace w) (tool_create_request c) = Ok body ->
  typed_created body = true ->
  let sid := prop_str "id" body in
  let msg := tool_message_request c message_ sid in
  let out := Tool.sendMessage h c message_ w in
  trace (snd out) = trace w ++ [tool_create_request c; msg;
                                tool_delete_request c sid] /\
  (forall response,
     remote h (trace w ++ [tool_create_request c]) msg = Ok response ->
     typed_parts response = true ->
     fst out = Ok (Str.trim (extractText response))) /\
  (forall e, remote h (trace w ++ [tool_create_request c]) msg = Throw e ->
     fst out = Throw e).
Proof.
  intros Ht Hb _. cbv zeta.
  destruct (tool_temporary_run message_ w Ht Hb) as (logged & ->).
  cbn [fst snd trace]. split; [reflexivity|]. split.
  - intros response -> _. reflexivity.
  - intros e ->. reflexivity.
Qed.

(** X23.  When the create call of the tool fails, the error of the host is
    what the tool throws, and no other request is made. *)
Theorem tool_create_failure (message_ : jsstring) (w : World) (e : exn) :
  Tool.useTemporarySession c = true ->
  remote h (trace w) (tool_create_request c) = Throw e ->
  Tool.sendMessage h c message_ w =
  (Throw e, sent w (tool_create_request c)).
Proof.
  intros Ht Hb. unfold Tool.sendMessage. rewrite Ht.
  unfold bind at 1. unfold bind at 1. unfold Tool.createSession.
  unfold bind at 1. unfold send_request at 1.
  fold (tool_create_request c). rewrite Hb. reflexivity.
Qed.

End ToolFacts.

Section ChatFacts.

Variable service : list Chat.FetchRequest -> Chat.FetchRequest -> Chat.Fetched.
Variable formatToolsAsPrompt : list Chat.ToolDefinition -> jsstring.
Variable parseToolCalls : jsstring -> list Chat.ParsedToolCall.
Variable this : Chat.ChatOpenCode.

Let generate := Chat._generate service formatToolsAsPrompt parseToolCalls this.

(** X24.  Without the temporary mode and without a session id (none, or the
    empty string) [_generate] throws before it calls the service. *)
Theorem chat_needs_a_session messages options_tools (w : Chat.ChatWorld) :
  Chat.chat_useTemporarySession this = false ->
  Chat.chat_sessionId this = None \/ Chat.chat_sessionId this = Some [] ->
  generate messages options_tools w = (Chat.Raised no_session_error, w).
Proof.
  intros Ht Hs. unfold generate, Chat._generate. rewrite Ht.
  unfold Chat.andThen, Chat.pure.
  destruct Hs as [-> | ->]; reflexivity.
Qed.

(** X25.  A create call answered with a status that is not ok: [_generate]
    throws the error that quotes the status, and the create call is
    its only call. *)
Theorem chat_create_refused messages options_tools (w : Chat.ChatWorld)
  (r : Chat.Response) :
  Chat.chat_useTemporarySession this = true ->
  service (Chat.fetches w) (chat_create_request this) = Chat.Responded r ->
  Chat.ok r = false ->
  generate messages options_tools w =
  (Chat.Raised
     (Chat.Error (lit "Failed to create session: " ++
                  Str.ofZ (Chat.status r) ++ lit " " ++ Chat.statusText r)),
   Chat.mkChatWorld (Chat.fetches w ++ [chat_create_request this])
     (Chat.lines w)).
Proof.
  intros Ht Hr Hok. unfold generate, Chat._generate. rewrite Ht.
  unfold Chat.createSession, Chat.andThen, Chat.fetch.
  fold (chat_create_request this). rewrite Hr, Hok. reflexivity.
Qed.

Lemma chat_delete_run sid (w : Chat.ChatWorld) :
  Chat.deleteSession service this sid w =
  match service (Chat.fetches w) (chat_delete_request this sid) with
  | Chat.Responded r =>
      (Chat.Returned tt,
       Chat.mkChatWorld (Chat.fetches w ++ [chat_delete_request this sid])
         (Chat.lines w ++
          if Chat.ok r then []
          else [lit "Failed to delete session " ++ sid ++ lit ": " ++
                Str.ofZ (Chat.status r) ++ lit " " ++ Chat.statusText r]))
  | Chat.Rejected e =>
      (Chat.Raised e,
       Chat.mkChatWorld (Chat.fetches w ++ [chat_delete_request this sid])
         (Chat.lines w))
  end.
Proof.
  unfold Chat.deleteSession, Chat.andThen, Chat.fetch.
  fold (chat_delete_request this sid).
  destruct (service (Chat.fetches w) _) as [r|e]; [|reflexivity].
  destruct (Chat.ok r); cbn [negb]; [|reflexivity].
  unfold Chat.pure. now rewrite app_nil_r.
Qed.

Lemma chat_try_fetches tools messages sid del (w : Chat.ChatWorld) :
  Chat.fetches
    (snd (Chat.request_try service formatToolsAsPrompt parseToolCalls this
            tools messages sid del w)) =
  Chat.fetches w ++
  [chat_message_request this
     (Chat.messageText formatToolsAsPrompt tools messages) sid] /\
  Chat.lines
    (snd (Chat.request_try service formatToolsAsPrompt parseToolCalls this
            tools messages sid del w)) = Chat.lines w.
Proof.
  unfold Chat.request_try, Chat.catching, Chat.andThen, Chat.fetch.
  fold (chat_message_request this
          (Chat.messageText formatToolsAsPrompt tools messages) sid).
  destruct (service (Chat.fetches w) _) as [r|e].
  - destruct (Chat.ok r); cbn [negb].
    + unfold Chat.read_json. destruct (Chat.json_ r) as [data|e].
      * split; reflexivity.
      * unfold Chat.raise.
        destruct (Chat.instanceofError e && _); split; reflexivity.
    + unfold Chat.raise. cbn [Chat.Error Chat.instanceofError Chat.thrown_name].
      split; reflexivity.
  - unfold Chat.raise.
    destruct (Chat.instanceofError e && _); split; reflexivity.
Qed.

Lemma chat_temporary_run messages options_tools (w : Chat.ChatWorld)
  (r : Chat.Response) (data : json) (ch : char16) (rest : jsstring) :
  Chat.chat_useTemporarySession this = true ->
  service (Chat.fetches w) (chat_create_request this) = Chat.Responded r ->
  Chat.ok r = true ->
  Chat.json_ r = Chat.Returned data ->
  prop_str "id" data = Some (ch :: rest) ->
  let sid := ch :: rest in
  let block :=
    Chat.request_try service formatToolsAsPrompt parseToolCalls this
      (Chat.tools_of this options_tools) messages sid true
      (Chat.mkChatWorld (Chat.fetches w ++ [chat_create_request this])
         (Chat.lines w)) in
  generate messages options_tools w =
  let (completion, w2) := block in
  match Chat.deleteSession service this sid w2 with
  | (Chat.Returned _, w3) => (completion, w3)
  | (Chat.Raised e, w3) => (Chat.Raised e, w3)
  end.
Proof.
  intros Ht Hr Hok Hj Hid. cbv zeta. unfold generate, Chat._generate.
  rewrite Ht. unfold Chat.createSession, Chat.andThen, Chat.fetch.
  fold (chat_create_request this). rewrite Hr, Hok. cbn [negb].
  unfold Chat.read_json. rewrite Hj. unfold Chat.pure. rewrite Hid.
  reflexivity.
Qed.

(** X26.  The chat model in temporary mode, once the service has created a
    session with an id: the calls are create, message, delete.  A
    delete that is answered, ok or not, leaves the completion of the
    message as it is (a refusal is a line on the console); a delete
    that is rejected, a network failure, replaces that completion,
    even a result, by its own error. *)
Theorem chat_temporary_session messages options_tools (w : Chat.ChatWorld)
  (r : Chat.Response) (data : json) (ch : char16) (rest : jsstring) :
  Chat.chat_useTemporarySession this = true ->
  service (Chat.fetches w) (chat_create_request this) = Chat.Responded r ->
  Chat.ok r = true ->
  Chat.json_ r = Chat.Returned data ->
  prop_str "id" data = Some (ch :: rest) ->
  let sid := ch :: rest in
  let tools := Chat.tools_of this options_tools in
  let w1 := Chat.mkChatWorld (Chat.fetches w ++ [chat_create_request this])
              (Chat.lines w) in
  let block := Chat.request_try service formatToolsAsPrompt parseToolCalls
                 this tools messages sid true w1 in
  let out := generate messages options_tools w in
  Chat.fetches (snd out) =
    Chat.fetches w ++
    [chat_create_request this;
     chat_message_request this
       (Chat.messageText formatToolsAsPrompt tools messages) sid;
     chat_delete_request this sid] /\
  (forall d, service (Chat.fetches (snd block)) (chat_delete_request this sid)
             = Chat.Responded d ->
     fst out = fst block) /\
  (forall e, service (Chat.fetches (snd block)) (chat_delete_request this sid)
             = Chat.Rejected e ->
     fst out = Chat.Raised e).
Proof.
  intros Ht Hr Hok Hj Hid. cbv zeta.
  rewrite (chat_temporary_run messages options_tools w Ht Hr Hok Hj Hid).
  cbv zeta.
  pose proof (chat_try_fetches (Chat.tools_of this options_tools) messages
                (ch :: rest) true
                (Chat.mkChatWorld
                   (Chat.fetches w ++ [chat_create_request this])
                   (Chat.lines w))) as [Hf _].
  destruct (Chat.request_try service formatToolsAsPrompt parseToolCalls this
              (Chat.tools_of this options_tools) messages (ch :: rest) true
              _) as [completion w2].
  cbn [fst snd Chat.fetches] in *. rewrite chat_delete_run.
  destruct (service (Chat.fetches w2) _) as [d|e];
    cbn [fst snd Chat.fetches]; rewrite Hf, <- !app_assoc;
    (split; [reflexivity|]); split.
  - reflexivity.
  - discriminate.
  - discriminate.
  - now intros e' [= <-].
Qed.

(** X27.  How [_generate] reports the failures of its message call: an abort
    becomes the timeout error that quotes the configured timeout (a
    whole number of milliseconds that a number holds exactly, printed
    in plain decimal), a status that is not ok becomes the error that
    quotes the status, and any other rejection is thrown as it is. *)
Theorem chat_request_errors tools messages sid del (w : Chat.ChatWorld) :
  let req := chat_message_request this
               (Chat.messageText formatToolsAsPrompt tools messages) sid in
  let out := Chat.request_try service formatToolsAsPrompt parseToolCalls this
               tools messages sid del w in
  (forall msg, service (Chat.fetches w) req =
               Chat.Rejected (Chat.mkThrown true (lit "AbortError") msg) ->
     isSafeInteger (Chat.chat_timeout this) = true ->
     fst out =
     Chat.Raised
       (Chat.Error (lit "OpenCode API request timeout after " ++
                    Str.ofZ (Chat.chat_timeout this) ++ lit "ms"))) /\
  (forall e, service (Chat.fetches w) req = Chat.Rejected e ->
     Chat.thrown_name e <> lit "AbortError" ->
     fst out = Chat.Raised e) /\
  (forall r, service (Chat.fetches w) req = Chat.Responded r ->
     Chat.ok r = false ->
     fst out =
     Chat.Raised
       (Chat.Error (lit "OpenCode API error: " ++ Str.ofZ (Chat.status r) ++
                    lit " " ++ Chat.statusText r))).
Proof.
  cbv zeta. unfold Chat.request_try, Chat.catching, Chat.andThen, Chat.fetch.
  fold (chat_message_request this
          (Chat.messageText formatToolsAsPrompt tools messages) sid).
  split; [|split].
  - intros msg -> _. reflexivity.
  - intros e -> Hn. apply str_eqb_neq in Hn. unfold Chat.raise.
    rewrite Hn. now rewrite andb_false_r.
  - intros r -> Hok. rewrite Hok. reflexivity.
Qed.

(** X28.  The text [_generate] sends.  A message whose content is an array
    without text leaves nothing in it, not even its marker, whereas a
    message whose content is the empty string leaves its marker; and
    the texts of two runs of messages are the texts of the first
    followed by the texts of the second. *)
Theorem chat_message_texts (before after : list Chat.BaseMessage)
  (t : Chat.MessageType) (parts : list Chat.ContentPart) :
  Chat.messageTexts (before ++ after) =
    Chat.messageTexts before ++ Chat.messageTexts after /\
  (Forall (fun p => p = Chat.OtherPart) parts ->
   Chat.messageTexts
     (before ++ Chat.mkMessage t (Chat.ArrayContent parts) :: after) =
   Chat.messageTexts (before ++ after)) /\
  Chat.messageTexts
    (before ++ Chat.mkMessage t (Chat.StringContent []) :: after) =
  Chat.messageTexts before ++ Chat.prefix t :: Chat.messageTexts after.
Proof.
  unfold Chat.messageTexts. split; [apply flat_map_app|]. split.
  - intros Hp. rewrite !flat_map_app. f_equal. cbn [List.flat_map].
    cbn [Chat.content].
    replace (List.flat_map _ parts) with (@nil jsstring).
    + reflexivity.
    + induction Hp as [|p l -> _ IH]; [reflexivity|exact IH].
  - rewrite flat_map_app. f_equal. cbn [List.flat_map Chat.content Chat.getType].
    now rewrite app_nil_r.
Qed.

(** [bindTools] gives a model with the same connection and session
    settings and with the given tools in place of the old ones; a tool
    without a name is called [unknown]. *)
Theorem bindTools_replaces_tools (tools : list Chat.ToolLike) :
  let bound := Chat.bindTools this tools in
  Chat.chat_baseUrl bound = Chat.chat_baseUrl this /\
  Chat.chat_sessionId bound = Chat.chat_sessionId this /\
  Chat.chat_model bound = Chat.chat_model this /\
  Chat.chat_timeout bound = Chat.chat_timeout this /\
  Chat.chat_useTemporarySession bound = Chat.chat_useTemporarySession this /\
  Chat.chat_tempSessionTitle bound = Chat.chat_tempSessionTitle this /\
  (forall more, Chat.bindTools bound more = Chat.bindTools this more) /\
  (forall options_tools,
     List.length (Chat.tools_of bound options_tools) = List.length tools) /\
  (forall t, In t tools -> Chat.like_name t = None ->
     exists d, In d (Chat.tools_of bound None) /\
               Chat.tool_name d = lit "unknown").
Proof.
  cbv zeta. do 7 (split; [reflexivity|]). split.
  - intros ot. unfold Chat.tools_of, Chat.bindTools, Chat.construct.
    cbn [Chat.boundTools Chat.in_boundTools]. now rewrite length_map.
  - intros t Hi Hn. unfold Chat.tools_of, Chat.bindTools, Chat.construct.
    cbn [Chat.boundTools Chat.in_boundTools].
    exists (Chat.mkTool (str_or (Chat.like_name t) (lit "unknown"))
              (str_or (Chat.like_description t) []) (Chat.like_schema t)).
    split.
    + apply (in_map (fun t => Chat.mkTool
                                (str_or (Chat.like_name t) (lit "unknown"))
                                (str_or (Chat.like_description t) [])
                                (Chat.like_schema t))). exact Hi.
    + cbn [Chat.tool_name]. now rewrite Hn.
Qed.

End ChatFacts.


(* ================================================================== *)
(** * The properties at concrete hosts *)
(* ================================================================== *)

Lemma transport_witness :
  fst (Api.openCodeApiRequest (Examples2.failing_host false)
         Examples.credentials (Api.mkApi GET (lit "/session") None None)
         Examples.start) =
  Throw (Error (lit "OpenCode API request failed: connect ECONNREFUSED")).
Proof.
  pose proof (@transport_one_attempt (Examples2.failing_host false)
                Examples.credentials
                (Api.mkApi GET (lit "/session") None None) Examples.start)
    as H.
  cbv zeta in H. destruct H as (_ & _ & _ & _ & _ & H & _).
  apply (H (lit "connect ECONNREFUSED")); [reflexivity|].
  vm_compute. discriminate.
Defined.

Lemma action_fails_witness :
  snd (run Examples2.locked_host Shell 0 Examples.start) = Examples.start.
Proof.
  exact (proj1 (@action_fails_before_any_request Examples2.locked_host Shell 0
                  Examples.start
                  (or_introl (ex_intro _ (Error (lit "Credentials not found"))
                                eq_refl)))).
Defined.

Lemma async_send_witness :
  fst (Message.sendMessageAsync_try (Examples2.answering JNull)
         Examples.credentials 0 (lit "hi") [] noOptions (Some (lit "s1"))
         false Examples.start) =
  Ok [mkItem (async_record (Some (lit "s1")) false) 0].
Proof.
  exact (@async_send_ignores_the_answer (Examples2.answering JNull)
           Examples.credentials 0 (lit "hi") [] noOptions (Some (lit "s1"))
           false Examples.start JNull eq_refl).
Defined.

Lemma list_sessions_witness :
  fst (Session.listSessions (Examples2.answering (JArr [])) 0 Examples.start)
  = Ok [].
Proof.
  exact (proj1 (proj2 (@list_sessions_records (Examples2.answering (JArr []))
                         0 Examples.start Examples.credentials (JArr [])
                         eq_refl eq_refl)) eq_refl).
Defined.

Lemma delete_action_witness :
  fst (Session.deleteSession (Examples2.failing_host false) 0 Examples.start)
  = Throw (request_failed (Error (lit "connect ECONNREFUSED"))).
Proof.
  pose proof (@delete_action_reports_failure (Examples2.failing_host false) 0
                Examples.start Examples.credentials (lit "s1")
                eq_refl eq_refl) as H.
  cbv zeta in H. destruct H as (_ & _ & H & _).
  apply H. reflexivity.
Defined.


Lemma list_messages_address_witness :
  exists r,
    trace (snd (Message.listMessages (Examples2.answering JNull) 0
                  Examples.start)) = [r] /\
    req_url r = lit "http://127.0.0.1:4096/session/s1/message?limit=50".
Proof.
  destruct (@list_messages_address (Examples2.answering JNull) 0
              Examples.start Examples.credentials (lit "s1")
              eq_refl eq_refl) as (r & H1 & _ & _ & H2).
  exists r. split; [exact H1|].
  rewrite H2; reflexivity.
Defined.

Lemma paired_witness :
  paired_to 1
    (Node.executeAction (Examples2.answering (JArr [JNull; JNull]))
       Examples2.no_status Message.ParsedArguments (lit "session")
       (lit "list") 1).
Proof.
  apply dispatched_records_are_paired.
  intros w records [= <-]. constructor.
Defined.

Lemma execute_pairs_witness :
  exists records,
    fst (Node.execute (Examples.unreachable_host true) Examples2.no_status
           Message.ParsedArguments Examples.start) = Ok [records] /\
    Forall (fun r => pairedItem r < 2) records.
Proof.
  destruct (@execute_pairs_records_to_input_items
              (Examples.unreachable_host true) Examples2.no_status
              Message.ParsedArguments Examples.start _
              (fun i w records H =>
                 match H in _ = o
                       return match o with
                              | Ok l => Forall _ l
                              | Throw _ => True
                              end
                 with eq_refl => Forall_nil _ end)
              eq_refl) as (records & He & Hp).
  exists records. split; [|exact Hp].
  injection He as <-. reflexivity.
Defined.

Lemma execute_continues_witness :
  exists records,
    fst (Node.execute (Examples2.failing_host true) Examples2.no_status
           Message.ParsedArguments Examples.start) = Ok [records].
Proof.
  exact (@execute_continues_on_fail (Examples2.failing_host true)
           Examples2.no_status Message.ParsedArguments Examples.start
           (lit "message") (lit "send") eq_refl eq_refl eq_refl).
Defined.

Lemma execute_needs_witness :
  snd (Node.execute Examples2.unconfigured_host Examples2.no_status
         Message.ParsedArguments Examples.start) = Examples.start.
Proof.
  exact (proj1 (@execute_needs_resource_and_operation
                  Examples2.unconfigured_host Examples2.no_status
                  Message.ParsedArguments Examples.start
                  (or_introl eq_refl))).
Defined.

Lemma listed_model_witness :
  exists selector,
    value (LoadOptions.model_option Examples2.anthropic Examples2.sonnet) =
      JStr selector /\
    ModelSelector.payload_model selector =
      Some (JObj [(lit "providerID", JStr (lit "anthropic"));
                  (lit "modelID", JStr (lit "claude-sonnet"))]).
Proof.
  assert (Hl : last (lit "anthropic") 0%N <> 58%N)
    by (vm_compute; discriminate).
  exact (@listed_model_reaches_the_payload Examples2.anthropic
           Examples2.sonnet (lit "anthropic") (lit "claude-sonnet")
           eq_refl eq_refl eq_refl eq_refl Hl).
Defined.

Lemma agents_witness :
  exists entries,
    fst (LoadOptions.getAgents
           (Examples2.answering (JArr Examples2.three_agents))
           Examples.start) = Ok entries /\
    List.length entries = 2.
Proof.
  destruct (@agents_list_one_primary
              (Examples2.answering (JArr Examples2.three_agents))
              Examples.start Examples.credentials Examples2.three_agents
              eq_refl eq_refl eq_refl) as (entries & He & Hp & _).
  exists entries. split; [exact He|].
  destruct (Hp (Examples2.named "build" "primary") eq_refl)
    as (rest & -> & Hr).
  cbn [List.length]. rewrite Hr. reflexivity.
Defined.

Lemma sessions_witness :
  fst (LoadOptions.getSessions
         (Examples2.answering
            (JArr [Examples2.good_session; Examples2.bare_session]))
         Examples.start) = Ok [sentinel Sessions].
Proof.
  exact (proj2 (@sessions_listed_or_none
                  (Examples2.answering
                     (JArr [Examples2.good_session; Examples2.bare_session]))
                  Examples.start Examples.credentials
                  [Examples2.good_session; Examples2.bare_session]
                  eq_refl eq_refl eq_refl) eq_refl).
Defined.

Lemma skills_witness :
  exists entries,
    fst (LoadOptions.getSkills Examples2.two_skill_dirs Examples.start) =
      Ok entries /\
    NoDup (List.map name entries) /\
    In (JStr (lit "review")) (List.map name entries).
Proof.
  assert (Hne : scanned Examples2.two_skill_dirs (lit "/home/node") <> [])
    by (vm_compute; discriminate).
  destruct (@skills_listed_once Examples2.two_skill_dirs Examples.start
              (lit "/home/node") eq_refl Hne)
    as (entries & He & Hn & Hi & _).
  exists entries. split; [exact He|]. split; [exact Hn|].
  apply (Hi (mkSkill (lit "review") (lit "Reviews code")
               (lit "/home/node/.claude/skills"))).
  vm_compute. left. reflexivity.
Defined.

Lemma no_skills_witness :
  fst (LoadOptions.getSkills Examples.no_skills Examples.start) =
  Ok [mkOption (JStr (lit "No skills found")) (JStr []) None].
Proof.
  exact (proj1 (@no_skills_found Examples.no_skills Examples.start
                  (lit "/home/node") eq_refl eq_refl)).
Defined.

Lemma tool_temporary_witness :
  fst (Tool.sendMessage Examples.temporary_host Examples2.temporary_tool
         (lit "2+2?") Examples.start) =
    Throw (Error (lit "socket hang up")) /\
  List.length
    (trace (snd (Tool.sendMessage Examples.temporary_host
                   Examples2.temporary_tool (lit "2+2?") Examples.start))) = 3 /\
  typed_created Examples2.session_and_answer = true /\
  typed_parts Examples2.session_and_answer = true /\
  fst (Tool.sendMessage (Examples2.answering Examples2.session_and_answer)
         Examples2.temporary_tool (lit "2+2?") Examples.start) =
    Ok (lit "4").
Proof.
  pose proof (@tool_temporary_session Examples.temporary_host
                Examples2.temporary_tool (lit "2+2?") Examples.start
                (obj_lit [(lit "id", JStr (lit "tmp1"))])
                eq_refl eq_refl eq_refl)
    as H.
  pose proof (@tool_temporary_session
                (Examples2.answering Examples2.session_and_answer)
                Examples2.temporary_tool (lit "2+2?") Examples.start
                Examples2.session_and_answer eq_refl eq_refl eq_refl)
    as H'.
  cbv zeta in H, H'. destruct H as (Ht & _ & He).
  destruct H' as (_ & Hok & _).
  split; [apply He; reflexivity|].
  split; [rewrite Ht; reflexivity|].
  do 2 (split; [reflexivity|]).
  rewrite (Hok Examples2.session_and_answer eq_refl eq_refl). reflexivity.
Defined.

Lemma tool_create_failure_witness :
  fst (Tool.sendMessage (Examples2.failing_host false)
         Examples2.temporary_tool (lit "2+2?") Examples.start) =
  Throw (Error (lit "connect ECONNREFUSED")).
Proof.
  rewrite (@tool_create_failure (Examples2.failing_host false)
             Examples2.temporary_tool (lit "2+2?") Examples.start
             (Error (lit "connect ECONNREFUSED")) eq_refl eq_refl).
  reflexivity.
Defined.

Lemma chat_needs_a_session_witness :
  fst (Chat._generate Examples2.refuses Examples2.no_prompt Examples2.no_calls
         Examples2.sessionless_chat Examples2.question None
         Examples2.chat_start) = Chat.Raised no_session_error /\
  Chat.fetches
    (snd (Chat._generate Examples2.refuses Examples2.no_prompt
            Examples2.no_calls Examples2.sessionless_chat Examples2.question
            None Examples2.chat_start)) = [].
Proof.
  rewrite (@chat_needs_a_session Examples2.refuses Examples2.no_prompt
             Examples2.no_calls Examples2.sessionless_chat Examples2.question
             None Examples2.chat_start eq_refl (or_introl eq_refl)).
  split; reflexivity.
Defined.

Lemma chat_create_refused_witness :
  fst (Chat._generate Examples2.refuses Examples2.no_prompt Examples2.no_calls
         Examples2.temporary_chat Examples2.question None
         Examples2.chat_start) =
  Chat.Raised
    (Chat.Error (lit "Failed to create session: 503 Service Unavailable")).
Proof.
  rewrite (@chat_create_refused Examples2.refuses Examples2.no_prompt
             Examples2.no_calls Examples2.temporary_chat Examples2.question
             None Examples2.chat_start Examples2.unavailable
             eq_refl eq_refl eq_refl).
  reflexivity.
Defined.

(** The answer [4] was there, and the caller gets the failure of the
    delete call in its place. *)
Lemma chat_temporary_witness :
  fst (Chat._generate Examples2.drops_on_delete Examples2.no_prompt
         Examples2.no_calls Examples2.temporary_chat Examples2.question None
         Examples2.chat_start) = Chat.Raised Examples2.network_down /\
  List.length
    (Chat.fetches
       (snd (Chat._generate Examples2.drops_on_delete Examples2.no_prompt
               Examples2.no_calls Examples2.temporary_chat Examples2.question
               None Examples2.chat_start))) = 3.
Proof.
  pose proof (@chat_temporary_session Examples2.drops_on_delete
                Examples2.no_prompt Examples2.no_calls
                Examples2.temporary_chat Examples2.question None
                Examples2.chat_start Examples2.created
                (obj_lit [(lit "id", JStr (lit "tmp1"))]) 116%N (lit "mp1")
                eq_refl eq_refl eq_refl eq_refl eq_refl) as H.
  cbv zeta in H. destruct H as (Hf & _ & He). split.
  - apply He. reflexivity.
  - rewrite Hf. reflexivity.
Defined.

Lemma chat_request_errors_witness :
  fst (Chat.request_try Examples2.times_out Examples2.no_prompt
         Examples2.no_calls Examples2.temporary_chat [] Examples2.question
         (lit "s1") false Examples2.chat_start) =
  Chat.Raised
    (Chat.Error (lit "OpenCode API request timeout after 5000ms")).
Proof.
  pose proof (@chat_request_errors Examples2.times_out Examples2.no_prompt
                Examples2.no_calls Examples2.temporary_chat []
                Examples2.question (lit "s1") false Examples2.chat_start)
    as H.
  cbv zeta in H. destruct H as (H & _).
  rewrite (H (lit "This operation was aborted") eq_refl eq_refl).
  reflexivity.
Defined.

Lemma chat_message_texts_witness :
  Chat.messageTexts
    (Examples2.question ++
     [Chat.mkMessage Chat.ai (Chat.ArrayContent [Chat.OtherPart])]) =
  [lit "[User]: 2+2?"].
Proof.
  rewrite (proj1 (proj2 (@chat_message_texts Examples2.question [] Chat.ai
                           [Chat.OtherPart]))
             (Forall_cons _ eq_refl (Forall_nil _))).
  reflexivity.
Defined.

